(** * Verification of the smolagents span wrappers

    A shallow embedding of
    [openinference/instrumentation/smolagents/_wrappers.py]:
    the safe JSON encoder, the attribute flattener, the argument binder
    and the four span wrappers (run, step, model call, tool call),
    followed by the properties proved about them.

    Python values are a tree type [pyval]; code that can raise returns a
    [result]; the wrappers are state transformers over the tracing
    [World].  Floating point numbers are left out of the value universe. *)

From stdpp Require Import gmap strings list pretty.

Open Scope Z_scope.
Open Scope string_scope.

(** ** Exceptions and fallible computations *)

(** An exception object: its class followed by its base classes (the
    method resolution order), and the text [str(exception)] yields. *)
Record exc := Exc { exc_mro : list string; exc_message : string }.

Definition result (A : Type) : Type := exc + A.
Definition Ok {A : Type} (a : A) : result A := inr a.
Definition Err {A : Type} (e : exc) : result A := inl e.

Definition bind {A B : Type} (m : result A) (k : A -> result B) : result B :=
  match m with
  | inl e => inl e
  | inr a => k a
  end.

Notation "x <- m ;; k" := (bind m (fun x => k))
  (at level 100, m at next level, right associativity).

(** [isinstance(e, cls)] for an exception object. *)
Definition exc_isinstance (e : exc) (cls : string) : bool :=
  bool_decide (cls ∈ exc_mro e).

Definition TypeError (msg : string) : exc :=
  Exc ["TypeError"; "Exception"; "BaseException"; "object"] msg.
Definition AttributeError (msg : string) : exc :=
  Exc ["AttributeError"; "Exception"; "BaseException"; "object"] msg.
Definition IndexError (msg : string) : exc :=
  Exc ["IndexError"; "LookupError"; "Exception"; "BaseException"; "object"] msg.
Definition RecursionError (msg : string) : exc :=
  Exc ["RecursionError"; "RuntimeError"; "Exception"; "BaseException"; "object"] msg.

(** ** Python values *)

(** What an object of a user class shows of itself: its class name, the
    names of the classes it inherits from, and its [repr] and [str]. *)
Record objmeta := ObjMeta {
  ob_class : string;
  ob_bases : list string;
  ob_repr : string;
  ob_str : string
}.

#[local] Set Warnings "-register-all".

(** [VDict] keeps insertion order, as a Python dict does.  [VEnum] is a
    member of an [Enum] class with its underlying [.value].  [VMethod] is
    a bound method without arguments, given by what calling it does.
    [VObj] is an instance of a user class with the attributes of the class
    and those of the instance. *)
Inductive pyval :=
| VNone
| VBool (b : bool)
| VInt (n : Z)
| VStr (s : string)
| VList (xs : list pyval)
| VTuple (xs : list pyval)
| VDict (kvs : list (string * pyval))
| VEnum (cls member : string) (value : pyval)
| VMethod (ret : exc + pyval)
| VObj (meta : objmeta) (cls_attrs attrs : list (string * pyval)).

Definition is_None (v : pyval) : bool :=
  match v with VNone => true | _ => false end.

(** [isinstance(v, Mapping)], [isinstance(v, List)], [isinstance(v, Enum)],
    [isinstance(v, str)], [isinstance(v, list)], [isinstance(v, dict)]. *)
Definition is_Mapping (v : pyval) : bool :=
  match v with VDict _ => true | _ => false end.
Definition is_List (v : pyval) : bool :=
  match v with VList _ => true | _ => false end.
Definition is_Enum (v : pyval) : bool :=
  match v with VEnum _ _ _ => true | _ => false end.
Definition is_str (v : pyval) : bool :=
  match v with VStr _ => true | _ => false end.

(** Truth value of [v] in a condition ([if v:], [not v]). *)
Definition truthy (v : pyval) : bool :=
  match v with
  | VNone => false
  | VBool b => b
  | VInt n => negb (n =? 0)%Z
  | VStr s => negb (String.eqb s "")
  | VList xs | VTuple xs => negb (bool_decide (length xs = 0%nat))
  | VDict kvs => negb (bool_decide (length kvs = 0%nat))
  | VEnum _ _ _ | VMethod _ | VObj _ _ _ => true
  end.

(** [type(v).__name__]. *)
Definition type_name (v : pyval) : string :=
  match v with
  | VNone => "NoneType"
  | VBool _ => "bool"
  | VInt _ => "int"
  | VStr _ => "str"
  | VList _ => "list"
  | VTuple _ => "tuple"
  | VDict _ => "dict"
  | VEnum cls _ _ => cls
  | VMethod _ => "method"
  | VObj meta _ _ => ob_class meta
  end.

(** ** Ordered dictionaries *)

Fixpoint dict_get {A : Type} (k : string) (d : list (string * A)) : option A :=
  match d with
  | [] => None
  | (k', v) :: d' => if String.eqb k k' then Some v else dict_get k d'
  end.

(** [d[k] = v]: an existing key keeps its position, a new key goes last. *)
Fixpoint dict_set {A : Type} (k : string) (v : A) (d : list (string * A))
  : list (string * A) :=
  match d with
  | [] => [(k, v)]
  | (k', v') :: d' =>
      if String.eqb k k' then (k, v) :: d' else (k', v') :: dict_set k v d'
  end.

Fixpoint dict_pop {A : Type} (k : string) (d : list (string * A))
  : list (string * A) :=
  match d with
  | [] => []
  | (k', v') :: d' =>
      if String.eqb k k' then d' else (k', v') :: dict_pop k d'
  end.

(** [{**d1, **d2}] and [d1 | d2], also [dict(pairs)] from [[]]. *)
Definition dict_update {A : Type} (d1 d2 : list (string * A))
  : list (string * A) :=
  foldl (fun d kv => dict_set kv.1 kv.2 d) d1 d2.

Definition dict_of_pairs {A : Type} (pairs : list (string * A))
  : list (string * A) :=
  dict_update [] pairs.

(** ** Attribute access *)

Definition lookup_attr (o : pyval) (name : string) : option pyval :=
  match o with
  | VObj _ cls_attrs attrs =>
      match dict_get name attrs with
      | Some v => Some v
      | None => dict_get name cls_attrs
      end
  | _ => None
  end.

Definition hasattr (o : pyval) (name : string) : bool :=
  bool_decide (is_Some (lookup_attr o name)).

(** [o.name] *)
Definition getattr (o : pyval) (name : string) : result pyval :=
  match lookup_attr o name with
  | Some v => Ok v
  | None =>
      Err (AttributeError ("'" +:+ type_name o +:+ "' object has no attribute '"
                           +:+ name +:+ "'"))
  end.

(** [getattr(o, name, default)] *)
Definition getattr_default (o : pyval) (name : string) (default : pyval) : pyval :=
  match lookup_attr o name with
  | Some v => v
  | None => default
  end.

(** [o.__class__.name]: an attribute of the class, not of the instance. *)
Definition getattr_class (o : pyval) (name : string) : result pyval :=
  match o with
  | VObj _ cls_attrs _ =>
      match dict_get name cls_attrs with
      | Some v => Ok v
      | None =>
          Err (AttributeError ("type object '" +:+ type_name o
                               +:+ "' has no attribute '" +:+ name +:+ "'"))
      end
  | _ =>
      Err (AttributeError ("type object '" +:+ type_name o
                           +:+ "' has no attribute '" +:+ name +:+ "'"))
  end.

Definition callable (v : pyval) : bool :=
  match v with VMethod _ => true | _ => false end.

(** [f()] *)
Definition call0 (f : pyval) : result pyval :=
  match f with
  | VMethod ret => ret
  | _ => Err (TypeError ("'" +:+ type_name f +:+ "' object is not callable"))
  end.

(** [isinstance(o, cls)] for a user class [cls]. *)
Definition isinstance_of (o : pyval) (cls : string) : bool :=
  match o with
  | VObj meta _ _ => bool_decide (cls ∈ ob_class meta :: ob_bases meta)
  | _ => false
  end.

(** ** [str] and [repr] *)

Definition hex_digit (n : nat) : string :=
  match n with
  | 0 => "0" | 1 => "1" | 2 => "2" | 3 => "3" | 4 => "4" | 5 => "5"
  | 6 => "6" | 7 => "7" | 8 => "8" | 9 => "9" | 10 => "a" | 11 => "b"
  | 12 => "c" | 13 => "d" | 14 => "e" | _ => "f"
  end%nat.

Definition hex2 (n : nat) : string :=
  hex_digit (n / 16) +:+ hex_digit (n mod 16).

Definition char (c : Ascii.ascii) : string := String c EmptyString.

Fixpoint string_contains (c : Ascii.ascii) (s : string) : bool :=
  match s with
  | EmptyString => false
  | String c' s' => if Ascii.eqb c c' then true else string_contains c s'
  end.

Fixpoint string_flat_map (f : Ascii.ascii -> string) (s : string) : string :=
  match s with
  | EmptyString => EmptyString
  | String c s' => f c +:+ string_flat_map f s'
  end.

(** A character of a string is a code point below 256. *)
Definition squote : Ascii.ascii := Ascii.ascii_of_nat 39.
Definition dquote : Ascii.ascii := Ascii.ascii_of_nat 34.
Definition backslash : Ascii.ascii := Ascii.ascii_of_nat 92.

Definition repr_char (quote : Ascii.ascii) (c : Ascii.ascii) : string :=
  let n := Ascii.nat_of_ascii c in
  if Ascii.eqb c quote then char backslash +:+ char c
  else if (n =? 92)%nat then char backslash +:+ char backslash
  else if (n =? 10)%nat then char backslash +:+ "n"
  else if (n =? 13)%nat then char backslash +:+ "r"
  else if (n =? 9)%nat then char backslash +:+ "t"
  else if (n <? 32)%nat || ((126 <? n)%nat && (n <? 161)%nat) || (n =? 173)%nat
       then char backslash +:+ "x" +:+ hex2 n
  else char c.

Definition repr_str (s : string) : string :=
  let quote :=
    if string_contains squote s && negb (string_contains dquote s)
    then dquote else squote in
  char quote +:+ string_flat_map (repr_char quote) s +:+ char quote.

Fixpoint repr (v : pyval) : string :=
  match v with
  | VNone => "None"
  | VBool true => "True"
  | VBool false => "False"
  | VInt n => pretty n
  | VStr s => repr_str s
  | VList xs => "[" +:+ String.concat ", " (map repr xs) +:+ "]"
  | VTuple xs =>
      match xs with
      | [x] => "(" +:+ repr x +:+ ",)"
      | _ => "(" +:+ String.concat ", " (map repr xs) +:+ ")"
      end
  | VDict kvs =>
      "{" +:+ String.concat ", "
                (map (fun kv => repr_str kv.1 +:+ ": " +:+ repr kv.2) kvs)
          +:+ "}"
  | VEnum cls member value =>
      "<" +:+ cls +:+ "." +:+ member +:+ ": " +:+ repr value +:+ ">"
  | VMethod _ => "<bound method>"
  | VObj meta _ _ => ob_repr meta
  end.

(** [str(v)], also what an f-string field [{v}] shows. *)
Definition str (v : pyval) : string :=
  match v with
  | VStr s => s
  | VEnum cls member _ => cls +:+ "." +:+ member
  | VObj meta _ _ => ob_str meta
  | _ => repr v
  end.

(** [a + b] on integers and strings. *)
Definition py_add (a b : pyval) : result pyval :=
  match a, b with
  | VInt x, VInt y => Ok (VInt (x + y))
  | VInt x, VBool y => Ok (VInt (x + Z.b2z y))
  | VBool x, VInt y => Ok (VInt (Z.b2z x + y))
  | VBool x, VBool y => Ok (VInt (Z.b2z x + Z.b2z y))
  | VStr x, VStr y => Ok (VStr (x +:+ y))
  | _, _ =>
      Err (TypeError ("unsupported operand type(s) for +: '" +:+ type_name a
                      +:+ "' and '" +:+ type_name b +:+ "'"))
  end.

(** ** The [json] encoder *)

Definition json_escape_char (c : Ascii.ascii) : string :=
  let n := Ascii.nat_of_ascii c in
  if (n =? 34)%nat then char backslash +:+ char dquote
  else if (n =? 92)%nat then char backslash +:+ char backslash
  else if (n =? 10)%nat then char backslash +:+ "n"
  else if (n =? 13)%nat then char backslash +:+ "r"
  else if (n =? 9)%nat then char backslash +:+ "t"
  else if (n =? 8)%nat then char backslash +:+ "b"
  else if (n =? 12)%nat then char backslash +:+ "f"
  else if (n <? 32)%nat || (126 <? n)%nat then char backslash +:+ "u00" +:+ hex2 n
  else char c.

Definition encode_basestring_ascii (s : string) : string :=
  char dquote +:+ string_flat_map json_escape_char s +:+ char dquote.

(** [json.JSONEncoder.default]: the base class refuses every object. *)
Definition JSONEncoder_default (o : pyval) : result pyval :=
  Err (TypeError ("Object of type " +:+ type_name o +:+ " is not JSON serializable")).

(** [JSONEncoder.iterencode] with the hook [default] for the values the
    encoder has no rule for.  What the hook returns is encoded in turn;
    [fuel] bounds how often the hook is entered on the way down, and the
    interpreter's [RecursionError] marks its end. *)
Fixpoint iterencode (default : pyval -> result pyval) (fuel : nat)
  : pyval -> result string :=
  fix enc (o : pyval) : result string :=
    match o with
    | VStr s => Ok (encode_basestring_ascii s)
    | VNone => Ok "null"
    | VBool true => Ok "true"
    | VBool false => Ok "false"
    | VInt n => Ok (pretty n)
    | VList xs | VTuple xs =>
        chunks <- (fix elems (xs : list pyval) : result (list string) :=
                     match xs with
                     | [] => Ok []
                     | x :: xs' =>
                         c <- enc x ;; cs <- elems xs' ;; Ok (c :: cs)
                     end) xs ;;
        Ok ("[" +:+ String.concat ", " chunks +:+ "]")
    | VDict kvs =>
        chunks <- (fix items (kvs : list (string * pyval)) : result (list string) :=
                     match kvs with
                     | [] => Ok []
                     | (k, v) :: kvs' =>
                         c <- enc v ;; cs <- items kvs' ;;
                         Ok ((encode_basestring_ascii k +:+ ": " +:+ c) :: cs)
                     end) kvs ;;
        Ok ("{" +:+ String.concat ", " chunks +:+ "}")
    | VEnum _ _ _ | VMethod _ | VObj _ _ _ =>
        match fuel with
        | O => Err (RecursionError "maximum recursion depth exceeded")
        | S fuel' => o' <- default o ;; iterencode default fuel' o'
        end
    end.

(** Number of constructors of a value: no chain of hook results taken
    from inside a value is longer. *)
Fixpoint py_size (v : pyval) : nat :=
  match v with
  | VList xs | VTuple xs => S (sum_list (map py_size xs))
  | VDict kvs => S (sum_list (map (fun kv => py_size kv.2) kvs))
  | VEnum _ _ value => S (py_size value)
  | VMethod (inr v') => S (py_size v')
  | VObj _ cls_attrs attrs =>
      S (sum_list (map (fun kv => py_size kv.2) cls_attrs)
         + sum_list (map (fun kv => py_size kv.2) attrs))
  | _ => 1
  end.

(** [json.dumps(obj, default=default)] *)
Definition json_dumps_with (default : pyval -> result pyval) (obj : pyval)
  : result string :=
  iterencode default (py_size obj) obj.

(** [json.dumps(obj)] *)
Definition json_dumps (obj : pyval) : result string :=
  json_dumps_with JSONEncoder_default obj.

(** ** [SafeJSONEncoder] *)

(** [SafeJSONEncoder.default]:
    try [super().default(o)]; on [TypeError] return [o.dict()] when [o] has
    a callable [dict], else [repr(o)]. *)
Definition SafeJSONEncoder_default (o : pyval) : result pyval :=
  match JSONEncoder_default o with
  | inr v => Ok v
  | inl e =>
      if exc_isinstance e "TypeError" then
        if hasattr o "dict" && match getattr o "dict" with
                               | inr d => callable d
                               | inl _ => false
                               end
        then d <- getattr o "dict" ;; call0 d
        else Ok (VStr (repr o))
      else Err e
  end.

(** [SafeJSONEncoder().encode(o)] *)
Definition SafeJSONEncoder_encode (o : pyval) : result string :=
  json_dumps_with SafeJSONEncoder_default o.

(** Modelled from the spec: [safe_json_dumps] of
    [openinference.instrumentation] is not among the sources.  The spec's
    SafeEncoder attempts the standard serialization and falls back to the
    printable representation of a value; an encoder class given as [cls]
    replaces the fallback by its own [default]. *)
Definition safe_json_dumps (cls : option (pyval -> result pyval)) (obj : pyval)
  : result string :=
  match cls with
  | Some default => json_dumps_with default obj
  | None => json_dumps_with (fun o => Ok (VStr (str o))) obj
  end.

(** ** [_flatten] *)

Definition prefix_keys (p : string) (kvs : list (string * pyval))
  : list (string * pyval) :=
  map (fun kv => (p +:+ "." +:+ kv.1, kv.2)) kvs.

(** The generator is run to its end: the pairs it yields in order, or the
    exception that stops it. *)
Fixpoint _flatten (mapping : pyval) : result (list (string * pyval)) :=
  if negb (truthy mapping) then Ok []
  else
    match mapping with
    | VDict kvs =>
        (fix items (kvs : list (string * pyval)) : result (list (string * pyval)) :=
           match kvs with
           | [] => Ok []
           | (key, value) :: kvs' =>
               here <-
                 match value with
                 | VNone => Ok []
                 | VDict _ =>
                     sub <- _flatten value ;; Ok (prefix_keys key sub)
                 | VList xs =>
                     if existsb is_Mapping xs then
                       (fix elems (index : nat) (xs : list pyval)
                          : result (list (string * pyval)) :=
                          match xs with
                          | [] => Ok []
                          | sub_mapping :: xs' =>
                              sub <- _flatten sub_mapping ;;
                              more <- elems (S index) xs' ;;
                              Ok (prefix_keys (key +:+ "." +:+ pretty index) sub
                                  ++ more)%list
                          end) 0%nat xs
                     else Ok [(key, value)]
                 | VEnum _ _ v => Ok [(key, v)]
                 | _ => Ok [(key, value)]
                 end ;;
               more <- items kvs' ;;
               Ok (here ++ more)%list
           end) kvs
    | _ =>
        Err (AttributeError ("'" +:+ type_name mapping
                             +:+ "' object has no attribute 'items'"))
    end.

(** ** [inspect.signature] and [Signature.bind] *)

Inductive ParameterKind :=
| POSITIONAL_ONLY
| POSITIONAL_OR_KEYWORD
| VAR_POSITIONAL
| KEYWORD_ONLY
| VAR_KEYWORD.

Record parameter := Param {
  p_name : string;
  p_kind : ParameterKind;
  p_default : option pyval
}.

Definition kind_eqb (a b : ParameterKind) : bool :=
  match a, b with
  | POSITIONAL_ONLY, POSITIONAL_ONLY
  | POSITIONAL_OR_KEYWORD, POSITIONAL_OR_KEYWORD
  | VAR_POSITIONAL, VAR_POSITIONAL
  | KEYWORD_ONLY, KEYWORD_ONLY
  | VAR_KEYWORD, VAR_KEYWORD => true
  | _, _ => false
  end.

Definition dict_has {A : Type} (k : string) (d : list (string * A)) : bool :=
  match dict_get k d with Some _ => true | None => false end.

Definition missing_argument (argtype : string) (name : string) : exc :=
  TypeError ("missing a required" +:+ argtype +:+ " argument: " +:+ repr_str name).

(** First loop of [Signature._bind]: the positional arguments against the
    parameters in order.  Returns the arguments bound so far and the
    parameters left for the keywords. *)
Fixpoint bind_positional (parameters : list parameter) (args : list pyval)
    (kwargs arguments : list (string * pyval))
  : result (list (string * pyval) * list parameter) :=
  match args with
  | [] =>
      match parameters with
      | [] => Ok (arguments, [])
      | param :: rest =>
          if kind_eqb (p_kind param) VAR_POSITIONAL then Ok (arguments, rest)
          else if dict_has (p_name param) kwargs then
            if kind_eqb (p_kind param) POSITIONAL_ONLY then
              Err (TypeError (repr_str (p_name param) +:+
                     " parameter is positional only, but was passed as a keyword"))
            else Ok (arguments, param :: rest)
          else if kind_eqb (p_kind param) VAR_KEYWORD
                  || bool_decide (is_Some (p_default param)) then
            Ok (arguments, param :: rest)
          else
            Err (missing_argument
                   (if kind_eqb (p_kind param) KEYWORD_ONLY
                    then " keyword-only" else "")
                   (p_name param))
      end
  | arg_val :: args' =>
      match parameters with
      | [] => Err (TypeError "too many positional arguments")
      | param :: rest =>
          if kind_eqb (p_kind param) VAR_KEYWORD
             || kind_eqb (p_kind param) KEYWORD_ONLY then
            Err (TypeError "too many positional arguments")
          else if kind_eqb (p_kind param) VAR_POSITIONAL then
            Ok (dict_set (p_name param) (VTuple (arg_val :: args')) arguments, rest)
          else if dict_has (p_name param) kwargs
                  && negb (kind_eqb (p_kind param) POSITIONAL_ONLY) then
            Err (TypeError ("multiple values for argument "
                            +:+ repr_str (p_name param)))
          else
            bind_positional rest args' kwargs
              (dict_set (p_name param) arg_val arguments)
      end
  end.

(** Second loop of [Signature._bind]: the remaining parameters take their
    values from [kwargs]; what is left of [kwargs] goes to the
    variadic-keyword parameter, if there is one. *)
Fixpoint bind_keywords (parameters : list parameter)
    (kwargs arguments : list (string * pyval)) (kwargs_param : option parameter)
  : result (list (string * pyval)) :=
  match parameters with
  | [] =>
      match kwargs with
      | [] => Ok arguments
      | (k, _) :: _ =>
          match kwargs_param with
          | Some param => Ok (dict_set (p_name param) (VDict kwargs) arguments)
          | None =>
              Err (TypeError ("got an unexpected keyword argument " +:+ repr_str k))
          end
      end
  | param :: rest =>
      if kind_eqb (p_kind param) VAR_KEYWORD then
        bind_keywords rest kwargs arguments (Some param)
      else if kind_eqb (p_kind param) VAR_POSITIONAL then
        bind_keywords rest kwargs arguments kwargs_param
      else
        match dict_get (p_name param) kwargs with
        | None =>
            if bool_decide (is_Some (p_default param)) then
              bind_keywords rest kwargs arguments kwargs_param
            else Err (missing_argument "" (p_name param))
        | Some arg_val =>
            if kind_eqb (p_kind param) POSITIONAL_ONLY then
              Err (TypeError (repr_str (p_name param) +:+
                     " parameter is positional only, but was passed as a keyword"))
            else
              bind_keywords rest (dict_pop (p_name param) kwargs)
                (dict_set (p_name param) arg_val arguments) kwargs_param
        end
  end.

(** [signature.bind] on [args] and [kwargs], then [.arguments] *)
Definition Signature_bind (parameters : list parameter) (args : list pyval)
    (kwargs : list (string * pyval)) : result (list (string * pyval)) :=
  bound <- bind_positional parameters args kwargs [] ;;
  bind_keywords bound.2 kwargs bound.1 None.

(** [BoundArguments.apply_defaults] *)
Fixpoint apply_defaults (parameters : list parameter)
    (arguments : list (string * pyval)) : list (string * pyval) :=
  match parameters with
  | [] => []
  | param :: rest =>
      match dict_get (p_name param) arguments with
      | Some val => (p_name param, val) :: apply_defaults rest arguments
      | None =>
          match p_default param with
          | Some val => (p_name param, val) :: apply_defaults rest arguments
          | None =>
              if kind_eqb (p_kind param) VAR_POSITIONAL then
                (p_name param, VTuple []) :: apply_defaults rest arguments
              else if kind_eqb (p_kind param) VAR_KEYWORD then
                (p_name param, VDict []) :: apply_defaults rest arguments
              else apply_defaults rest arguments
          end
      end
  end.

(** The keyword arguments a call site passes: [f(k1=v1, **star)].  The
    interpreter refuses a keyword given twice. *)
Definition call_kwargs (direct star : list (string * pyval))
  : result (list (string * pyval)) :=
  match List.find (fun kv => dict_has kv.1 direct) star with
  | Some kv =>
      Err (TypeError ("got multiple values for keyword argument "
                      +:+ repr_str kv.1))
  | None => Ok (direct ++ star)%list
  end.

(** ** [_get_input_value] and [_bind_arguments] *)

(** [name in names] *)
Definition contains (names : list string) (name : string) : bool :=
  bool_decide (name ∈ names).

(** [_get_input_value(method, *args, **kwargs)], with the signature of
    [method] in place of [method]. *)
Definition _get_input_value (method_signature : list parameter)
    (args : list pyval) (kwargs : list (string * pyval)) : result string :=
  let first_parameter_name := head (map p_name method_signature) in
  let signature_contains_self_parameter :=
    match first_parameter_name with
    | Some name => contains ["self"] name
    | None => false
    end in
  bound_arguments <-
    Signature_bind method_signature
      ((if signature_contains_self_parameter then [VNone] else []) ++ args)%list
      kwargs ;;
  let named :=
    List.filter (fun kv => negb (contains ["self"; "kwargs"] kv.1))
                bound_arguments in
  captured <-
    match dict_get "kwargs" bound_arguments with
    | None => Ok []
    | Some (VDict d) => Ok d
    | Some v =>
        Err (TypeError ("'" +:+ type_name v +:+ "' object is not a mapping"))
    end ;;
  safe_json_dumps (Some SafeJSONEncoder_default)
                  (VDict (dict_update (dict_of_pairs named) captured)).

(** [_bind_arguments(method, *args, **kwargs)] *)
Definition _bind_arguments (method_signature : list parameter)
    (args : list pyval) (kwargs : list (string * pyval))
  : result (list (string * pyval)) :=
  bound_args <- Signature_bind method_signature args kwargs ;;
  Ok (apply_defaults method_signature bound_args).

(** ** Names of the semantic conventions *)

(** Modelled from the spec: the constants of [openinference.semconv.trace]
    are not among the sources; the spec shows the keys
    [llm.input_messages.0.message.role] and the kinds AGENT, CHAIN, LLM,
    TOOL, the other names follow the same conventions. *)
Definition INPUT_MIME_TYPE := "input.mime_type".
Definition INPUT_VALUE := "input.value".
Definition LLM_INPUT_MESSAGES := "llm.input_messages".
Definition LLM_INVOCATION_PARAMETERS := "llm.invocation_parameters".
Definition LLM_MODEL_NAME := "llm.model_name".
Definition LLM_OUTPUT_MESSAGES := "llm.output_messages".
Definition LLM_TOKEN_COUNT_COMPLETION := "llm.token_count.completion".
Definition LLM_TOKEN_COUNT_PROMPT := "llm.token_count.prompt".
Definition LLM_TOKEN_COUNT_TOTAL := "llm.token_count.total".
Definition LLM_TOOLS := "llm.tools".
Definition OPENINFERENCE_SPAN_KIND := "openinference.span.kind".
Definition OUTPUT_MIME_TYPE := "output.mime_type".
Definition OUTPUT_VALUE := "output.value".
Definition MESSAGE_CONTENT := "message.content".
Definition MESSAGE_ROLE := "message.role".
Definition JSON := "application/json".
Definition AGENT := "AGENT".
Definition CHAIN := "CHAIN".
Definition LLM := "LLM".
Definition TOOL := "TOOL".
Definition TOOL_JSON_SCHEMA := "tool.json_schema".
Definition TOOL_CALL_FUNCTION_ARGUMENTS_JSON := "tool_call.function.arguments".
Definition TOOL_CALL_FUNCTION_NAME := "tool_call.function.name".

(** ** Spans, the tracer and the ambient context *)

Inductive StatusCode := UNSET | OK | ERROR.

Record Status := MkStatus {
  status_code : StatusCode;
  status_description : option string
}.

(** A span as the tracer keeps it: name, attributes, status and the
    exceptions recorded on it. *)
Record Span := MkSpan {
  span_name : string;
  span_attributes : gmap string pyval;
  span_status : Status;
  span_exceptions : list exc
}.

(** What an interception finds around it: the suppression flag and the
    attributes of the ambient context, and the spans ended so far. *)
Record World := MkWorld {
  suppress_instrumentation : bool;
  context_attributes : list (string * pyval);
  finished_spans : list Span
}.

(** The objects an interception holds references to, in their current
    state: the receiver [instance] and the positional [args].  The wrapped
    call may change them. *)
Record Objects := MkObjects {
  obj_instance : pyval;
  obj_args : list pyval
}.

Definition Outcome : Type := result pyval * Objects * World.

(** A callable as the wrappers see it: [__name__], [inspect.signature] and
    what calling it does to the objects and to the world. *)
Record Callable := MkCallable {
  fn_name : string;
  fn_signature : list parameter;
  fn_call : Objects -> list (string * pyval) -> World -> Outcome
}.

(** The state of a wrapper while its span is open. *)
Record Frame := MkFrame {
  fr_span : Span;
  fr_objects : Objects;
  fr_world : World
}.

Definition M (A : Type) : Type := Frame -> result A * Frame.

Definition ret {A : Type} (a : A) : M A := fun fr => (Ok a, fr).

Definition raise {A : Type} (e : exc) : M A := fun fr => (Err e, fr).

Definition bindM {A B : Type} (m : M A) (k : A -> M B) : M B :=
  fun fr =>
    match m fr with
    | (inl e, fr') => (inl e, fr')
    | (inr a, fr') => k a fr'
    end.

Notation "'let*' x ':=' m 'in' k" := (bindM m (fun x => k))
  (at level 10, x name, m at level 100, k at level 200).
Notation "m '>>' k" := (bindM m (fun _ => k))
  (at level 100, k at level 200, right associativity).

Definition lift {A : Type} (r : result A) : M A := fun fr => (r, fr).

(** [try: body except Exception as exception: handler] *)
Definition try_except {A : Type} (body : M A) (handler : exc -> M A) : M A :=
  fun fr =>
    match body fr with
    | (inl e, fr') =>
        if exc_isinstance e "Exception" then handler e fr' else (inl e, fr')
    | (inr a, fr') => (inr a, fr')
    end.

Definition update_span (f : Span -> Span) : M unit :=
  fun fr => (Ok tt, MkFrame (f (fr_span fr)) (fr_objects fr) (fr_world fr)).

Definition set_all (kvs : list (string * pyval)) (m : gmap string pyval)
  : gmap string pyval :=
  foldl (fun m kv => <[kv.1 := kv.2]> m) m kvs.

(** [span.set_attribute(key, value)] *)
Definition set_attribute (key : string) (value : pyval) : M unit :=
  update_span (fun s =>
    MkSpan (span_name s) (<[key := value]> (span_attributes s))
           (span_status s) (span_exceptions s)).

(** [span.set_attributes(mapping)] *)
Definition set_attributes (mapping : list (string * pyval)) : M unit :=
  update_span (fun s =>
    MkSpan (span_name s) (set_all mapping (span_attributes s))
           (span_status s) (span_exceptions s)).

(** [span.set_status(status)] *)
Definition set_status (status : Status) : M unit :=
  update_span (fun s =>
    MkSpan (span_name s) (span_attributes s) status (span_exceptions s)).

(** [span.record_exception(exception)] *)
Definition record_exception (exception : exc) : M unit :=
  update_span (fun s =>
    MkSpan (span_name s) (span_attributes s) (span_status s)
           (span_exceptions s ++ [exception])%list).

(** The object [instance] refers to, and the tuple [args], as they are now. *)
Definition the_instance : M pyval := fun fr => (Ok (obj_instance (fr_objects fr)), fr).
Definition the_args : M (list pyval) := fun fr => (Ok (obj_args (fr_objects fr)), fr).

(** [get_attributes_from_context()] *)
Definition get_attributes_from_context : M (list (string * pyval)) :=
  fun fr => (Ok (context_attributes (fr_world fr)), fr).

(** The call of [wrapped] on the positional and keyword arguments the
    wrapper got. *)
Definition call_wrapped (wrapped : Callable) (kwargs : list (string * pyval))
  : M pyval :=
  fun fr =>
    match fn_call wrapped (fr_objects fr) kwargs (fr_world fr) with
    | (r, objects', world') => (r, MkFrame (fr_span fr) objects' world')
    end.

(** [with tracer.start_as_current_span(name, attributes=attributes,
    record_exception=False, set_status_on_exception=False) as span: body].
    The span ends when the block is left, by its end or by an exception,
    and the tracer adds nothing to it on an exception. *)
Definition start_as_current_span (name : string)
    (attributes : list (string * pyval)) (body : M pyval)
    (objects : Objects) (world : World) : Outcome :=
  let span := MkSpan name (set_all attributes ∅) (MkStatus UNSET None) [] in
  match body (MkFrame span objects world) with
  | (r, fr) =>
      (r, fr_objects fr,
       MkWorld (suppress_instrumentation (fr_world fr))
               (context_attributes (fr_world fr))
               (finished_spans (fr_world fr) ++ [fr_span fr])%list)
  end.

(** ** Helpers of the wrappers *)

Fixpoint mapM {A B : Type} (f : A -> result B) (l : list A) : result (list B) :=
  match l with
  | [] => Ok []
  | x :: l' => y <- f x ;; ys <- mapM f l' ;; Ok (y :: ys)
  end.

(** [d.get(key, None)] *)
Definition dict_get_or_None (key : string) (d : list (string * pyval)) : pyval :=
  match dict_get key d with
  | Some v => v
  | None => VNone
  end.

(** [list(d.keys())] and [d.values()] *)
Definition dict_keys (d : pyval) : result pyval :=
  match d with
  | VDict kvs => Ok (VList (map (fun kv => VStr kv.1) kvs))
  | _ =>
      Err (AttributeError ("'" +:+ type_name d
                           +:+ "' object has no attribute 'keys'"))
  end.

Definition dict_values (d : pyval) : result (list pyval) :=
  match d with
  | VDict kvs => Ok (map snd kvs)
  | _ =>
      Err (AttributeError ("'" +:+ type_name d
                           +:+ "' object has no attribute 'values'"))
  end.

(** [args[0]] *)
Definition first_arg (args : list pyval) : result pyval :=
  match args with
  | x :: _ => Ok x
  | [] => Err (IndexError "tuple index out of range")
  end.

Definition _llm_input_messages (arguments : list (string * pyval))
  : list (string * pyval) :=
  match dict_get "prompt" arguments with
  | Some (VStr prompt) =>
      [(LLM_INPUT_MESSAGES +:+ ".0." +:+ MESSAGE_ROLE, VStr "user");
       (LLM_INPUT_MESSAGES +:+ ".0." +:+ MESSAGE_CONTENT, VStr prompt)]
  | _ =>
      match dict_get "messages" arguments with
      | Some (VList messages) =>
          concat
            (imap (fun i message =>
                     match message with
                     | VDict m =>
                         (let role := dict_get_or_None "role" m in
                          if negb (is_None role) then
                            [(LLM_INPUT_MESSAGES +:+ "." +:+ pretty i +:+ "."
                              +:+ MESSAGE_ROLE, role)]
                          else [])
                         ++
                         (let content := dict_get_or_None "content" m in
                          if negb (is_None content) then
                            [(LLM_INPUT_MESSAGES +:+ "." +:+ pretty i +:+ "."
                              +:+ MESSAGE_CONTENT, content)]
                          else [])
                     | _ => []
                     end%list)
                  messages)
      | _ => []
      end
  end.

Definition _llm_output_messages (output_message : pyval) : list (string * pyval) :=
  (let role := getattr_default output_message "role" VNone in
   if negb (is_None role) then
     [(LLM_OUTPUT_MESSAGES +:+ ".0." +:+ MESSAGE_ROLE, role)]
   else [])
  ++
  (let content := getattr_default output_message "content" VNone in
   if negb (is_None content) then
     [(LLM_OUTPUT_MESSAGES +:+ ".0." +:+ MESSAGE_CONTENT, content)]
   else [])%list.

Definition _output_value_and_mime_type (output : pyval)
  : result (list (string * pyval)) :=
  model_dump_json <- getattr output "model_dump_json" ;;
  dumped <- call0 model_dump_json ;;
  Ok [(OUTPUT_MIME_TYPE, VStr JSON); (OUTPUT_VALUE, dumped)].

Definition _llm_invocation_parameters (model : pyval)
    (arguments : list (string * pyval)) : result (list (string * pyval)) :=
  let model_kwargs :=
    match getattr_default model "kwargs" (VDict []) with
    | VDict d => d
    | _ => []
    end in
  let kwargs :=
    match dict_get_or_None "kwargs" arguments with
    | VDict d => d
    | _ => []
    end in
  dumped <- safe_json_dumps None (VDict (dict_update model_kwargs kwargs)) ;;
  Ok [(LLM_INVOCATION_PARAMETERS, VStr dumped)].

(** [get_json_schema] of [smolagents.models] is taken as given; [Tool] is
    the class [smolagents.Tool]. *)
Fixpoint llm_tools_from (get_json_schema : pyval -> result pyval)
    (tool_index : nat) (tools : list pyval) : result (list (string * pyval)) :=
  match tools with
  | [] => Ok []
  | tool :: tools' =>
      here <-
        (if isinstance_of tool "Tool" then
           schema <- get_json_schema tool ;;
           dumped <- safe_json_dumps None schema ;;
           Ok [(LLM_TOOLS +:+ "." +:+ pretty tool_index +:+ "."
                +:+ TOOL_JSON_SCHEMA, VStr dumped)]
         else Ok []) ;;
      more <- llm_tools_from get_json_schema (S tool_index) tools' ;;
      Ok (here ++ more)%list
  end.

Definition _llm_tools (get_json_schema : pyval -> result pyval)
    (tools_to_call_from : pyval) : result (list (string * pyval)) :=
  match tools_to_call_from with
  | VList tools => llm_tools_from get_json_schema 0 tools
  | _ => Ok []
  end.

Definition _input_value_and_mime_type (arguments : list (string * pyval))
  : result (list (string * pyval)) :=
  dumped <- safe_json_dumps None (VDict arguments) ;;
  Ok [(INPUT_MIME_TYPE, VStr JSON); (INPUT_VALUE, VStr dumped)].

(** What every wrapper does when the wrapped call raises. *)
Definition on_exception {A : Type} (exception : exc) : M A :=
  set_status (MkStatus ERROR (Some (exc_message exception))) >>
  record_exception exception >>
  raise exception.

(** ** [_RunWrapper.__call__] *)

(** One entry of the list under ["managed_agents"]. *)
Definition managed_agent_entry (agent managed_agent : pyval) : result pyval :=
  name <- getattr managed_agent "name" ;;
  description <- getattr managed_agent "description" ;;
  additional_prompting <- getattr managed_agent "additional_prompting" ;;
  sub_agent <- getattr managed_agent "agent" ;;
  sub_model <- getattr sub_agent "model" ;;
  model <-
    (if hasattr sub_model "model_id" then
       model_id <- getattr sub_model "model_id" ;;
       Ok (VStr (type_name sub_model +:+ " - " +:+ str model_id))
     else Ok (VStr "")) ;;
  max_steps <- getattr sub_agent "max_steps" ;;
  tools <- getattr agent "tools" ;;
  tools_names <- dict_keys tools ;;
  Ok (VDict [("name", name); ("description", description);
             ("additional_prompting", additional_prompting);
             ("model", model); ("max_steps", max_steps);
             ("tools_names", tools_names)]).

(** The block of the run span up to the wrapped call: after the input
    value is set to the task, the description of the agent. *)
Definition run_describe (agent task : pyval) (kwargs : list (string * pyval))
  : M unit :=
  let additional_args := dict_get_or_None "additional_args" kwargs in
  set_attribute "agent_name" (VStr (type_name agent)) >>
  set_attribute "task" task >>
  let* dumped :=
    lift (if truthy additional_args
          then s <- json_dumps additional_args ;; Ok (VStr s)
          else Ok (VStr "")) in
  set_attribute "additional_args" dumped >>
  let* dumped :=
    lift (if truthy additional_args
          then s <- json_dumps additional_args ;; Ok (VStr s)
          else Ok (VStr "")) in
  set_attribute "additional_args" dumped >>
  let* model := lift (getattr agent "model") in
  let* model_id :=
    lift (if hasattr model "model_id"
          then model_id <- getattr model "model_id" ;; Ok (" - " +:+ str model_id)
          else Ok "") in
  let model_type := type_name model in
  set_attribute "model" (VStr (model_type +:+ model_id)) >>
  let* max_steps := lift (getattr agent "max_steps") in
  set_attribute "max_steps" max_steps >>
  let* tools_names := lift (tools <- getattr agent "tools" ;; dict_keys tools) in
  set_attribute "tools_names" tools_names >>
  let* managed :=
    lift (managed_agents <- getattr agent "managed_agents" ;;
          values <- dict_values managed_agents ;;
          entries <- mapM (managed_agent_entry agent) values ;;
          s <- json_dumps (VList entries) ;;
          Ok (VStr s)) in
  set_attribute "managed_agents" managed.

Definition run_inputs (kwargs : list (string * pyval)) : M unit :=
  let* agent := the_instance in
  let* task := lift (getattr agent "task") in
  set_attribute INPUT_VALUE task >>
  run_describe agent task kwargs.

(** The [try] block of the run span. *)
Definition run_call (wrapped : Callable) (kwargs : list (string * pyval))
  : M pyval :=
  try_except
    (let* agent_output := call_wrapped wrapped kwargs in
     let* agent := the_instance in
     let* prompt :=
       lift (monitor <- getattr agent "monitor" ;;
             getattr monitor "total_input_token_count") in
     set_attribute LLM_TOKEN_COUNT_PROMPT prompt >>
     let* completion :=
       lift (monitor <- getattr agent "monitor" ;;
             getattr monitor "total_output_token_count") in
     set_attribute LLM_TOKEN_COUNT_COMPLETION completion >>
     let* total :=
       lift (monitor <- getattr agent "monitor" ;;
             a <- getattr monitor "total_input_token_count" ;;
             b <- getattr monitor "total_output_token_count" ;;
             py_add a b) in
     set_attribute LLM_TOKEN_COUNT_TOTAL total >>
     ret agent_output)
    on_exception.

Definition _RunWrapper (wrapped : Callable) (objects : Objects)
    (kwargs : list (string * pyval)) (world : World) : Outcome :=
  if suppress_instrumentation world then fn_call wrapped objects kwargs world
  else
    let instance := obj_instance objects in
    let span_name := type_name instance +:+ ".run" in
    match
      (input_value <-
         _get_input_value (fn_signature wrapped) (obj_args objects) kwargs ;;
       _flatten (VDict [(OPENINFERENCE_SPAN_KIND, VStr AGENT);
                        (INPUT_VALUE, VStr input_value)]))
    with
    | inl e => (Err e, objects, world)
    | inr attributes =>
        start_as_current_span span_name (dict_of_pairs attributes)
          (run_inputs kwargs >>
           let* agent_output := run_call wrapped kwargs in
           set_status (MkStatus OK None) >>
           set_attribute OUTPUT_VALUE (VStr (str agent_output)) >>
           let* from_context := get_attributes_from_context in
           set_attributes (dict_of_pairs from_context) >>
           ret agent_output)
          objects world
    end.

(** ** [_StepWrapper.__call__] *)

(** The [try] block of the step span: the result of the call and the step
    log, which is the first positional argument. *)
Definition step_call (wrapped : Callable) (kwargs : list (string * pyval))
  : M pyval :=
  try_except
    (let* result := call_wrapped wrapped kwargs in
     (if negb (is_None result) then set_attribute "Final answer" result
      else ret tt) >>
     let* args := the_args in
     let* step_log := lift (first_arg args) in
     ret result)
    on_exception.

(** The statements of the step span after the [try] block; [step_log] is
    the object [args[0]]. *)
Definition step_outputs : M unit :=
  let* args := the_args in
  let* step_log := lift (first_arg args) in
  let* error := lift (getattr step_log "error") in
  (if negb (is_None error) then set_attribute "Error" (VStr (str error))
   else ret tt) >>
  let* observations := lift (getattr step_log "observations") in
  set_attribute "Observations" observations >>
  set_status (MkStatus OK None) >>
  let* observations := lift (getattr step_log "observations") in
  set_attribute OUTPUT_VALUE observations >>
  let* from_context := get_attributes_from_context in
  set_attributes (dict_of_pairs from_context).

Definition _StepWrapper (wrapped : Callable) (objects : Objects)
    (kwargs : list (string * pyval)) (world : World) : Outcome :=
  if suppress_instrumentation world then fn_call wrapped objects kwargs world
  else
    let agent := obj_instance objects in
    match getattr agent "step_number" with
    | inl e => (Err e, objects, world)
    | inr step_number =>
        let span_name := "Step " +:+ str step_number in
        start_as_current_span span_name
          [(OPENINFERENCE_SPAN_KIND, VStr CHAIN)]
          (let* result := step_call wrapped kwargs in
           step_outputs >>
           ret result)
          objects world
    end.

(** ** [_ModelWrapper.__call__] *)

(** The attributes the model span starts with. *)
Definition model_inputs (instance : pyval) (arguments : list (string * pyval))
    (world : World) : result (list (string * pyval)) :=
  input <- _input_value_and_mime_type arguments ;;
  parameters <- _llm_invocation_parameters instance arguments ;;
  Ok (dict_update
        (dict_update
           (dict_update
              (dict_update [(OPENINFERENCE_SPAN_KIND, VStr LLM)]
                           (dict_of_pairs input))
              (dict_of_pairs parameters))
           (dict_of_pairs (_llm_input_messages arguments)))
        (dict_of_pairs (context_attributes world))).

(** The statements of the model span after the [try] block.  [arguments]
    are the arguments as they were bound before the call. *)
Definition model_outputs (get_json_schema : pyval -> result pyval)
    (arguments : list (string * pyval)) (output_message : pyval) : M unit :=
  let* model := the_instance in
  let* prompt := lift (getattr model "last_input_token_count") in
  set_attribute LLM_TOKEN_COUNT_PROMPT prompt >>
  let* completion := lift (getattr model "last_output_token_count") in
  set_attribute LLM_TOKEN_COUNT_COMPLETION completion >>
  let* model_id := lift (getattr model "model_id") in
  set_attribute LLM_MODEL_NAME model_id >>
  let* total :=
    lift (a <- getattr model "last_input_token_count" ;;
          b <- getattr model "last_output_token_count" ;;
          py_add a b) in
  set_attribute LLM_TOKEN_COUNT_TOTAL total >>
  set_status (MkStatus OK None) >>
  set_attribute OUTPUT_VALUE output_message >>
  set_attributes (dict_of_pairs (_llm_output_messages output_message)) >>
  let* tools :=
    lift (_llm_tools get_json_schema
            (match dict_get "tools_to_call_from" arguments with
             | Some v => v
             | None => VList []
             end)) in
  set_attributes (dict_of_pairs tools) >>
  let* output := lift (_output_value_and_mime_type output_message) in
  set_attributes (dict_of_pairs output).

Definition _ModelWrapper (get_json_schema : pyval -> result pyval)
    (wrapped : Callable) (objects : Objects)
    (kwargs : list (string * pyval)) (world : World) : Outcome :=
  if suppress_instrumentation world then fn_call wrapped objects kwargs world
  else
    let instance := obj_instance objects in
    match _bind_arguments (fn_signature wrapped) (obj_args objects) kwargs with
    | inl e => (Err e, objects, world)
    | inr arguments =>
        let span_name :=
          if truthy instance then type_name instance +:+ ".__call__"
          else fn_name wrapped in
        match model_inputs instance arguments world with
        | inl e => (Err e, objects, world)
        | inr attributes =>
            start_as_current_span span_name attributes
              (let* output_message :=
                 try_except (call_wrapped wrapped kwargs) on_exception in
               model_outputs get_json_schema arguments output_message >>
               ret output_message)
              objects world
        end
    end.

(** ** [_ToolCallWrapper.__call__] *)

(** The statements of the tool span before the [try] block. *)
Definition tool_inputs (kwargs : list (string * pyval)) : M unit :=
  let* instance := the_instance in
  let* name := lift (getattr_class instance "name") in
  set_attribute TOOL_CALL_FUNCTION_NAME (VStr (str name)) >>
  let* dumped := lift (json_dumps (VDict kwargs)) in
  set_attribute TOOL_CALL_FUNCTION_ARGUMENTS_JSON (VStr dumped).

Definition _ToolCallWrapper (wrapped : Callable) (objects : Objects)
    (kwargs : list (string * pyval)) (world : World) : Outcome :=
  if suppress_instrumentation world then fn_call wrapped objects kwargs world
  else
    let instance := obj_instance objects in
    let span_name :=
      if truthy instance then type_name instance else fn_name wrapped in
    match
      (input_value <-
         _get_input_value (fn_signature wrapped) (obj_args objects) kwargs ;;
       _flatten (VDict [(OPENINFERENCE_SPAN_KIND, VStr TOOL);
                        (INPUT_VALUE, VStr input_value)]))
    with
    | inl e => (Err e, objects, world)
    | inr attributes =>
        start_as_current_span span_name (dict_of_pairs attributes)
          (tool_inputs kwargs >>
           let* response :=
             try_except (call_wrapped wrapped kwargs) on_exception in
           set_status (MkStatus OK None) >>
           set_attribute OUTPUT_VALUE response >>
           let* from_context := get_attributes_from_context in
           set_attributes (dict_of_pairs from_context) >>
           ret response)
          objects world
    end.

(** ** Definitions used to state the properties *)

(** What [_flatten] yields for the elements of a list under [key], from
    position [index] on, and for one entry [(key, value)] of a mapping:
    the two inner loops of [_flatten] by name. *)
Fixpoint flatten_elems (key : string) (index : nat) (xs : list pyval)
  : result (list (string * pyval)) :=
  match xs with
  | [] => Ok []
  | sub_mapping :: xs' =>
      sub <- _flatten sub_mapping ;;
      more <- flatten_elems key (S index) xs' ;;
      Ok (prefix_keys (key +:+ "." +:+ pretty index) sub ++ more)%list
  end.

Definition flatten_entry (key : string) (value : pyval)
  : result (list (string * pyval)) :=
  match value with
  | VNone => Ok []
  | VDict _ => sub <- _flatten value ;; Ok (prefix_keys key sub)
  | VList xs =>
      if existsb is_Mapping xs then flatten_elems key 0 xs
      else Ok [(key, value)]
  | VEnum _ _ v => Ok [(key, v)]
  | _ => Ok [(key, value)]
  end.



(** The world after the tracer has ended [span]. *)
Definition export (span : Span) (world : World) : World :=
  MkWorld (suppress_instrumentation world) (context_attributes world)
          (finished_spans world ++ [span])%list.

(** What leaving the [with] block makes of the result of its body. *)
Definition finish (res : result pyval * Frame) : Outcome :=
  (res.1, fr_objects res.2, export (fr_span res.2) (fr_world res.2)).

(** [span] after [set_status(Status(ERROR, str(exception)))] and
    [record_exception(exception)]. *)
Definition failed (span : Span) (exception : exc) : Span :=
  MkSpan (span_name span) (span_attributes span)
         (MkStatus ERROR (Some (exc_message exception)))
         (span_exceptions span ++ [exception])%list.

(** The value the ambient context gives to [key], if any. *)
Definition ambient_value (key : string) (world : World) : option pyval :=
  dict_get key (dict_of_pairs (context_attributes world)).

(** The span a wrapper has built when it reaches the wrapped call, or the
    exception that stops the wrapper before. *)
Definition opened (name : string) (attributes : list (string * pyval))
    (inputs : M unit) (objects : Objects) (world : World) : result Span :=
  let span := MkSpan name (set_all attributes ∅) (MkStatus UNSET None) [] in
  match inputs (MkFrame span objects world) with
  | (inl e, _) => Err e
  | (inr _, fr) => Ok (fr_span fr)
  end.

Definition run_span_at_call (wrapped : Callable) (objects : Objects)
    (kwargs : list (string * pyval)) (world : World) : result Span :=
  input_value <-
    _get_input_value (fn_signature wrapped) (obj_args objects) kwargs ;;
  attributes <-
    _flatten (VDict [(OPENINFERENCE_SPAN_KIND, VStr AGENT);
                     (INPUT_VALUE, VStr input_value)]) ;;
  opened (type_name (obj_instance objects) +:+ ".run")
         (dict_of_pairs attributes) (run_inputs kwargs) objects world.

Definition step_span_at_call (objects : Objects) (world : World) : result Span :=
  step_number <- getattr (obj_instance objects) "step_number" ;;
  opened ("Step " +:+ str step_number)
         [(OPENINFERENCE_SPAN_KIND, VStr CHAIN)] (ret tt) objects world.

Definition model_span_at_call (wrapped : Callable) (objects : Objects)
    (kwargs : list (string * pyval)) (world : World) : result Span :=
  arguments <-
    _bind_arguments (fn_signature wrapped) (obj_args objects) kwargs ;;
  attributes <- model_inputs (obj_instance objects) arguments world ;;
  opened (if truthy (obj_instance objects)
          then type_name (obj_instance objects) +:+ ".__call__"
          else fn_name wrapped)
         attributes (ret tt) objects world.

Definition tool_span_at_call (wrapped : Callable) (objects : Objects)
    (kwargs : list (string * pyval)) (world : World) : result Span :=
  input_value <-
    _get_input_value (fn_signature wrapped) (obj_args objects) kwargs ;;
  attributes <-
    _flatten (VDict [(OPENINFERENCE_SPAN_KIND, VStr TOOL);
                     (INPUT_VALUE, VStr input_value)]) ;;
  opened (if truthy (obj_instance objects)
          then type_name (obj_instance objects) else fn_name wrapped)
         (dict_of_pairs attributes) (tool_inputs kwargs) objects world.

(** ** Sample inputs *)

(** The signature of [def f(a, b)]. *)
Definition signature_a_b : list parameter :=
  [Param "a" POSITIONAL_OR_KEYWORD None; Param "b" POSITIONAL_OR_KEYWORD None].

Definition RuntimeError (msg : string) : exc :=
  Exc ["RuntimeError"; "Exception"; "BaseException"; "object"] msg.

Definition plain_object (cls : string) (attrs : list (string * pyval)) : pyval :=
  VObj (ObjMeta cls [] ("<" +:+ cls +:+ " object>") ("<" +:+ cls +:+ " object>"))
       [] attrs.

(** A model, an agent with everything the wrappers read, a step log and a
    chat message. *)
Definition sample_model : pyval :=
  plain_object "HfApiModel"
    [("model_id", VStr "qwen"); ("last_input_token_count", VInt 10);
     ("last_output_token_count", VInt 5)].

Definition sample_agent : pyval :=
  VObj (ObjMeta "CodeAgent" ["MultiStepAgent"] "<CodeAgent object>"
                "<CodeAgent object>")
       [("name", VStr "code_agent")]
       [("task", VStr "2+2"); ("model", sample_model); ("max_steps", VInt 5);
        ("tools", VDict [("search", VNone)]); ("managed_agents", VDict []);
        ("monitor", plain_object "Monitor"
                      [("total_input_token_count", VInt 10);
                       ("total_output_token_count", VInt 5)]);
        ("step_number", VInt 3)].

Definition sample_step_log (error : pyval) : pyval :=
  plain_object "ActionStep"
    [("error", error); ("observations", VStr "seen")].

Definition sample_message : pyval :=
  plain_object "ChatMessage"
    [("role", VStr "assistant"); ("content", VStr "hi");
     ("model_dump_json", VMethod (inr (VStr "{}")))].

(** A callable with the signature of [def f(a, b)] that leaves objects and
    world as they are and returns or raises what it is given. *)
Definition constant_callable (outcome : result pyval) : Callable :=
  MkCallable "f" signature_a_b (fun objects _ world => (outcome, objects, world)).

Definition sample_objects : Objects :=
  MkObjects sample_agent [sample_step_log VNone; VInt 2].

Definition quiet_world : World := MkWorld true [("session.id", VStr "s1")] [].
Definition traced_world : World := MkWorld false [("session.id", VStr "s1")] [].


Definition pydantic_like : pyval :=
  plain_object "Reply" [("dict", VMethod (inr (VDict [("text", VStr "hi")])))].

(** A computation of the span block that touches neither the objects nor
    the world, and one that leaves the attribute under [key] as it is. *)
Definition quiet {A : Type} (m : M A) : Prop :=
  forall fr, fr_objects (m fr).2 = fr_objects fr /\ fr_world (m fr).2 = fr_world fr.


(** A model call that returns [sample_message], made while the ambient
    context carries an attribute under the key of the model name. *)
Definition model_call : Callable :=
  MkCallable "__call__" [Param "messages" POSITIONAL_OR_KEYWORD None]
             (fun objects _ world => (Ok sample_message, objects, world)).

Definition model_objects : Objects := MkObjects sample_model [].

Definition hello : list (string * pyval) :=
  [("messages", VList [VDict [("role", VStr "user"); ("content", VStr "hi")]])].

Definition collision_world : World :=
  MkWorld false [(LLM_MODEL_NAME, VStr "from-context")] [].

Definition collision_outcome : Outcome :=
  _ModelWrapper (fun _ => Ok (VDict [])) model_call model_objects hello
                collision_world.

(** A run that returns ["4"] and a tool call that returns ["found"]. *)
Definition run_outcome : Outcome :=
  _RunWrapper (constant_callable (Ok (VStr "4"))) sample_objects []
              traced_world.

Definition tool_outcome : Outcome :=
  _ToolCallWrapper (constant_callable (Ok (VStr "found"))) sample_objects []
                   traced_world.

Definition model_outcome : Outcome :=
  _ModelWrapper (fun _ => Ok (VDict [])) model_call model_objects hello
                traced_world.



(** A step that returns [None] and leaves an error and an observation in
    its step log. *)
Definition step_error : pyval :=
  VObj (ObjMeta "AgentExecutionError" ["AgentError"; "Exception"]
                "AgentExecutionError('division by zero')" "division by zero")
       [] [].

Definition failing_step : Callable :=
  MkCallable "step" [Param "log_entry" POSITIONAL_OR_KEYWORD None]
             (fun objects _ world =>
                (Ok VNone,
                 MkObjects (obj_instance objects) [sample_step_log step_error],
                 world)).

Definition step_objects : Objects :=
  MkObjects sample_agent [sample_step_log VNone].


Definition step_outcome : Outcome :=
  _StepWrapper failing_step step_objects [] traced_world.





(** A model call that raises, and the sample tool call that raises. *)
Definition raising_model_call : Callable :=
  MkCallable "__call__" [Param "messages" POSITIONAL_OR_KEYWORD None]
             (fun objects _ world =>
                (Err (RuntimeError "timeout"), objects, world)).

Definition model_failure_outcome : Outcome :=
  _ModelWrapper (fun _ => Ok (VDict [])) raising_model_call model_objects hello
                traced_world.

Definition tool_failure_outcome : Outcome :=
  _ToolCallWrapper (constant_callable (Err (RuntimeError "timeout")))
                   sample_objects [] traced_world.

(** An exception that is not an instance of [Exception]. *)
Definition KeyboardInterrupt : exc :=
  Exc ["KeyboardInterrupt"; "BaseException"; "object"] "".

(** ** Further definitions used to state properties *)

(** The values [_flatten] yields as they are: not [None], not a mapping,
    not a member of an [Enum], not a list that holds a mapping. *)
Definition is_leaf (value : pyval) : bool :=
  match value with
  | VNone | VDict _ | VEnum _ _ _ => false
  | VList xs => negb (existsb is_Mapping xs)
  | _ => true
  end.

(** [s.startswith(p)] *)
Definition starts_with (p s : string) : Prop := exists rest, s = p +:+ rest.

(** A plain parameter, which takes a positional or a keyword argument; a
    parameter with a default; a parameter not called [name]. *)
Definition positional (p : parameter) : bool :=
  kind_eqb (p_kind p) POSITIONAL_OR_KEYWORD.

Definition has_default (p : parameter) : bool :=
  match p_default p with Some _ => true | None => false end.

Definition not_named (name : string) (p : parameter) : bool :=
  negb (String.eqb (p_name p) name).

(** The parameters that have a default, each with its default. *)
Definition default_entries (parameters : list parameter)
  : list (string * pyval) :=
  omap (fun p => match p_default p with
                 | Some v => Some (p_name p, v)
                 | None => None
                 end) parameters.

(** The bound arguments [r] with [entry] in front of them. *)
Definition under (entry : string * pyval)
    (r : result (list (string * pyval))) : result (list (string * pyval)) :=
  match r with
  | inl e => inl e
  | inr arguments => inr (entry :: arguments)
  end.

(** What [_llm_input_messages] yields for the element [message] at
    position [i] of the list of messages: the body of its loop. *)
Definition input_message_entries (i : nat) (message : pyval)
  : list (string * pyval) :=
  match message with
  | VDict m =>
      (let role := dict_get_or_None "role" m in
       if negb (is_None role) then
         [(LLM_INPUT_MESSAGES +:+ "." +:+ pretty i +:+ "."
           +:+ MESSAGE_ROLE, role)]
       else [])
      ++
      (let content := dict_get_or_None "content" m in
       if negb (is_None content) then
         [(LLM_INPUT_MESSAGES +:+ "." +:+ pretty i +:+ "."
           +:+ MESSAGE_CONTENT, content)]
       else [])
  | _ => []
  end%list.

(** [span] after [set_attribute("Final answer", result)] where the step
    wrapper does it. *)
Definition with_final_answer (result : pyval) (span : Span) : Span :=
  MkSpan (span_name span)
         ((if negb (is_None result) then <["Final answer" := result]> else id)
            (span_attributes span))
         (span_status span) (span_exceptions span).

(** ** Further sample inputs *)

(** The signature of [def __call__(messages, stop_sequences=None,
    grammar=None)]. *)
Definition signature_with_defaults : list parameter :=
  [Param "messages" POSITIONAL_OR_KEYWORD None;
   Param "stop_sequences" POSITIONAL_OR_KEYWORD (Some VNone);
   Param "grammar" POSITIONAL_OR_KEYWORD (Some VNone)].

(** Keyword arguments one of which [json.dumps] refuses. *)
Definition opaque_argument : list (string * pyval) :=
  [("a", plain_object "Opaque" []); ("b", VInt 2)].

(** A step called with its step log passed by keyword, an agent that has
    no monitor, and a model without token counters. *)
Definition keyword_step_objects : Objects := MkObjects sample_agent [].

Definition unmonitored_agent : pyval :=
  VObj (ObjMeta "CodeAgent" ["MultiStepAgent"] "<CodeAgent object>"
                "<CodeAgent object>")
       [("name", VStr "code_agent")]
       [("task", VStr "2+2"); ("model", sample_model); ("max_steps", VInt 5);
        ("tools", VDict [("search", VNone)]); ("managed_agents", VDict []);
        ("step_number", VInt 3)].

Definition unmonitored_objects : Objects :=
  MkObjects unmonitored_agent [VInt 1; VInt 2].

Definition uncounted_model_objects : Objects :=
  MkObjects (plain_object "HfApiModel" [("model_id", VStr "qwen")]) [].

(** A step that returns a final answer. *)
Definition answering_step : Callable :=
  MkCallable "step" [Param "log_entry" POSITIONAL_OR_KEYWORD None]
             (fun objects _ world => (Ok (VStr "42"), objects, world)).

(** A tool, and a managed agent whose model has no [model_id] and whose
    own agent has a tool of its own. *)
Definition sample_tool : pyval :=
  VObj (ObjMeta "SearchTool" ["Tool"] "<SearchTool object>" "<SearchTool object>")
       [("name", VStr "search")] [].

Definition sample_managed_agent : pyval :=
  plain_object "ManagedAgent"
    [("name", VStr "helper"); ("description", VStr "looks things up");
     ("additional_prompting", VNone);
     ("agent", plain_object "ToolCallingAgent"
                 [("model", plain_object "LocalModel" []);
                  ("max_steps", VInt 3);
                  ("tools", VDict [("browse", VNone)])])].

(** A run with the signature of [def run(task, additional_args=None)]
    that returns ["4"], and additional arguments that hold an object. *)
Definition run_callable : Callable :=
  MkCallable "run"
             [Param "task" POSITIONAL_OR_KEYWORD None;
              Param "additional_args" POSITIONAL_OR_KEYWORD (Some VNone)]
             (fun objects _ world => (Ok (VStr "4"), objects, world)).

Definition frame_argument : list (string * pyval) :=
  [("additional_args", VDict [("df", plain_object "DataFrame" [])])].

(** * Properties *)

(** ** Fallible computations *)

Lemma bind_assoc {A B C : Type} (m : result A) (f : A -> result B)
    (g : B -> result C) :
  bind (bind m f) g = bind m (fun a => bind (f a) g).
Proof. destruct m; reflexivity. Qed.

Lemma bind_Ok_r {A : Type} (m : result A) : bind m Ok = m.
Proof. destruct m; reflexivity. Qed.

Lemma bind_inv {A B : Type} (m : result A) (f : A -> result B) (b : B) :
  bind m f = inr b -> exists a, m = inr a /\ f a = inr b.
Proof. destruct m as [e|a]; simpl; [discriminate | eauto]. Qed.

(** ** The flattener *)

Lemma flatten_empty : _flatten (VDict []) = Ok [].
Proof. reflexivity. Qed.

Lemma flatten_elems_eq (key : string) (xs : list pyval) (index : nat) :
  (fix elems (index : nat) (xs : list pyval) {struct xs}
     : result (list (string * pyval)) :=
     match xs with
     | [] => Ok []
     | sub_mapping :: xs' =>
         sub <- _flatten sub_mapping ;;
         more <- elems (S index) xs' ;;
         Ok (prefix_keys (key +:+ "." +:+ pretty index) sub ++ more)%list
     end) index xs = flatten_elems key index xs.
Proof.
  revert index. induction xs as [|x xs IH]; intros index; simpl; [reflexivity|].
  destruct (_flatten x); simpl; [reflexivity|]. now rewrite IH.
Qed.

(** One entry of a mapping contributes [flatten_entry], the rest follows. *)
Lemma flatten_cons (key : string) (value : pyval) (rest : list (string * pyval)) :
  _flatten (VDict ((key, value) :: rest)) =
  (here <- flatten_entry key value ;;
   more <- _flatten (VDict rest) ;;
   Ok (here ++ more)%list).
Proof.
  destruct rest as [|kv rest].
  - cbn -[flatten_elems]. unfold flatten_entry.
    destruct value; try reflexivity.
    destruct (existsb is_Mapping xs); [|reflexivity].
    now rewrite flatten_elems_eq.
  - cbn -[flatten_elems]. unfold flatten_entry.
    destruct value; try reflexivity.
    destruct (existsb is_Mapping xs); [|reflexivity].
    now rewrite flatten_elems_eq.
Qed.

Lemma flatten_app (l1 l2 : list (string * pyval)) :
  _flatten (VDict (l1 ++ l2)) =
  (a <- _flatten (VDict l1) ;; b <- _flatten (VDict l2) ;; Ok (a ++ b)%list).
Proof.
  induction l1 as [|[k v] l1 IH].
  - rewrite flatten_empty. cbn [app bind Ok]. now rewrite bind_Ok_r.
  - change (((k, v) :: l1) ++ l2)%list with ((k, v) :: (l1 ++ l2))%list.
    rewrite !flatten_cons, IH.
    destruct (flatten_entry k v) as [e|here]; [reflexivity|]. cbn [bind Ok].
    destruct (_flatten (VDict l1)) as [e|a]; [reflexivity|]. cbn [bind Ok].
    destruct (_flatten (VDict l2)) as [e|b]; [reflexivity|]. cbn [bind Ok].
    now rewrite app_assoc.
Qed.

(** C5: an entry whose value is [None] contributes nothing to the
    flattened mapping, and an entry whose value is a nested mapping
    contributes exactly the flattened entries of that mapping, each key
    prefixed with the outer key and a dot, at the place of the entry. *)
Theorem flatten_skips_None_and_prefixes_nested
    (before after : list (string * pyval)) (key : string) :
  _flatten (VDict (before ++ (key, VNone) :: after))
  = _flatten (VDict (before ++ after))
  /\ forall nested : list (string * pyval),
       _flatten (VDict (before ++ (key, VDict nested) :: after))
       = (a <- _flatten (VDict before) ;;
          sub <- _flatten (VDict nested) ;;
          b <- _flatten (VDict after) ;;
          Ok (a ++ prefix_keys key sub ++ b)%list).
Proof.
  split.
  - rewrite !flatten_app, flatten_cons. cbn [flatten_entry bind Ok].
    destruct (_flatten (VDict before)); [reflexivity|]. cbn [bind Ok].
    destruct (_flatten (VDict after)); reflexivity.
  - intros nested. rewrite flatten_app, flatten_cons.
    cbn [flatten_entry].
    destruct (_flatten (VDict before)) as [e|a]; [reflexivity|]. cbn [bind Ok].
    destruct (_flatten (VDict nested)) as [e|sub]; [reflexivity|]. cbn [bind Ok].
    destruct (_flatten (VDict after)) as [e|b]; reflexivity.
Qed.

Example flatten_nested_example :
  _flatten (VDict [("a", VInt 1); ("n", VNone);
                   ("m", VDict [("x", VInt 2); ("y", VDict [("z", VStr "q")])])])
  = Ok [("a", VInt 1); ("m.x", VInt 2); ("m.y.z", VStr "q")].
Proof. reflexivity. Qed.

(** A list all of whose elements are mappings is flattened element by
    element, in order, under [key.index]. *)
Lemma flatten_list_of_mappings (key : string) (xs : list pyval) :
  existsb is_Mapping xs = true ->
  _flatten (VDict [(key, VList xs)]) = flatten_elems key 0 xs.
Proof.
  intros H. rewrite flatten_cons, flatten_empty. unfold flatten_entry.
  rewrite H. destruct (flatten_elems key 0 xs); cbn [bind Ok]; [reflexivity|].
  now rewrite app_nil_r.
Qed.

Example flatten_list_example :
  _flatten (VDict [("l", VList [VDict [("p", VInt 1)]; VDict [("q", VInt 2)]])])
  = Ok [("l.0.p", VInt 1); ("l.1.q", VInt 2)].
Proof. reflexivity. Qed.

(** C6: on a list that mixes a mapping with a scalar that is not falsy,
    [_flatten] raises [AttributeError] instead of flattening the list. *)
Theorem flatten_mixed_list_raises :
  _flatten (VDict [("k", VList [VDict [("a", VInt 1)]; VInt 5])])
  = Err (AttributeError "'int' object has no attribute 'items'").
Proof. reflexivity. Qed.

(** A falsy scalar next to a mapping is dropped without a trace. *)
Example flatten_mixed_list_drops_falsy :
  _flatten (VDict [("k", VList [VDict [("a", VInt 1)]; VInt 0; VStr ""])])
  = Ok [("k.0.a", VInt 1)].
Proof. reflexivity. Qed.

(** ** The suppression gate *)

(** C2: with the suppression flag set, each of the four wrappers is the
    wrapped call itself: same result or exception, same objects, same
    world, hence no span, no binding and no attribute computed. *)
Theorem suppressed_wrappers_call_through
    (get_json_schema : pyval -> result pyval) (wrapped : Callable)
    (objects : Objects) (kwargs : list (string * pyval)) (world : World) :
  suppress_instrumentation world = true ->
  _RunWrapper wrapped objects kwargs world = fn_call wrapped objects kwargs world
  /\ _StepWrapper wrapped objects kwargs world
     = fn_call wrapped objects kwargs world
  /\ _ModelWrapper get_json_schema wrapped objects kwargs world
     = fn_call wrapped objects kwargs world
  /\ _ToolCallWrapper wrapped objects kwargs world
     = fn_call wrapped objects kwargs world.
Proof.
  intros Hsuppress.
  unfold _RunWrapper, _StepWrapper, _ModelWrapper, _ToolCallWrapper.
  rewrite Hsuppress. repeat split.
Qed.

(** The arguments of the sample call do not fit [f(a, b)]: a wrapper that
    bound them would fail. *)
Lemma suppressed_wrappers_call_through_witness :
  _RunWrapper (constant_callable (Ok (VInt 7))) sample_objects
              [("c", VInt 1)] quiet_world
  = (Ok (VInt 7), sample_objects, quiet_world)
  /\ _ToolCallWrapper (constant_callable (Err (RuntimeError "timeout")))
                      sample_objects [("c", VInt 1)] quiet_world
     = (Err (RuntimeError "timeout"), sample_objects, quiet_world).
Proof.
  split.
  - apply (suppressed_wrappers_call_through (fun _ => Ok VNone)
             (constant_callable (Ok (VInt 7))) sample_objects
             [("c", VInt 1)] quiet_world).
    reflexivity.
  - apply (suppressed_wrappers_call_through (fun _ => Ok VNone)
             (constant_callable (Err (RuntimeError "timeout"))) sample_objects
             [("c", VInt 1)] quiet_world).
    reflexivity.
Defined.

(** ** The argument binder *)

Lemma eqb_ne (a b : string) : a <> b -> String.eqb a b = false.
Proof. intros H. now apply String.eqb_neq. Qed.

Lemma contains_false (names : list string) (name : string) :
  name ∉ names -> contains names name = false.
Proof. intros H. unfold contains. now apply bool_decide_eq_false. Qed.

(** C4: for a function [f(a, b)], whatever the two parameters are called
    (short of [self] and [kwargs]) and whatever values are passed, the
    input value is the same for the positional call, for the keyword call
    in either order, and for the call that passes [b] through a
    double-star dictionary: it is the encoding of [{a: x, b: y}]. *)
Theorem input_value_same_for_positional_and_keyword
    (a b : string) (x y : pyval) (da db : option pyval) :
  a <> b -> a ∉ ["self"; "kwargs"] -> b ∉ ["self"; "kwargs"] ->
  let f := [Param a POSITIONAL_OR_KEYWORD da; Param b POSITIONAL_OR_KEYWORD db] in
  let expected :=
    safe_json_dumps (Some SafeJSONEncoder_default) (VDict [(a, x); (b, y)]) in
  _get_input_value f [x; y] [] = expected
  /\ _get_input_value f [] [(a, x); (b, y)] = expected
  /\ _get_input_value f [] [(b, y); (a, x)] = expected
  /\ exists kwargs,
       call_kwargs [(a, x)] [(b, y)] = Ok kwargs
       /\ _get_input_value f [] kwargs = expected.
Proof.
  intros Hab Ha Hb f expected.
  assert (Hba : String.eqb b a = false) by (apply eqb_ne; congruence).
  assert (Hab' : String.eqb a b = false) by now apply eqb_ne.
  assert (Hself : contains ["self"] a = false).
  { apply contains_false. intros Hin. apply Ha.
    apply elem_of_cons. left. now apply list_elem_of_singleton in Hin. }
  assert (Hka : String.eqb "kwargs" a = false).
  { apply eqb_ne. intros <-. apply Ha. apply elem_of_cons. right.
    now apply list_elem_of_singleton. }
  assert (Hkb : String.eqb "kwargs" b = false).
  { apply eqb_ne. intros <-. apply Hb. apply elem_of_cons. right.
    now apply list_elem_of_singleton. }
  pose proof (contains_false _ _ Ha) as Hca.
  pose proof (contains_false _ _ Hb) as Hcb.
  assert (Haa : String.eqb a a = true) by apply String.eqb_refl.
  assert (Hbb : String.eqb b b = true) by apply String.eqb_refl.
  repeat split.
  1-3: unfold _get_input_value, f; cbn [map head p_name]; rewrite Hself;
       unfold Signature_bind, dict_has, dict_update, dict_of_pairs;
       repeat (progress (unfold dict_has;
               cbn -[String.eqb contains safe_json_dumps];
               rewrite ?Hba, ?Hab', ?Hka, ?Hkb, ?Hca, ?Hcb, ?Haa, ?Hbb));
       reflexivity.
  exists [(a, x); (b, y)]. split.
  - unfold call_kwargs, dict_has. cbn -[String.eqb]. now rewrite Hba.
  - unfold _get_input_value, f; cbn [map head p_name]; rewrite Hself;
       unfold Signature_bind, dict_has, dict_update, dict_of_pairs;
       repeat (progress (unfold dict_has;
               cbn -[String.eqb contains safe_json_dumps];
               rewrite ?Hba, ?Hab', ?Hka, ?Hkb, ?Hca, ?Hcb, ?Haa, ?Hbb));
       reflexivity.
Qed.

Lemma input_value_same_for_positional_and_keyword_witness :
  _get_input_value signature_a_b [VInt 1; VInt 2] []
  = safe_json_dumps (Some SafeJSONEncoder_default)
                    (VDict [("a", VInt 1); ("b", VInt 2)])
  /\ _get_input_value signature_a_b [] [("a", VInt 1); ("b", VInt 2)]
     = safe_json_dumps (Some SafeJSONEncoder_default)
                       (VDict [("a", VInt 1); ("b", VInt 2)])
  /\ _get_input_value signature_a_b [] [("b", VInt 2); ("a", VInt 1)]
     = safe_json_dumps (Some SafeJSONEncoder_default)
                       (VDict [("a", VInt 1); ("b", VInt 2)])
  /\ exists kwargs,
       call_kwargs [("a", VInt 1)] [("b", VInt 2)] = Ok kwargs
       /\ _get_input_value signature_a_b [] kwargs
          = safe_json_dumps (Some SafeJSONEncoder_default)
                            (VDict [("a", VInt 1); ("b", VInt 2)]).
Proof.
  apply (input_value_same_for_positional_and_keyword
           "a" "b" (VInt 1) (VInt 2) None None).
  - discriminate.
  - apply (bool_decide_unpack _). vm_compute. reflexivity.
  - apply (bool_decide_unpack _). vm_compute. reflexivity.
Defined.

(** The three calls of [f(1, 2)] give one and the same string. *)
Example input_value_of_f_1_2 :
  _get_input_value signature_a_b [VInt 1; VInt 2] []
  = Ok ("{" +:+ encode_basestring_ascii "a" +:+ ": 1, "
            +:+ encode_basestring_ascii "b" +:+ ": 2}")
  /\ _get_input_value signature_a_b [] [("b", VInt 2); ("a", VInt 1)]
     = _get_input_value signature_a_b [VInt 1; VInt 2] [].
Proof. split; reflexivity. Qed.

(** A keyword that is itself called [kwargs] is kept under that name and
    not merged into the top level. *)
Example input_value_of_keyword_named_kwargs :
  _get_input_value
    [Param "a" POSITIONAL_OR_KEYWORD None; Param "kwargs" VAR_KEYWORD None]
    [VInt 1] [("kwargs", VDict [("b", VInt 2)])]
  = safe_json_dumps (Some SafeJSONEncoder_default)
      (VDict [("a", VInt 1); ("kwargs", VDict [("b", VInt 2)])]).
Proof. reflexivity. Qed.

(** ** The safe encoder *)

Lemma iterencode_list (default : pyval -> result pyval) (fuel : nat) (xs : list pyval) :
  iterencode default fuel (VList xs)
  = (chunks <- mapM (iterencode default fuel) xs ;;
     Ok ("[" +:+ String.concat ", " chunks +:+ "]")).
Proof.
  destruct fuel; cbn [iterencode]; f_equal;
    induction xs as [|x xs IH]; cbn [mapM]; try reflexivity;
    now rewrite IH.
Qed.

Lemma iterencode_tuple (default : pyval -> result pyval) (fuel : nat) (xs : list pyval) :
  iterencode default fuel (VTuple xs)
  = (chunks <- mapM (iterencode default fuel) xs ;;
     Ok ("[" +:+ String.concat ", " chunks +:+ "]")).
Proof.
  destruct fuel; cbn [iterencode]; f_equal;
    induction xs as [|x xs IH]; cbn [mapM]; try reflexivity;
    now rewrite IH.
Qed.

Lemma iterencode_dict (default : pyval -> result pyval) (fuel : nat)
    (kvs : list (string * pyval)) :
  iterencode default fuel (VDict kvs)
  = (chunks <- mapM (fun kv => c <- iterencode default fuel kv.2 ;;
                               Ok (encode_basestring_ascii kv.1 +:+ ": " +:+ c))
                    kvs ;;
     Ok ("{" +:+ String.concat ", " chunks +:+ "}")).
Proof.
  destruct fuel; cbn [iterencode]; f_equal;
    induction kvs as [|[k v] kvs IH]; cbn [mapM fst snd]; try reflexivity;
    rewrite IH, bind_assoc; reflexivity.
Qed.


Lemma iterencode_hook (default : pyval -> result pyval) (fuel : nat) (o : pyval) :
  match o with VEnum _ _ _ | VMethod _ | VObj _ _ _ => True | _ => False end ->
  iterencode default (S fuel) o = (o' <- default o ;; iterencode default fuel o').
Proof. destruct o; intros []; reflexivity. Qed.

Lemma py_size_pos (v : pyval) : (1 <= py_size v)%nat.
Proof. destruct v as [| | | | | | | | [e|v'] |]; cbn [py_size]; lia. Qed.

Lemma sum_list_elem {A : Type} (f : A -> nat) (xs : list A) (x : A) :
  x ∈ xs -> (f x <= sum_list (map f xs))%nat.
Proof.
  induction 1; cbn; lia.
Qed.

Lemma dict_get_size (name : string) (d : list (string * pyval)) (x : pyval) :
  dict_get name d = Some x ->
  (py_size x <= sum_list (map (fun kv => py_size kv.2) d))%nat.
Proof.
  induction d as [|[k v] d IH]; cbn -[String.eqb]; [discriminate|].
  destruct (String.eqb name k).
  - intros [= ->]. lia.
  - intros H. apply IH in H. lia.
Qed.

Lemma lookup_attr_size (o : pyval) (name : string) (x : pyval) :
  lookup_attr o name = Some x -> (py_size x < py_size o)%nat.
Proof.
  destruct o; try discriminate. cbn [lookup_attr py_size].
  destruct (dict_get name attrs) eqn:E.
  - intros [= ->]. apply dict_get_size in E. lia.
  - intros H. apply dict_get_size in H. lia.
Qed.



Lemma SafeJSONEncoder_default_eq (o : pyval) :
  SafeJSONEncoder_default o
  = match lookup_attr o "dict" with
    | Some (VMethod ret) => ret
    | _ => Ok (VStr (repr o))
    end.
Proof.
  unfold SafeJSONEncoder_default, JSONEncoder_default, hasattr, getattr.
  cbn [exc_isinstance TypeError exc_mro].
  destruct (lookup_attr o "dict") as [d|] eqn:E.
  - rewrite bool_decide_eq_true_2 by eauto.
    destruct d; reflexivity.
  - rewrite (bool_decide_eq_false_2 (is_Some None)); [reflexivity|].
    intros [? ?]; discriminate.
Qed.

Lemma iterencode_str (default : pyval -> result pyval) (fuel : nat) (s : string) :
  iterencode default fuel (VStr s) = Ok (encode_basestring_ascii s).
Proof. destruct fuel; reflexivity. Qed.





Example SafeJSONEncoder_falls_back :
  SafeJSONEncoder_encode (VList [pydantic_like; plain_object "Opaque" []])
  = Ok ("[{" +:+ encode_basestring_ascii "text" +:+ ": "
             +:+ encode_basestring_ascii "hi" +:+ "}, "
             +:+ encode_basestring_ascii "<Opaque object>" +:+ "]").
Proof. reflexivity. Qed.

(** ** The span block *)

Lemma start_as_current_span_eq name attributes body objects world :
  start_as_current_span name attributes body objects world
  = finish (body (MkFrame (MkSpan name (set_all attributes ∅) (MkStatus UNSET None) [])
                          objects world)).
Proof.
  unfold start_as_current_span, finish, export.
  now destruct (body _) as [r fr].
Qed.

Lemma quiet_bind {A B} (m : M A) (k : A -> M B) :
  quiet m -> (forall a, quiet (k a)) -> quiet (bindM m k).
Proof.
  intros Hm Hk fr. unfold bindM. specialize (Hm fr).
  destruct (m fr) as [[e|a] fr1]; [exact Hm|].
  destruct (Hk a fr1) as [H1 H2]. cbn [snd] in Hm. destruct Hm as [H3 H4].
  split; congruence.
Qed.

Lemma quiet_lift {A} (r : result A) : quiet (lift r).
Proof. intros fr. split; reflexivity. Qed.
Lemma quiet_ret {A} (a : A) : quiet (ret a).
Proof. intros fr. split; reflexivity. Qed.
Lemma quiet_update_span f : quiet (update_span f).
Proof. intros fr. split; reflexivity. Qed.
Lemma quiet_the_instance : quiet the_instance.
Proof. intros fr. split; reflexivity. Qed.

Ltac quiet_tac :=
  repeat first
    [ apply quiet_bind; [|intros ?]
    | apply quiet_lift | apply quiet_ret | apply quiet_the_instance
    | apply quiet_update_span ].

Lemma quiet_run_inputs kwargs : quiet (run_inputs kwargs).
Proof.
  unfold run_inputs, run_describe, set_attribute. quiet_tac.
Qed.

Lemma quiet_tool_inputs kwargs : quiet (tool_inputs kwargs).
Proof. unfold tool_inputs, set_attribute. quiet_tac. Qed.

Lemma opened_inv name attributes inputs objects world span0 :
  quiet inputs ->
  opened name attributes inputs objects world = inr span0 ->
  inputs (MkFrame (MkSpan name (set_all attributes ∅) (MkStatus UNSET None) [])
                  objects world)
  = (inr tt, MkFrame span0 objects world).
Proof.
  unfold opened. intros Hq H.
  specialize (Hq (MkFrame (MkSpan name (set_all attributes ∅) (MkStatus UNSET None) [])
                  objects world)).
  destruct (inputs _) as [[e|[]] [s o w]]; [discriminate|].
  cbn in *. destruct Hq as [-> ->]. now injection H as ->.
Qed.



Lemma bindM_inl {A B} (m : M A) (k : A -> M B) fr e fr' :
  m fr = (inl e, fr') -> bindM m k fr = (inl e, fr').
Proof. intros H. unfold bindM. now rewrite H. Qed.

Lemma bindM_inr {A B} (m : M A) (k : A -> M B) fr a fr' :
  m fr = (inr a, fr') -> bindM m k fr = k a fr'.
Proof. intros H. unfold bindM. now rewrite H. Qed.

Section Raising.
Variables (wrapped : Callable) (objects objects' : Objects)
          (kwargs : list (string * pyval)) (world world' : World) (e : exc).
Hypothesis Htraced : suppress_instrumentation world = false.
Hypothesis Hcall : fn_call wrapped objects kwargs world = (inl e, objects', world').
Hypothesis Hexc : exc_isinstance e "Exception" = true.




End Raising.



(** The scenario of the spec: a tool call that raises
    [RuntimeError("timeout")]. *)
Example tool_call_timeout :
  let outcome :=
    _ToolCallWrapper (constant_callable (Err (RuntimeError "timeout")))
                     sample_objects [] traced_world in
  outcome.1.1 = Err (RuntimeError "timeout")
  /\ map span_status (finished_spans outcome.2)
     = [MkStatus ERROR (Some "timeout")]
  /\ map span_exceptions (finished_spans outcome.2)
     = [[RuntimeError "timeout"]].
Proof. vm_compute. repeat split. Qed.

(** An exception outside [Exception] is not caught by the handler: it
    leaves the wrapper as it is, and the span ends as it was built. *)
Lemma try_except_passes_base_exception {A : Type} (body : M A)
    (handler : exc -> M A) (fr fr' : Frame) (e : exc) :
  body fr = (inl e, fr') ->
  exc_isinstance e "Exception" = false ->
  try_except body handler fr = (inl e, fr').
Proof. intros H He. unfold try_except. now rewrite H, He. Qed.

Example tool_call_interrupted :
  (_ToolCallWrapper (constant_callable (Err KeyboardInterrupt))
                    sample_objects [] traced_world).1.1
  = Err KeyboardInterrupt
  /\ map span_status
         (finished_spans
            (_ToolCallWrapper (constant_callable (Err KeyboardInterrupt))
                              sample_objects [] traced_world).2)
     = [MkStatus UNSET None].
Proof. vm_compute. repeat split. Qed.

(** ** Dictionaries and span attributes *)

Lemma dict_get_None {A : Type} (k : string) (d : list (string * A)) :
  dict_get k d = None <-> k ∉ map fst d.
Proof.
  induction d as [|[k' v] d IH]; cbn -[String.eqb].
  - split; [intros _; apply not_elem_of_nil | reflexivity].
  - rewrite not_elem_of_cons.
    destruct (String.eqb_spec k k') as [->|Hne].
    + split; [discriminate | intros [[] _]; reflexivity].
    + rewrite IH. tauto.
Qed.

Lemma dict_get_set {A : Type} (k k' : string) (v : A) (d : list (string * A)) :
  dict_get k (dict_set k' v d) = if String.eqb k k' then Some v else dict_get k d.
Proof.
  induction d as [|[k0 v0] d IH]; cbn -[String.eqb].
  - reflexivity.
  - destruct (String.eqb_spec k' k0) as [->|Hne]; cbn -[String.eqb].
    + destruct (String.eqb k k0); reflexivity.
    + rewrite IH.
      destruct (String.eqb_spec k k0) as [->|Hne'];
        destruct (String.eqb_spec k0 k'); congruence.
Qed.

Lemma dict_set_keys {A : Type} (k : string) (v : A) (d : list (string * A)) :
  map fst (dict_set k v d)
  = if dict_has k d then map fst d else (map fst d ++ [k])%list.
Proof.
  unfold dict_has.
  induction d as [|[k0 v0] d IH]; cbn -[String.eqb]; [reflexivity|].
  destruct (String.eqb_spec k k0) as [->|Hne]; cbn -[String.eqb]; [reflexivity|].
  rewrite IH. now destruct (dict_get k d).
Qed.

Lemma NoDup_dict_set {A : Type} (k : string) (v : A) (d : list (string * A)) :
  NoDup (map fst d) -> NoDup (map fst (dict_set k v d)).
Proof.
  intros Hd. rewrite dict_set_keys. unfold dict_has.
  destruct (dict_get k d) eqn:E; [exact Hd|].
  apply dict_get_None in E.
  apply NoDup_app. repeat split; [exact Hd | | apply NoDup_singleton].
  intros x Hx Hx'. apply list_elem_of_singleton in Hx'. congruence.
Qed.

Lemma NoDup_dict_update {A : Type} (d l : list (string * A)) :
  NoDup (map fst d) -> NoDup (map fst (dict_update d l)).
Proof.
  unfold dict_update. revert d.
  induction l as [|[k v] l IH]; intros d Hd; cbn [foldl]; [exact Hd|].
  apply IH. now apply NoDup_dict_set.
Qed.

Lemma NoDup_dict_of_pairs {A : Type} (l : list (string * A)) :
  NoDup (map fst (dict_of_pairs l)).
Proof. apply NoDup_dict_update. apply NoDup_nil_2. Qed.

Lemma set_all_lookup (l : list (string * pyval)) (m : gmap string pyval) (k : string) :
  NoDup (map fst l) ->
  set_all l m !! k = match dict_get k l with Some v => Some v | None => m !! k end.
Proof.
  unfold set_all. revert m.
  induction l as [|[k' v'] l IH]; intros m Hl; cbn -[String.eqb]; [reflexivity|].
  cbn [map fst] in Hl. apply NoDup_cons in Hl as [Hk' Hl]. rewrite IH by exact Hl.
  destruct (String.eqb_spec k k') as [->|Hne].
  - apply dict_get_None in Hk'. rewrite Hk'. apply lookup_insert_eq.
  - destruct (dict_get k l); [reflexivity|].
    apply lookup_insert_ne. congruence.
Qed.

Lemma dict_get_update (d l : list (string * pyval)) (k : string) :
  NoDup (map fst l) ->
  dict_get k (dict_update d l)
  = match dict_get k l with Some v => Some v | None => dict_get k d end.
Proof.
  unfold dict_update. revert d.
  induction l as [|[k' v'] l IH]; intros d Hl; cbn -[String.eqb]; [reflexivity|].
  cbn [map fst] in Hl. apply NoDup_cons in Hl as [Hk' Hl]. rewrite IH by exact Hl.
  rewrite dict_get_set.
  destruct (String.eqb_spec k k') as [->|Hne]; [|reflexivity].
  apply dict_get_None in Hk'. now rewrite Hk'.
Qed.

(** Merging the ambient attributes into the attributes [m] of a span. *)
Lemma merge_ambient_lookup (world : World) (m : gmap string pyval) (k : string) :
  set_all (dict_of_pairs (context_attributes world)) m !! k
  = match ambient_value k world with Some v => Some v | None => m !! k end.
Proof. apply set_all_lookup, NoDup_dict_of_pairs. Qed.

(** ** The end of the span block *)

Lemma bindM_inv {A B} (m : M A) (k : A -> M B) fr b fr' :
  bindM m k fr = (inr b, fr') ->
  exists a fr1, m fr = (inr a, fr1) /\ k a fr1 = (inr b, fr').
Proof.
  unfold bindM. destruct (m fr) as [[e|a] fr1]; [discriminate|]. eauto.
Qed.

Lemma try_except_inv {A} (body : M A) fr a fr' :
  try_except body on_exception fr = (inr a, fr') -> body fr = (inr a, fr').
Proof.
  unfold try_except. destruct (body fr) as [[e|a0] fr1]; [|auto].
  destruct (exc_isinstance e "Exception"); discriminate.
Qed.

Lemma lift_inv {A} (r : result A) fr a fr' :
  lift r fr = (inr a, fr') -> r = inr a /\ fr' = fr.
Proof. unfold lift. intros [= -> ->]. auto. Qed.

Lemma finished_inv (res : result pyval * Frame) r objects' world' :
  finish res = (inr r, objects', world') ->
  res.1 = inr r /\ fr_objects res.2 = objects'
  /\ world' = export (fr_span res.2) (fr_world res.2).
Proof. unfold finish. intros [= -> -> <-]. auto. Qed.

(** The last statements of the run, step and tool blocks. *)
Lemma merge_and_return (r : pyval) (fr : Frame) :
  (let* from_context := get_attributes_from_context in
   set_attributes (dict_of_pairs from_context) >> ret r) fr
  = (inr r,
     MkFrame (MkSpan (span_name (fr_span fr))
                     (set_all (dict_of_pairs (context_attributes (fr_world fr)))
                              (span_attributes (fr_span fr)))
                     (span_status (fr_span fr)) (span_exceptions (fr_span fr)))
             (fr_objects fr) (fr_world fr)).
Proof. reflexivity. Qed.

Lemma ambient_wins (world : World) (m : gmap string pyval) (k : string) (v : pyval) :
  ambient_value k world = Some v ->
  set_all (dict_of_pairs (context_attributes world)) m !! k = Some v.
Proof. intros H. now rewrite merge_ambient_lookup, H. Qed.

Section Returning.
Variables (wrapped : Callable) (objects objects' : Objects)
          (kwargs : list (string * pyval)) (world world' : World) (r : pyval).
Hypothesis Htraced : suppress_instrumentation world = false.

Lemma tool_merges_ambient_last :
  _ToolCallWrapper wrapped objects kwargs world = (inr r, objects', world') ->
  exists spans span,
    finished_spans world' = (spans ++ [span])%list
    /\ forall k v, ambient_value k world' = Some v ->
                   span_attributes span !! k = Some v.
Proof.
  unfold _ToolCallWrapper. rewrite Htraced.
  destruct (bind _ _) as [e0|attributes]; [discriminate|].
  rewrite start_as_current_span_eq. intros H.
  apply finished_inv in H as (H & _ & ->).
  destruct (bindM _ _ _) as [res fr'] eqn:E. cbn [fst snd] in *. subst res.
  apply bindM_inv in E as ([] & fr1 & _ & E).
  apply bindM_inv in E as (response & fr2 & _ & E).
  cbn in E. injection E as _ <-.
  eexists _, _. split; [reflexivity|].
  intros k v Hk. cbn. now apply ambient_wins.
Qed.

Lemma run_merges_ambient_last :
  _RunWrapper wrapped objects kwargs world = (inr r, objects', world') ->
  exists spans span,
    finished_spans world' = (spans ++ [span])%list
    /\ forall k v, ambient_value k world' = Some v ->
                   span_attributes span !! k = Some v.
Proof.
  unfold _RunWrapper. rewrite Htraced.
  destruct (bind _ _) as [e0|attributes]; [discriminate|].
  rewrite start_as_current_span_eq. intros H.
  apply finished_inv in H as (H & _ & ->).
  destruct (bindM _ _ _) as [res fr'] eqn:E. cbn [fst snd] in *. subst res.
  apply bindM_inv in E as ([] & fr1 & _ & E).
  apply bindM_inv in E as (response & fr2 & _ & E).
  cbn in E. injection E as _ <-.
  eexists _, _. split; [reflexivity|].
  intros k v Hk. cbn. now apply ambient_wins.
Qed.
Lemma step_merges_ambient_last :
  _StepWrapper wrapped objects kwargs world = (inr r, objects', world') ->
  exists spans span,
    finished_spans world' = (spans ++ [span])%list
    /\ forall k v, ambient_value k world' = Some v ->
                   span_attributes span !! k = Some v.
Proof.
  unfold _StepWrapper. rewrite Htraced.
  destruct (getattr _ _) as [e0|step_number]; [discriminate|].
  rewrite start_as_current_span_eq. intros H.
  apply finished_inv in H as (H & _ & ->).
  destruct (bindM _ _ _) as [res fr'] eqn:E. cbn [fst snd] in *. subst res.
  apply bindM_inv in E as (result & fr1 & _ & E).
  apply bindM_inv in E as ([] & fr2 & E & E').
  cbn in E'. injection E' as _ <-.
  unfold step_outputs in E.
  apply bindM_inv in E as (args & fr3 & _ & E).
  apply bindM_inv in E as (step_log & fr4 & _ & E).
  apply bindM_inv in E as (error & fr5 & _ & E).
  apply bindM_inv in E as ([] & fr6 & _ & E).
  apply bindM_inv in E as (observations & fr7 & _ & E).
  apply bindM_inv in E as ([] & fr8 & _ & E).
  apply bindM_inv in E as ([] & fr9 & _ & E).
  apply bindM_inv in E as (observations' & fr10 & _ & E).
  apply bindM_inv in E as ([] & fr11 & _ & E).
  cbn in E. injection E as <-.
  eexists _, _. split; [reflexivity|].
  intros k v Hk. cbn. now apply ambient_wins.
Qed.
End Returning.

Lemma dict_get_update_notin (d l : list (string * pyval)) (k : string) :
  k ∉ map fst l -> dict_get k (dict_update d l) = dict_get k d.
Proof.
  unfold dict_update. revert d.
  induction l as [|[k' v'] l IH]; intros d Hk; cbn -[String.eqb]; [reflexivity|].
  cbn [map fst] in Hk. apply not_elem_of_cons in Hk as [Hne Hk].
  rewrite IH by exact Hk. rewrite dict_get_set.
  destruct (String.eqb_spec k k'); congruence.
Qed.

Lemma set_all_pairs_notin (l : list (string * pyval)) (m : gmap string pyval)
    (k : string) :
  k ∉ map fst l -> set_all (dict_of_pairs l) m !! k = m !! k.
Proof.
  intros Hk. rewrite set_all_lookup by apply NoDup_dict_of_pairs.
  unfold dict_of_pairs. now rewrite dict_get_update_notin.
Qed.

Lemma llm_tools_keys get_json_schema (tools : list pyval) :
  forall (tool_index : nat) (l : list (string * pyval)),
    llm_tools_from get_json_schema tool_index tools = inr l ->
    Forall (fun kv => exists rest, kv.1 = "llm.tools." +:+ rest) l.
Proof.
  induction tools as [|tool tools IH]; intros tool_index l; cbn [llm_tools_from].
  - intros [= <-]. constructor.
  - intros H. apply bind_inv in H as (here & Hhere & H).
    apply bind_inv in H as (more & Hmore & H). injection H as <-.
    apply Forall_app. split; [|eapply IH; eassumption].
    destruct (isinstance_of tool "Tool").
    + apply bind_inv in Hhere as (schema & _ & Hhere).
      apply bind_inv in Hhere as (dumped & _ & Hhere). injection Hhere as <-.
      constructor; [|constructor]. eexists. reflexivity.
    + injection Hhere as <-. constructor.
Qed.

Lemma model_name_not_tool_key get_json_schema (tools_to_call_from : pyval)
    (l : list (string * pyval)) :
  _llm_tools get_json_schema tools_to_call_from = inr l ->
  LLM_MODEL_NAME ∉ map fst l.
Proof.
  intros H.
  assert (Hkeys : Forall (fun kv => exists rest, kv.1 = "llm.tools." +:+ rest) l).
  { destruct tools_to_call_from; try (injection H as <-; constructor).
    eapply llm_tools_keys; eassumption. }
  intros Hin. apply list_elem_of_fmap in Hin as ([k v] & Hk & Hin).
  rewrite Forall_forall in Hkeys. destruct (Hkeys _ Hin) as [rest Hrest].
  cbn [fst] in *. rewrite Hrest in Hk. discriminate Hk.
Qed.

Lemma model_name_not_message_key (output_message : pyval) :
  LLM_MODEL_NAME ∉ map fst (_llm_output_messages output_message).
Proof.
  unfold _llm_output_messages.
  destruct (negb _), (negb _); cbn [app map fst];
    rewrite ?not_elem_of_cons; repeat split;
    try discriminate; apply not_elem_of_nil.
Qed.

Lemma model_name_not_output_key (output : pyval) (l : list (string * pyval)) :
  _output_value_and_mime_type output = inr l -> LLM_MODEL_NAME ∉ map fst l.
Proof.
  unfold _output_value_and_mime_type. intros H.
  apply bind_inv in H as (m & _ & H). apply bind_inv in H as (dumped & _ & H).
  injection H as <-. cbn [map fst].
  rewrite !not_elem_of_cons. repeat split; try discriminate. apply not_elem_of_nil.
Qed.

Ltac step_through E :=
  let a := fresh "a" in
  let fr := fresh "fr" in
  let Hstep := fresh "Hstep" in
  apply bindM_inv in E as (a & fr & Hstep & E);
  unfold lift, the_instance, the_args, set_attribute, set_attributes,
         set_status, update_span, get_attributes_from_context in Hstep;
  injection Hstep as Hstep <-.

Lemma model_name_survives get_json_schema wrapped objects objects'
    kwargs world world' r :
  suppress_instrumentation world = false ->
  _ModelWrapper get_json_schema wrapped objects kwargs world
  = (inr r, objects', world') ->
  exists spans span model_id,
    finished_spans world' = (spans ++ [span])%list
    /\ getattr (obj_instance objects') "model_id" = inr model_id
    /\ span_attributes span !! LLM_MODEL_NAME = Some model_id.
Proof.
  intros Htraced. unfold _ModelWrapper. rewrite Htraced.
  destruct (_bind_arguments _ _ _) as [e0|arguments]; [discriminate|].
  destruct (model_inputs _ _ _) as [e0|attributes]; [discriminate|].
  rewrite start_as_current_span_eq. intros H.
  apply finished_inv in H as (H & Hobjects & ->).
  destruct (bindM _ _ _) as [res fr'] eqn:E. cbn [fst snd] in *. subst res.
  apply bindM_inv in E as (output_message & fr1 & _ & E).
  apply bindM_inv in E as ([] & fr2 & E & E').
  cbn in E'. injection E' as _ <-.
  unfold model_outputs in E.
  do 15 step_through E.
  unfold set_attributes, update_span in E. injection E as <-.
  cbn [fr_objects fr_span] in *. subst a objects'.
  eexists _, _, _. split; [reflexivity|]. split; [eassumption|].
  cbn [fr_span span_attributes].
  rewrite set_all_pairs_notin by (eapply model_name_not_output_key; eassumption).
  rewrite set_all_pairs_notin by (eapply model_name_not_tool_key; eassumption).
  rewrite set_all_pairs_notin by apply model_name_not_message_key.
  rewrite lookup_insert_ne by discriminate.
  rewrite lookup_insert_ne by discriminate.
  apply lookup_insert_eq.
Qed.

Lemma model_span_opens_with_ambient wrapped objects kwargs world span0 k v :
  model_span_at_call wrapped objects kwargs world = inr span0 ->
  ambient_value k world = Some v ->
  span_attributes span0 !! k = Some v.
Proof.
  unfold model_span_at_call, model_inputs, ambient_value. intros H Hk.
  apply bind_inv in H as (arguments & _ & H).
  apply bind_inv in H as (attributes & Hattributes & H).
  apply bind_inv in Hattributes as (input & _ & Hattributes).
  apply bind_inv in Hattributes as (parameters & _ & Hattributes).
  injection Hattributes as <-.
  unfold opened in H. cbn in H. injection H as <-. cbn [span_attributes].
  rewrite set_all_lookup.
  - rewrite dict_get_update by apply NoDup_dict_of_pairs. now rewrite Hk.
  - repeat apply NoDup_dict_update. apply NoDup_singleton.
Qed.


(** C7, as the code has it: in the run, step and tool wrappers, when the
    wrapper returns normally, the ambient attributes are merged last and
    every one of them is on the span that was ended.  The model wrapper
    merges them into the attributes the span is opened with, after the
    input attributes; what it sets after the call, such as the model name,
    replaces an ambient attribute under the same key. *)
Theorem ambient_attributes_last_except_in_model_wrapper
    (get_json_schema : pyval -> result pyval) (wrapped : Callable)
    (objects objects' : Objects) (kwargs : list (string * pyval))
    (world world' : World) (r : pyval) :
  suppress_instrumentation world = false ->
  (_RunWrapper wrapped objects kwargs world = (inr r, objects', world') ->
   exists spans span,
     finished_spans world' = (spans ++ [span])%list
     /\ forall k v, ambient_value k world' = Some v ->
                    span_attributes span !! k = Some v)
  /\ (_StepWrapper wrapped objects kwargs world = (inr r, objects', world') ->
      exists spans span,
        finished_spans world' = (spans ++ [span])%list
        /\ forall k v, ambient_value k world' = Some v ->
                       span_attributes span !! k = Some v)
  /\ (_ToolCallWrapper wrapped objects kwargs world = (inr r, objects', world') ->
      exists spans span,
        finished_spans world' = (spans ++ [span])%list
        /\ forall k v, ambient_value k world' = Some v ->
                       span_attributes span !! k = Some v)
  /\ (forall span0 k v,
        model_span_at_call wrapped objects kwargs world = inr span0 ->
        ambient_value k world = Some v ->
        span_attributes span0 !! k = Some v)
  /\ (_ModelWrapper get_json_schema wrapped objects kwargs world
      = (inr r, objects', world') ->
      exists spans span model_id,
        finished_spans world' = (spans ++ [span])%list
        /\ getattr (obj_instance objects') "model_id" = inr model_id
        /\ span_attributes span !! LLM_MODEL_NAME = Some model_id).
Proof.
  intros Htraced. repeat split.
  - now apply run_merges_ambient_last.
  - now apply step_merges_ambient_last.
  - now apply tool_merges_ambient_last.
  - intros span0 k v. apply model_span_opens_with_ambient.
  - now apply model_name_survives.
Qed.

Lemma ambient_attributes_last_except_in_model_wrapper_witness :
  (exists spans span,
     finished_spans run_outcome.2 = (spans ++ [span])%list
     /\ forall k v, ambient_value k run_outcome.2 = Some v ->
                    span_attributes span !! k = Some v)
  /\ (exists spans span model_id,
        finished_spans model_outcome.2 = (spans ++ [span])%list
        /\ getattr (obj_instance model_objects) "model_id" = inr model_id
        /\ span_attributes span !! LLM_MODEL_NAME = Some model_id).
Proof.
  split.
  - destruct (ambient_attributes_last_except_in_model_wrapper
                (fun _ => Ok VNone) (constant_callable (Ok (VStr "4")))
                sample_objects sample_objects [] traced_world run_outcome.2
                (VStr "4") eq_refl) as (Hrun & _).
    apply Hrun. vm_compute. reflexivity.
  - destruct (ambient_attributes_last_except_in_model_wrapper
                (fun _ => Ok (VDict [])) model_call model_objects model_objects
                hello traced_world model_outcome.2 sample_message eq_refl)
      as (_ & _ & _ & _ & Hmodel).
    apply Hmodel. vm_compute. reflexivity.
Defined.

(** C7 as stated fails in the model wrapper: the ambient context gives a
    model name, and the span that is ended carries the name read from the
    model after the call.  The merge is not the last step there: a model
    call that raises still leaves a span with the ambient attributes,
    which the span of a tool call that raises does not have. *)
Lemma model_wrapper_overwrites_ambient_attribute :
  collision_outcome.1.1 = Ok sample_message
  /\ ambient_value LLM_MODEL_NAME collision_world = Some (VStr "from-context")
  /\ map (fun span => span_attributes span !! LLM_MODEL_NAME)
         (finished_spans collision_outcome.2)
     = [Some (VStr "qwen")]
  /\ ambient_value "session.id" traced_world = Some (VStr "s1")
  /\ map (fun span => span_attributes span !! "session.id")
         (finished_spans model_failure_outcome.2)
     = [Some (VStr "s1")]
  /\ map (fun span => span_attributes span !! "session.id")
         (finished_spans tool_failure_outcome.2)
     = [None].
Proof. vm_compute. repeat split. Qed.

(** ** The wrapped call returns *)

Lemma bindM_lift {A B} (r : result A) (k : A -> M B) (fr : Frame) :
  bindM (lift r) k fr = match r with inl e => (inl e, fr) | inr a => k a fr end.
Proof. now destruct r. Qed.

Lemma bindM_update_span {B} (f : Span -> Span) (k : unit -> M B) (fr : Frame) :
  bindM (update_span f) k fr
  = k tt (MkFrame (f (fr_span fr)) (fr_objects fr) (fr_world fr)).
Proof. reflexivity. Qed.

Lemma bindM_the_instance {B} (k : pyval -> M B) (fr : Frame) :
  bindM the_instance k fr = k (obj_instance (fr_objects fr)) fr.
Proof. reflexivity. Qed.

Lemma bindM_the_args {B} (k : list pyval -> M B) (fr : Frame) :
  bindM the_args k fr = k (obj_args (fr_objects fr)) fr.
Proof. reflexivity. Qed.

Lemma bindM_context {B} (k : list (string * pyval) -> M B) (fr : Frame) :
  bindM get_attributes_from_context k fr = k (context_attributes (fr_world fr)) fr.
Proof. reflexivity. Qed.

Lemma bindM_ret {A B} (a : A) (k : A -> M B) (fr : Frame) :
  bindM (ret a) k fr = k a fr.
Proof. reflexivity. Qed.

Lemma bindM_call {B} wrapped kwargs (k : pyval -> M B) span objects world r
    objects' world' :
  fn_call wrapped objects kwargs world = (inr r, objects', world') ->
  bindM (call_wrapped wrapped kwargs) k (MkFrame span objects world)
  = k r (MkFrame span objects' world').
Proof.
  intros H. unfold bindM, call_wrapped. cbn [fr_objects fr_world fr_span].
  now rewrite H.
Qed.

Lemma try_except_returns {A} (body : M A) (handler : exc -> M A) fr a fr' :
  body fr = (inr a, fr') -> try_except body handler fr = (inr a, fr').
Proof. intros H. unfold try_except. now rewrite H. Qed.

Lemma call_returns wrapped kwargs span objects world r objects' world' :
  fn_call wrapped objects kwargs world = (inr r, objects', world') ->
  call_wrapped wrapped kwargs (MkFrame span objects world)
  = (inr r, MkFrame span objects' world').
Proof.
  intros H. unfold call_wrapped. cbn [fr_objects fr_world fr_span].
  now rewrite H.
Qed.

Lemma bindM_assoc {A B C} (m : M A) (f : A -> M B) (g : B -> M C) (fr : Frame) :
  bindM (bindM m f) g fr = bindM m (fun a => bindM (f a) g) fr.
Proof. unfold bindM. now destruct (m fr) as [[e|a] fr1]. Qed.

Ltac frame_fields :=
  cbn [fr_span fr_objects fr_world span_name span_attributes span_status
       span_exceptions Ok ret].

Ltac forward :=
  unfold set_attribute, set_attributes, set_status;
  frame_fields;
  repeat (first [ rewrite bindM_assoc
                | rewrite bindM_the_instance | rewrite bindM_the_args
                | rewrite bindM_context | rewrite bindM_ret
                | rewrite bindM_update_span
                | rewrite bindM_lift ];
          frame_fields).


Lemma opened_ret name attributes objects world span0 :
  opened name attributes (ret tt) objects world = inr span0 ->
  span0 = MkSpan name (set_all attributes ∅) (MkStatus UNSET None) [].
Proof. unfold opened, ret. now intros [= <-]. Qed.

Lemma step_returns wrapped objects objects' kwargs world world' span0
    result step_log rest error observations :
  suppress_instrumentation world = false ->
  step_span_at_call objects world = inr span0 ->
  fn_call wrapped objects kwargs world = (inr result, objects', world') ->
  obj_args objects' = step_log :: rest ->
  getattr step_log "error" = inr error ->
  getattr step_log "observations" = inr observations ->
  _StepWrapper wrapped objects kwargs world
  = (inr result, objects',
     export
       (MkSpan (span_name span0)
          (set_all (dict_of_pairs (context_attributes world'))
             (<[OUTPUT_VALUE := observations]>
                (<["Observations" := observations]>
                   ((if negb (is_None error)
                     then <["Error" := VStr (str error)]> else id)
                      ((if negb (is_None result)
                        then <["Final answer" := result]> else id)
                         (span_attributes span0))))))
          (MkStatus OK None) (span_exceptions span0))
       world').
Proof.
  intros Htraced Hopen Hcall Hargs Herror Hobs.
  unfold _StepWrapper, step_span_at_call in *. rewrite Htraced.
  destruct (getattr _ "step_number") as [e0|step_number]; [discriminate|].
  cbn [bind] in Hopen. apply opened_ret in Hopen as ->.
  rewrite start_as_current_span_eq.
  unfold step_call, step_outputs.
  destruct (is_None result) eqn:Hresult; cbn [negb].
  - erewrite (bindM_inr (try_except _ _)); cycle 1.
    { apply try_except_returns. erewrite bindM_call by exact Hcall.
      rewrite Hresult. cbn [negb].
      forward. rewrite Hargs. cbn [first_arg]. forward. reflexivity. }
    forward. rewrite Hargs. cbn [first_arg]. forward.
    rewrite Herror, Hobs. frame_fields.
    destruct (is_None error); cbn [negb]; forward; reflexivity.
  - erewrite (bindM_inr (try_except _ _)); cycle 1.
    { apply try_except_returns. erewrite bindM_call by exact Hcall.
      rewrite Hresult. cbn [negb].
      forward. rewrite Hargs. cbn [first_arg]. forward. reflexivity. }
    forward. rewrite Hargs. cbn [first_arg]. forward.
    rewrite Herror, Hobs. frame_fields.
    destruct (is_None error); cbn [negb]; forward; reflexivity.
Qed.


Lemma run_returns wrapped objects objects' kwargs world world' span0
    agent_output monitor prompt completion total :
  suppress_instrumentation world = false ->
  run_span_at_call wrapped objects kwargs world = inr span0 ->
  fn_call wrapped objects kwargs world = (inr agent_output, objects', world') ->
  getattr (obj_instance objects') "monitor" = inr monitor ->
  getattr monitor "total_input_token_count" = inr prompt ->
  getattr monitor "total_output_token_count" = inr completion ->
  py_add prompt completion = inr total ->
  _RunWrapper wrapped objects kwargs world
  = (inr agent_output, objects',
     export
       (MkSpan (span_name span0)
          (set_all (dict_of_pairs (context_attributes world'))
             (<[OUTPUT_VALUE := VStr (str agent_output)]>
                (<[LLM_TOKEN_COUNT_TOTAL := total]>
                   (<[LLM_TOKEN_COUNT_COMPLETION := completion]>
                      (<[LLM_TOKEN_COUNT_PROMPT := prompt]>
                         (span_attributes span0))))))
          (MkStatus OK None) (span_exceptions span0))
       world').
Proof.
  intros Htraced Hopen Hcall Hmonitor Hprompt Hcompletion Htotal.
  unfold _RunWrapper, run_span_at_call in *. rewrite Htraced.
  destruct (_get_input_value _ _ _) as [e0|input_value]; [discriminate|].
  cbn [bind] in *.
  destruct (_flatten _) as [e0|attributes]; [discriminate|]. cbn [bind] in *.
  apply opened_inv in Hopen; [|apply quiet_run_inputs].
  rewrite start_as_current_span_eq, (bindM_inr _ _ _ _ _ Hopen).
  unfold run_call.
  erewrite (bindM_inr (try_except _ _)); cycle 1.
  { apply try_except_returns. erewrite bindM_call by exact Hcall.
    forward. rewrite Hmonitor. cbn [bind]. rewrite Hprompt, Hcompletion.
    cbn [bind]. rewrite Htotal. forward. reflexivity. }
  forward. reflexivity.
Qed.





(** ** The step log *)



Example step_error_example :
  step_outcome.1.1 = Ok VNone
  /\ map span_status (finished_spans step_outcome.2) = [MkStatus OK None]
  /\ map (fun span => span_attributes span !! "Error")
         (finished_spans step_outcome.2)
     = [Some (VStr "division by zero")]
  /\ map (fun span => span_attributes span !! OUTPUT_VALUE)
         (finished_spans step_outcome.2)
     = [Some (VStr "seen")].
Proof. vm_compute. repeat split. Qed.


(** ** The input value of the run span *)







Lemma flatten_kind_and_input (kind input_value : string) :
  _flatten (VDict [(OPENINFERENCE_SPAN_KIND, VStr kind);
                   (INPUT_VALUE, VStr input_value)])
  = Ok [(OPENINFERENCE_SPAN_KIND, VStr kind); (INPUT_VALUE, VStr input_value)].
Proof. reflexivity. Qed.

Lemma status_output_merge_return (key : string) (value r : pyval) (fr : Frame) :
  (set_status (MkStatus OK None) >>
   set_attribute key value >>
   let* from_context := get_attributes_from_context in
   set_attributes (dict_of_pairs from_context) >> ret r) fr
  = (inr r,
     MkFrame (MkSpan (span_name (fr_span fr))
                     (set_all (dict_of_pairs (context_attributes (fr_world fr)))
                              (<[key := value]> (span_attributes (fr_span fr))))
                     (MkStatus OK None) (span_exceptions (fr_span fr)))
             (fr_objects fr) (fr_world fr)).
Proof. reflexivity. Qed.

Lemma run_inputs_eq kwargs fr task :
  getattr (obj_instance (fr_objects fr)) "task" = inr task ->
  run_inputs kwargs fr
  = run_describe (obj_instance (fr_objects fr)) task kwargs
      (MkFrame (MkSpan (span_name (fr_span fr))
                       (<[INPUT_VALUE := task]> (span_attributes (fr_span fr)))
                       (span_status (fr_span fr)) (span_exceptions (fr_span fr)))
               (fr_objects fr) (fr_world fr)).
Proof.
  intros Htask.
  unfold run_inputs, bindM, the_instance, lift, set_attribute, update_span.
  cbn [Ok fr_span fr_objects fr_world]. now rewrite Htask.
Qed.




(** * Further properties *)

(** ** The flattener, entry by entry *)

Lemma flatten_entry_leaf (key : string) (value : pyval) :
  is_leaf value = true -> flatten_entry key value = Ok [(key, value)].
Proof.
  destruct value; try discriminate; try reflexivity.
  cbn [is_leaf flatten_entry]. intros H.
  apply negb_true_iff in H. now rewrite H.
Qed.

(** X1: a mapping none of whose values is [None], a mapping, a member of
    an [Enum] or a list that holds a mapping is flattened to its own
    entries, in their order. *)
Theorem flatten_flat_mapping_unchanged (kvs : list (string * pyval)) :
  forallb (fun kv => is_leaf kv.2) kvs = true ->
  _flatten (VDict kvs) = Ok kvs.
Proof.
  induction kvs as [|[k v] kvs IH]; [reflexivity|].
  cbn [forallb snd]. intros H. apply andb_true_iff in H as [Hv Hkvs].
  rewrite flatten_cons, (flatten_entry_leaf _ _ Hv), (IH Hkvs). reflexivity.
Qed.

Lemma flatten_flat_mapping_unchanged_witness :
  _flatten (VDict [("a", VInt 1); ("b", VList [VInt 2; VStr "x"]);
                   ("c", VTuple [VDict []])])
  = Ok [("a", VInt 1); ("b", VList [VInt 2; VStr "x"]);
        ("c", VTuple [VDict []])].
Proof.
  apply (flatten_flat_mapping_unchanged
           [("a", VInt 1); ("b", VList [VInt 2; VStr "x"]);
            ("c", VTuple [VDict []])]).
  reflexivity.
Defined.

(** X2: an entry whose value is a member of an [Enum] is yielded under
    its own key with the underlying [value] of the member, at the place of
    the entry, whatever that value is: it is not flattened in turn and not
    dropped when it is [None]. *)
Theorem flatten_unwraps_enum (before after : list (string * pyval))
    (key cls member : string) (value : pyval) :
  _flatten (VDict (before ++ (key, VEnum cls member value) :: after))
  = (a <- _flatten (VDict before) ;;
     b <- _flatten (VDict after) ;;
     Ok (a ++ (key, value) :: b)%list).
Proof.
  rewrite flatten_app, flatten_cons. cbn [flatten_entry].
  destruct (_flatten (VDict before)) as [e|a]; [reflexivity|]. cbn [bind Ok].
  destruct (_flatten (VDict after)) as [e|b]; reflexivity.
Qed.

Lemma flatten_elems_mapM (key : string) (xs : list pyval) (index : nat) :
  flatten_elems key index xs
  = (subs <- mapM _flatten xs ;;
     Ok (concat (imap (fun i sub =>
                         prefix_keys (key +:+ "." +:+ pretty (index + i)%nat) sub)
                      subs))).
Proof.
  revert index. induction xs as [|x xs IH]; intros index; [reflexivity|].
  cbn [flatten_elems mapM]. rewrite IH.
  destruct (_flatten x) as [e|here]; [reflexivity|]. cbn [bind Ok].
  destruct (mapM _flatten xs) as [e|subs]; [reflexivity|]. cbn [bind Ok].
  rewrite imap_cons. cbn [concat]. rewrite Nat.add_0_r. do 3 f_equal.
  apply imap_ext. intros i s _. cbn. now rewrite Nat.add_succ_r.
Qed.

(** X3: under a key whose value is a list that holds at least one
    mapping, every element of the list is flattened, in order, the first
    exception stopping everything; what the element at position [i]
    yields goes under [key.i.], so an element that yields nothing still
    counts for the positions after it. *)
Theorem flatten_list_with_mapping (key : string) (xs : list pyval) :
  existsb is_Mapping xs = true ->
  _flatten (VDict [(key, VList xs)])
  = (subs <- mapM _flatten xs ;;
     Ok (concat (imap (fun i sub =>
                         prefix_keys (key +:+ "." +:+ pretty i) sub)
                      subs))).
Proof.
  intros H. rewrite (flatten_list_of_mappings _ _ H), flatten_elems_mapM.
  reflexivity.
Qed.

Lemma flatten_list_with_mapping_witness :
  _flatten (VDict [("l", VList [VDict [("p", VInt 1)]; VNone;
                                VDict [("q", VInt 2)]])])
  = Ok [("l.0.p", VInt 1); ("l.2.q", VInt 2)].
Proof.
  exact (flatten_list_with_mapping
           "l" [VDict [("p", VInt 1)]; VNone; VDict [("q", VInt 2)]] eq_refl).
Defined.





Lemma append_assoc (a b c : string) : (a +:+ b) +:+ c = a +:+ (b +:+ c).
Proof.
  induction a as [|ch a IH]; [reflexivity|].
  change (String ch ((a +:+ b) +:+ c) = String ch (a +:+ (b +:+ c))).
  now f_equal.
Qed.

Lemma prefix_keys_start (p : string) (sub : list (string * pyval)) :
  Forall (fun kv => starts_with (p +:+ ".") kv.1) (prefix_keys p sub).
Proof.
  unfold prefix_keys. apply Forall_fmap, Forall_true. intros [k v]. cbn.
  exists k. now rewrite append_assoc.
Qed.

Lemma flatten_elems_start (key : string) (xs : list pyval) :
  forall (index : nat) (out : list (string * pyval)),
    flatten_elems key index xs = inr out ->
    Forall (fun kv => starts_with (key +:+ ".") kv.1) out.
Proof.
  induction xs as [|x xs IH]; intros index out; cbn [flatten_elems].
  - intros [= <-]. constructor.
  - intros H. apply bind_inv in H as (here & _ & H).
    apply bind_inv in H as (more & Hmore & H). injection H as <-.
    apply Forall_app. split; [|eapply IH; eassumption].
    eapply Forall_impl; [apply prefix_keys_start|].
    intros [k v] [rest Hrest]. cbn in *. exists (pretty index +:+ "." +:+ rest).
    rewrite Hrest. now rewrite !append_assoc.
Qed.

Lemma flatten_entry_start (key : string) (value : pyval)
    (out : list (string * pyval)) :
  flatten_entry key value = inr out ->
  Forall (fun kv => kv.1 = key \/ starts_with (key +:+ ".") kv.1) out.
Proof.
  destruct value; cbn [flatten_entry];
    try (intros [= <-]; repeat constructor; fail).
  - destruct (existsb is_Mapping xs).
    + intros H. eapply Forall_impl; [eapply flatten_elems_start; eassumption|].
      cbn. auto.
    + intros [= <-]. repeat constructor.
  - intros H. apply bind_inv in H as (sub & _ & H). injection H as <-.
    eapply Forall_impl; [apply prefix_keys_start|]. cbn. auto.
Qed.

(** X5: every key of a flattened mapping is a key of the mapping itself
    or starts with one of its keys followed by a dot: flattening invents
    no top-level name. *)
Theorem flatten_keys_under_top_level_keys (kvs out : list (string * pyval)) :
  _flatten (VDict kvs) = inr out ->
  forall k v, (k, v) ∈ out ->
    exists key, key ∈ map fst kvs /\ (k = key \/ starts_with (key +:+ ".") k).
Proof.
  revert out. induction kvs as [|[key value] kvs IH]; intros out.
  - rewrite flatten_empty. intros [= <-] k v Hin. now apply elem_of_nil in Hin.
  - rewrite flatten_cons. intros H.
    apply bind_inv in H as (here & Hhere & H).
    apply bind_inv in H as (more & Hmore & H). injection H as <-.
    intros k v Hin. apply elem_of_app in Hin as [Hin|Hin].
    + exists key. split; [cbn; left|].
      apply flatten_entry_start in Hhere. rewrite Forall_forall in Hhere.
      exact (Hhere _ Hin).
    + destruct (IH _ Hmore _ _ Hin) as (key' & Hkey' & Hk).
      exists key'. split; [cbn; now right | exact Hk].
Qed.

Lemma flatten_keys_under_top_level_keys_witness :
  exists key,
    key ∈ map fst [("a", VInt 1); ("m", VDict [("x", VInt 2)])]
    /\ ("m.x" = key \/ starts_with (key +:+ ".") "m.x").
Proof.
  apply (flatten_keys_under_top_level_keys
           [("a", VInt 1); ("m", VDict [("x", VInt 2)])]
           [("a", VInt 1); ("m.x", VInt 2)] eq_refl "m.x" (VInt 2)).
  apply list_elem_of_further, list_elem_of_here.
Defined.

(** ** The binder: the receiver, the catch-all and the defaults *)

Lemma bind_positional_too_many (ps : list parameter) :
  forall (args : list pyval) (kwargs arguments : list (string * pyval)),
    forallb positional ps = true ->
    forallb (fun p => negb (dict_has (p_name p) kwargs)) ps = true ->
    (length ps < length args)%nat ->
    bind_positional ps args kwargs arguments
    = Err (TypeError "too many positional arguments").
Proof.
  induction ps as [|p ps IH]; intros args kwargs arguments Hkind Hfree Hlen.
  - destruct args; [cbn in Hlen; lia | reflexivity].
  - cbn [forallb] in *. apply andb_true_iff in Hkind as [Hp Hkind].
    apply andb_true_iff in Hfree as [Hfp Hfree].
    destruct args as [|arg args]; [cbn in Hlen; lia|].
    cbn [bind_positional]. unfold positional in Hp.
    destruct (p_kind p); try discriminate. cbn [kind_eqb orb andb].
    apply negb_true_iff in Hfp. rewrite Hfp. cbn [andb].
    apply IH; [assumption | assumption | cbn in Hlen; lia].
Qed.

Lemma Signature_bind_too_many (ps : list parameter)
    (args : list pyval) (kwargs : list (string * pyval)) :
  forallb positional ps = true ->
  forallb (fun p => negb (dict_has (p_name p) kwargs)) ps = true ->
  (length ps < length args)%nat ->
  Signature_bind ps args kwargs = Err (TypeError "too many positional arguments").
Proof.
  intros Hkind Hfree Hlen. unfold Signature_bind.
  now rewrite bind_positional_too_many.
Qed.

Lemma no_self_parameter (ps : list parameter) :
  forallb (not_named "self") ps = true ->
  match head (map p_name ps) with
  | Some name => contains ["self"] name
  | None => false
  end = false.
Proof.
  destruct ps as [|p ps]; [reflexivity|]. cbn [forallb map head].
  intros H. apply andb_true_iff in H as [H _]. unfold not_named in H.
  apply negb_true_iff, String.eqb_neq in H.
  unfold contains. apply bool_decide_eq_false.
  intros Hin. apply list_elem_of_singleton in Hin. congruence.
Qed.

Lemma get_input_value_bind_error (ps : list parameter) (args : list pyval)
    (kwargs : list (string * pyval)) (e : exc) :
  forallb (not_named "self") ps = true ->
  Signature_bind ps args kwargs = inl e ->
  _get_input_value ps args kwargs = inl e.
Proof.
  intros Hself Hbind. unfold _get_input_value.
  rewrite (no_self_parameter _ Hself). cbn [app]. now rewrite Hbind.
Qed.

(** X6: the run, the tool and the model wrapper bind the arguments to the
    signature of the wrapped function before they open their span.  When
    the function has plain parameters only and gets more positional
    arguments than it has parameters, each of them raises the [TypeError]
    of the binding: the wrapped function is not called, no span is opened,
    objects and world stay as they were. *)
Theorem too_many_positional_arguments_stop_the_call
    (get_json_schema : pyval -> result pyval) (wrapped : Callable)
    (objects : Objects) (kwargs : list (string * pyval)) (world : World) :
  suppress_instrumentation world = false ->
  forallb positional (fn_signature wrapped) = true ->
  forallb (not_named "self") (fn_signature wrapped) = true ->
  forallb (fun p => negb (dict_has (p_name p) kwargs)) (fn_signature wrapped)
  = true ->
  (length (fn_signature wrapped) < length (obj_args objects))%nat ->
  let raised := Err (TypeError "too many positional arguments") in
  _RunWrapper wrapped objects kwargs world = (raised, objects, world)
  /\ _ToolCallWrapper wrapped objects kwargs world = (raised, objects, world)
  /\ _ModelWrapper get_json_schema wrapped objects kwargs world
     = (raised, objects, world).
Proof.
  intros Htraced Hkind Hself Hfree Hlen raised.
  pose proof (Signature_bind_too_many _ _ _ Hkind Hfree Hlen) as Hbind.
  pose proof (get_input_value_bind_error _ _ _ _ Hself Hbind) as Hinput.
  unfold _RunWrapper, _ToolCallWrapper, _ModelWrapper, _bind_arguments.
  rewrite Htraced, Hinput, Hbind. repeat split.
Qed.

Lemma too_many_positional_arguments_stop_the_call_witness :
  _RunWrapper (constant_callable (Ok (VStr "4")))
              (MkObjects sample_agent [VInt 1; VInt 2; VInt 3]) [] traced_world
  = (Err (TypeError "too many positional arguments"),
     MkObjects sample_agent [VInt 1; VInt 2; VInt 3], traced_world)
  /\ _ToolCallWrapper (constant_callable (Ok (VStr "4")))
                      (MkObjects sample_agent [VInt 1; VInt 2; VInt 3]) []
                      traced_world
     = (Err (TypeError "too many positional arguments"),
        MkObjects sample_agent [VInt 1; VInt 2; VInt 3], traced_world)
  /\ _ModelWrapper (fun _ => Ok VNone) (constant_callable (Ok (VStr "4")))
                   (MkObjects sample_agent [VInt 1; VInt 2; VInt 3]) []
                   traced_world
     = (Err (TypeError "too many positional arguments"),
        MkObjects sample_agent [VInt 1; VInt 2; VInt 3], traced_world).
Proof.
  apply (too_many_positional_arguments_stop_the_call
           (fun _ => Ok VNone) (constant_callable (Ok (VStr "4")))
           (MkObjects sample_agent [VInt 1; VInt 2; VInt 3]) [] traced_world);
    try reflexivity.
  vm_compute. lia.
Defined.

Lemma dict_set_under {A : Type} (k s : string) (v v0 : A)
    (d : list (string * A)) :
  k <> s -> dict_set k v ((s, v0) :: d) = (s, v0) :: dict_set k v d.
Proof.
  intros Hne. cbn -[String.eqb].
  now destruct (String.eqb_spec k s).
Qed.

Lemma not_named_ne (s : string) (p : parameter) :
  not_named s p = true -> p_name p <> s.
Proof. unfold not_named. intros H. now apply negb_true_iff, String.eqb_neq in H. Qed.

Lemma bind_positional_under (s : string) (v0 : pyval) (ps : list parameter) :
  forall (args : list pyval) (kwargs arguments : list (string * pyval)),
    forallb (not_named s) ps = true ->
    bind_positional ps args kwargs ((s, v0) :: arguments)
    = match bind_positional ps args kwargs arguments with
      | inl e => inl e
      | inr (bound, rest) => inr ((s, v0) :: bound, rest)
      end.
Proof.
  intros args. revert ps.
  induction args as [|arg args IH]; intros ps kwargs arguments Hps.
  - destruct ps as [|p ps]; [reflexivity|]. cbn [bind_positional].
    repeat match goal with |- context [if ?c then _ else _] => destruct c end;
      reflexivity.
  - destruct ps as [|p ps]; [reflexivity|]. cbn [bind_positional].
    cbn [forallb] in Hps. apply andb_true_iff in Hps as [Hp Hps].
    apply not_named_ne in Hp.
    destruct (_ || _); [reflexivity|].
    destruct (kind_eqb (p_kind p) VAR_POSITIONAL).
    { now rewrite dict_set_under. }
    destruct (_ && _); [reflexivity|].
    rewrite dict_set_under by exact Hp. now apply IH.
Qed.

Lemma bind_positional_rest (P : parameter -> bool) (ps : list parameter) :
  forall (args : list pyval) (kwargs arguments bound : list (string * pyval))
         (rest : list parameter),
    bind_positional ps args kwargs arguments = inr (bound, rest) ->
    forallb P ps = true -> forallb P rest = true.
Proof.
  intros args. revert ps.
  induction args as [|arg args IH]; intros ps kwargs arguments bound rest.
  - destruct ps as [|p ps]; cbn [bind_positional].
    + now intros [= _ <-].
    + cbn [forallb]. intros H Hps.
      pose proof Hps as Hps'. apply andb_true_iff in Hps' as [_ Htl].
      repeat match type of H with
             | context [if ?c then _ else _] => destruct c
             end; try discriminate; injection H as _ <-; assumption.
  - destruct ps as [|p ps]; cbn [bind_positional]; [discriminate|].
    cbn [forallb]. intros H Hps. apply andb_true_iff in Hps as [_ Htl].
    destruct (_ || _); [discriminate|].
    destruct (kind_eqb (p_kind p) VAR_POSITIONAL).
    { injection H as _ <-. assumption. }
    destruct (_ && _); [discriminate|].
    eapply IH; eassumption.
Qed.

Lemma bind_keywords_under (s : string) (v0 : pyval) (ps : list parameter) :
  forall (kwargs arguments : list (string * pyval)) (kwargs_param : option parameter),
    forallb (not_named s) ps = true ->
    match kwargs_param with Some p => not_named s p | None => true end = true ->
    bind_keywords ps kwargs ((s, v0) :: arguments) kwargs_param
    = under (s, v0) (bind_keywords ps kwargs arguments kwargs_param).
Proof.
  induction ps as [|p ps IH]; intros kwargs arguments kwargs_param Hps Hkp.
  - cbn [bind_keywords]. destruct kwargs as [|[k v] kwargs]; [reflexivity|].
    destruct kwargs_param as [p|]; [|reflexivity].
    apply not_named_ne in Hkp. cbn [under]. now rewrite dict_set_under.
  - cbn [forallb] in Hps. apply andb_true_iff in Hps as [Hp Hps].
    cbn [bind_keywords].
    destruct (kind_eqb (p_kind p) VAR_KEYWORD); [now apply IH|].
    destruct (kind_eqb (p_kind p) VAR_POSITIONAL); [now apply IH|].
    destruct (dict_get (p_name p) kwargs).
    + destruct (kind_eqb (p_kind p) POSITIONAL_ONLY); [reflexivity|].
      rewrite dict_set_under by now apply not_named_ne. now apply IH.
    + destruct (bool_decide _); [now apply IH | reflexivity].
Qed.

Lemma Signature_bind_self (d : option pyval) (ps : list parameter)
    (args : list pyval) (kwargs : list (string * pyval)) :
  forallb (not_named "self") ps = true ->
  dict_has "self" kwargs = false ->
  Signature_bind (Param "self" POSITIONAL_OR_KEYWORD d :: ps) (VNone :: args) kwargs
  = under ("self", VNone) (Signature_bind ps args kwargs).
Proof.
  intros Hps Hkw. unfold Signature_bind. cbn [bind_positional p_kind p_name kind_eqb orb].
  rewrite Hkw. cbn [andb dict_set].
  rewrite bind_positional_under by exact Hps.
  destruct (bind_positional ps args kwargs []) as [e|[bound rest]] eqn:E;
    [reflexivity|].
  cbn [bind fst snd]. apply bind_keywords_under; [|reflexivity].
  eapply bind_positional_rest; eassumption.
Qed.

(** X7: a signature that starts with the receiver [self], as that of
    [__call__] does, gives the same input value as the signature without
    it: the placeholder bound to [self] is left out of the encoded
    arguments, and an exception of the binding is the same. *)
Theorem input_value_drops_self (d : option pyval) (ps : list parameter)
    (args : list pyval) (kwargs : list (string * pyval)) :
  forallb (not_named "self") ps = true ->
  dict_has "self" kwargs = false ->
  _get_input_value (Param "self" POSITIONAL_OR_KEYWORD d :: ps) args kwargs
  = _get_input_value ps args kwargs.
Proof.
  intros Hps Hkw. unfold _get_input_value.
  rewrite (no_self_parameter _ Hps). cbn [map head p_name].
  replace (contains ["self"] "self") with true by reflexivity.
  cbn [app]. rewrite Signature_bind_self by assumption.
  destruct (Signature_bind ps args kwargs) as [e|bound]; reflexivity.
Qed.

Lemma input_value_drops_self_witness :
  _get_input_value (Param "self" POSITIONAL_OR_KEYWORD None :: signature_a_b)
                   [VInt 1] [("b", VInt 2)]
  = _get_input_value signature_a_b [VInt 1] [("b", VInt 2)].
Proof.
  apply (input_value_drops_self None signature_a_b [VInt 1] [("b", VInt 2)]);
    reflexivity.
Defined.

(** X8: for a function [f(a, **kwargs)] called as [f(x, **extra)], the
    input value is the encoding of [{a: x, **extra}]: the additional
    keyword arguments are merged into the top level.  That holds for the
    parameter name [kwargs] only: when the catch-all parameter has another
    name [n], the additional keyword arguments stay nested under [n]. *)
Theorem input_value_merges_only_kwargs (a n : string) (x : pyval)
    (da : option pyval) (extra : list (string * pyval)) :
  a ∉ ["self"; "kwargs"] -> n ∉ ["self"; "kwargs"] -> a <> n ->
  dict_has a extra = false ->
  _get_input_value
    [Param a POSITIONAL_OR_KEYWORD da; Param "kwargs" VAR_KEYWORD None] [x] extra
  = safe_json_dumps (Some SafeJSONEncoder_default)
                    (VDict (dict_update [(a, x)] extra))
  /\ (extra <> [] ->
      _get_input_value
        [Param a POSITIONAL_OR_KEYWORD da; Param n VAR_KEYWORD None] [x] extra
      = safe_json_dumps (Some SafeJSONEncoder_default)
                        (VDict [(a, x); (n, VDict extra)])).
Proof.
  intros Ha Hn Han Hextra.
  assert (Hself : contains ["self"] a = false).
  { apply contains_false. intros Hin. apply Ha.
    apply elem_of_cons. left. now apply list_elem_of_singleton in Hin. }
  assert (Hka : String.eqb "kwargs" a = false).
  { apply eqb_ne. intros <-. apply Ha. apply elem_of_cons. right.
    now apply list_elem_of_singleton. }
  assert (Hkn : String.eqb "kwargs" n = false).
  { apply eqb_ne. intros <-. apply Hn. apply elem_of_cons. right.
    now apply list_elem_of_singleton. }
  assert (Hna : String.eqb n a = false) by (apply eqb_ne; congruence).
  pose proof (contains_false _ _ Ha) as Hca.
  pose proof (contains_false _ _ Hn) as Hcn.
  assert (Hkk : contains ["self"; "kwargs"] "kwargs" = true) by reflexivity.
  assert (Haa : String.eqb a a = true) by apply String.eqb_refl.
  assert (Hnn : String.eqb n n = true) by apply String.eqb_refl.
  split.
  - unfold _get_input_value. cbn [map head p_name]. rewrite Hself.
    unfold Signature_bind. cbn [app bind_positional p_kind p_name kind_eqb orb].
    rewrite Hextra. cbn [andb bind_positional dict_set bind fst snd
                         p_kind p_name kind_eqb orb].
    destruct (dict_has "kwargs" extra);
      cbn [bind Ok fst snd bind_keywords p_kind p_name kind_eqb];
      (destruct extra as [|[k v] extra];
       repeat (progress (cbn -[String.eqb contains safe_json_dumps dict_update
                               dict_of_pairs];
                         rewrite ?Hka, ?Hca, ?Hkk, ?Haa, ?String.eqb_refl));
       reflexivity).
  - intros Hne. unfold _get_input_value. cbn [map head p_name]. rewrite Hself.
    unfold Signature_bind. cbn [app bind_positional p_kind p_name kind_eqb orb].
    rewrite Hextra. cbn [andb bind_positional dict_set bind fst snd
                         p_kind p_name kind_eqb orb].
    destruct (dict_has n extra);
      cbn [bind Ok fst snd bind_keywords p_kind p_name kind_eqb];
      (destruct extra as [|[k v] extra]; [congruence|];
       repeat (progress (cbn -[String.eqb contains safe_json_dumps];
                         rewrite ?Hna, ?Hka, ?Hkn, ?Hca, ?Hcn, ?Haa, ?Hnn));
       reflexivity).
Qed.

Lemma input_value_merges_only_kwargs_witness :
  _get_input_value
    [Param "query" POSITIONAL_OR_KEYWORD None; Param "kwargs" VAR_KEYWORD None]
    [VStr "q"] [("limit", VInt 3)]
  = safe_json_dumps (Some SafeJSONEncoder_default)
                    (VDict [("query", VStr "q"); ("limit", VInt 3)])
  /\ _get_input_value
       [Param "query" POSITIONAL_OR_KEYWORD None;
        Param "options" VAR_KEYWORD None]
       [VStr "q"] [("limit", VInt 3)]
     = safe_json_dumps (Some SafeJSONEncoder_default)
                       (VDict [("query", VStr "q");
                               ("options", VDict [("limit", VInt 3)])]).
Proof.
  destruct (input_value_merges_only_kwargs
              "query" "options" (VStr "q") None [("limit", VInt 3)])
    as [Hmerged Hnested].
  - apply (bool_decide_unpack _). vm_compute. reflexivity.
  - apply (bool_decide_unpack _). vm_compute. reflexivity.
  - discriminate.
  - reflexivity.
  - split; [exact Hmerged | apply Hnested; discriminate].
Defined.

Lemma bind_positional_exact (given : list parameter) :
  forall (rest : list parameter) (args : list pyval)
         (arguments : list (string * pyval)),
    length args = length given ->
    forallb positional given = true ->
    forallb positional rest = true ->
    forallb has_default rest = true ->
    bind_positional (given ++ rest) args [] arguments
    = Ok (dict_update arguments (zip (map p_name given) args), rest).
Proof.
  induction given as [|p given IH]; intros rest args arguments Hlen Hgiven Hrest Hdef.
  - destruct args; [|discriminate]. cbn [app map zip zip_with bind_positional].
    destruct rest as [|q rest]; [reflexivity|].
    cbn [forallb] in Hrest, Hdef.
    apply andb_true_iff in Hrest as [Hq _]. apply andb_true_iff in Hdef as [Hd _].
    unfold positional in Hq. unfold has_default in Hd. cbn [bind_positional].
    destruct (p_kind q); try discriminate. cbn [kind_eqb orb dict_has dict_get].
    destruct (p_default q); [|discriminate].
    rewrite bool_decide_eq_true_2 by eauto. reflexivity.
  - destruct args as [|arg args]; [discriminate|].
    cbn [forallb] in Hgiven. apply andb_true_iff in Hgiven as [Hp Hgiven].
    cbn [app bind_positional]. unfold positional in Hp.
    destruct (p_kind p); try discriminate.
    cbn [kind_eqb orb andb dict_has dict_get].
    rewrite IH by (assumption || (cbn in Hlen; lia)). reflexivity.
Qed.

Lemma bind_keywords_defaults (rest : list parameter) :
  forall (arguments : list (string * pyval)) (kwargs_param : option parameter),
    forallb positional rest = true ->
    forallb has_default rest = true ->
    bind_keywords rest [] arguments kwargs_param = Ok arguments.
Proof.
  induction rest as [|q rest IH]; intros arguments kwargs_param Hrest Hdef;
    [reflexivity|].
  cbn [forallb] in Hrest, Hdef.
  apply andb_true_iff in Hrest as [Hq Hrest]. apply andb_true_iff in Hdef as [Hd Hdef].
  unfold positional in Hq. unfold has_default in Hd. cbn [bind_keywords].
  destruct (p_kind q); try discriminate. cbn [kind_eqb dict_get].
  destruct (p_default q); [|discriminate].
  rewrite bool_decide_eq_true_2 by eauto. now apply IH.
Qed.

Lemma apply_defaults_app (l1 l2 : list parameter)
    (arguments : list (string * pyval)) :
  apply_defaults (l1 ++ l2) arguments
  = (apply_defaults l1 arguments ++ apply_defaults l2 arguments)%list.
Proof.
  induction l1 as [|p l1 IH]; [reflexivity|]. cbn [app apply_defaults].
  rewrite IH.
  destruct (dict_get (p_name p) arguments); [reflexivity|].
  destruct (p_default p); [reflexivity|].
  destruct (kind_eqb (p_kind p) VAR_POSITIONAL); [reflexivity|].
  destruct (kind_eqb (p_kind p) VAR_KEYWORD); reflexivity.
Qed.

Lemma dict_get_elem {A : Type} (k : string) (v : A) (l : list (string * A)) :
  NoDup (map fst l) -> (k, v) ∈ l -> dict_get k l = Some v.
Proof.
  induction l as [|[k' v'] l IH]; intros Hl Hin; [now apply elem_of_nil in Hin|].
  cbn [map fst] in Hl. apply NoDup_cons in Hl as [Hk' Hl].
  cbn -[String.eqb]. apply elem_of_cons in Hin as [[= -> ->]|Hin].
  - now rewrite String.eqb_refl.
  - destruct (String.eqb_spec k k') as [->|Hne]; [|now apply IH].
    exfalso. apply Hk'. apply list_elem_of_fmap. now exists (k', v).
Qed.

Lemma apply_defaults_bound (given : list parameter) :
  forall (args : list pyval) (arguments : list (string * pyval)),
    length args = length given ->
    (forall k v, (k, v) ∈ zip (map p_name given) args ->
                 dict_get k arguments = Some v) ->
    apply_defaults given arguments = zip (map p_name given) args.
Proof.
  induction given as [|p given IH]; intros args arguments Hlen Hget;
    [reflexivity|].
  destruct args as [|arg args]; [discriminate|].
  cbn [map zip zip_with apply_defaults] in *.
  rewrite (Hget (p_name p) arg) by apply list_elem_of_here.
  f_equal. apply IH; [cbn in Hlen; lia|].
  intros k v Hin. apply Hget. now apply list_elem_of_further.
Qed.

Lemma apply_defaults_unbound (rest : list parameter)
    (arguments : list (string * pyval)) :
  (forall q, q ∈ rest -> dict_get (p_name q) arguments = None) ->
  forallb has_default rest = true ->
  apply_defaults rest arguments = default_entries rest.
Proof.
  induction rest as [|q rest IH]; intros Hget Hdef; [reflexivity|].
  cbn [forallb] in Hdef. apply andb_true_iff in Hdef as [Hd Hdef].
  unfold has_default in Hd. unfold default_entries.
  cbn [apply_defaults omap list_omap].
  rewrite (Hget q) by apply list_elem_of_here.
  destruct (p_default q); [|discriminate].
  f_equal. apply IH; [|exact Hdef].
  intros q' Hin. apply Hget. now apply list_elem_of_further.
Qed.

(** X9: for a function whose parameters are all plain (positional or
    keyword) and differently named, called with positional arguments only,
    one for each of the first parameters, while the remaining parameters
    have defaults, [_bind_arguments] returns the mapping of the first
    parameters to the arguments followed by the remaining parameters with
    their defaults, in the order of the signature. *)
Theorem bind_arguments_fills_defaults (given rest : list parameter)
    (args : list pyval) :
  forallb positional (given ++ rest) = true ->
  NoDup (map p_name (given ++ rest)) ->
  length args = length given ->
  forallb has_default rest = true ->
  _bind_arguments (given ++ rest) args []
  = Ok (zip (map p_name given) args ++ default_entries rest)%list.
Proof.
  intros Hkind Hnames Hlen Hdef.
  rewrite forallb_app in Hkind. apply andb_true_iff in Hkind as [Hgiven Hrest].
  rewrite map_app in Hnames. apply NoDup_app in Hnames as (Hnd & Hdisjoint & _).
  assert (Hfst : map fst (zip (map p_name given) args) = map p_name given).
  { apply fst_zip. rewrite length_map. lia. }
  unfold _bind_arguments, Signature_bind.
  rewrite bind_positional_exact by assumption. cbn [bind Ok fst snd].
  rewrite bind_keywords_defaults by assumption. cbn [bind Ok].
  rewrite apply_defaults_app. do 2 f_equal.
  - apply apply_defaults_bound; [exact Hlen|].
    intros k v Hin. rewrite dict_get_update by now rewrite Hfst.
    now rewrite (dict_get_elem k v) by (try rewrite Hfst; assumption).
  - apply apply_defaults_unbound; [|exact Hdef].
    intros q Hq. rewrite dict_get_update by now rewrite Hfst.
    assert (Hnone : dict_get (p_name q) (zip (map p_name given) args) = None).
    { apply dict_get_None. rewrite Hfst. intros Hin.
      apply (Hdisjoint _ Hin). apply list_elem_of_fmap. now exists q. }
    now rewrite Hnone.
Qed.

Lemma bind_arguments_fills_defaults_witness :
  _bind_arguments signature_with_defaults [VStr "hello"] []
  = Ok [("messages", VStr "hello"); ("stop_sequences", VNone);
        ("grammar", VNone)].
Proof.
  apply (bind_arguments_fills_defaults
           [Param "messages" POSITIONAL_OR_KEYWORD None]
           [Param "stop_sequences" POSITIONAL_OR_KEYWORD (Some VNone);
            Param "grammar" POSITIONAL_OR_KEYWORD (Some VNone)]
           [VStr "hello"]).
  - reflexivity.
  - apply (bool_decide_unpack _). vm_compute. reflexivity.
  - reflexivity.
  - reflexivity.
Defined.

(** ** The safe encoder and the standard encoder *)

Lemma mapM_agree {A B : Type} (f g : A -> result B) (l : list A) (ys : list B) :
  (forall x y, x ∈ l -> f x = inr y -> g x = inr y) ->
  mapM f l = inr ys -> mapM g l = inr ys.
Proof.
  revert ys. induction l as [|x l IH]; intros ys Hfg; cbn [mapM]; [auto|].
  intros H. apply bind_inv in H as (y & Hy & H).
  apply bind_inv in H as (ys' & Hys & H).
  rewrite (Hfg x y) by (auto; apply list_elem_of_here).
  cbn [bind]. rewrite (IH ys'); [exact H | | exact Hys].
  intros x' y' Hin. apply Hfg. now apply list_elem_of_further.
Qed.

Lemma mapM_ext_in {A B : Type} (f g : A -> result B) (l : list A) :
  (forall x, x ∈ l -> f x = g x) -> mapM f l = mapM g l.
Proof.
  induction l as [|x l IH]; intros Hfg; cbn [mapM]; [reflexivity|].
  rewrite (Hfg x) by apply list_elem_of_here.
  rewrite IH; [reflexivity|]. intros x' Hin. apply Hfg.
  now apply list_elem_of_further.
Qed.

(** Where the encoder of the standard library succeeds, the hook is never
    entered, so every hook gives the same text. *)
Lemma plain_encoding_needs_no_hook (default : pyval -> result pyval) (n : nat) :
  forall (v : pyval) (fuel fuel' : nat) (s : string),
    (py_size v <= n)%nat ->
    iterencode JSONEncoder_default fuel v = inr s ->
    iterencode default fuel' v = inr s.
Proof.
  induction n as [|n IH]; intros v fuel fuel' s Hn.
  { pose proof (py_size_pos v). lia. }
  destruct v as [| b | z | t | xs | xs | kvs | cls member value | r
                 | meta cls_attrs attrs].
  - destruct fuel, fuel'; exact id.
  - destruct fuel, fuel', b; exact id.
  - destruct fuel, fuel'; exact id.
  - rewrite !iterencode_str. exact id.
  - rewrite !iterencode_list. cbn [py_size] in Hn. intros H.
    apply bind_inv in H as (chunks & Hchunks & H).
    erewrite mapM_agree; [exact H | | exact Hchunks].
    intros x y Hx. pose proof (sum_list_elem py_size xs x Hx).
    apply IH. lia.
  - rewrite !iterencode_tuple. cbn [py_size] in Hn. intros H.
    apply bind_inv in H as (chunks & Hchunks & H).
    erewrite mapM_agree; [exact H | | exact Hchunks].
    intros x y Hx. pose proof (sum_list_elem py_size xs x Hx).
    apply IH. lia.
  - rewrite !iterencode_dict. cbn [py_size] in Hn. intros H.
    apply bind_inv in H as (chunks & Hchunks & H).
    erewrite mapM_agree; [exact H | | exact Hchunks].
    intros [k x] y Hx. cbn [fst snd].
    pose proof (sum_list_elem (fun kv => py_size kv.2) kvs (k, x) Hx) as Hle.
    cbn [snd] in Hle. intros Hy.
    apply bind_inv in Hy as (c & Hc & Hy).
    rewrite (IH x fuel fuel' c) by (lia || exact Hc). exact Hy.
  - destruct fuel; discriminate.
  - destruct fuel; discriminate.
  - destruct fuel; discriminate.
Qed.

(** X10: whatever [json.dumps] encodes without raising, the safe encoder
    encodes to the same text: its fallbacks only come into play where the
    standard encoder refuses a value. *)
Theorem SafeJSONEncoder_agrees_with_json_dumps (v : pyval) (s : string) :
  json_dumps v = Ok s -> SafeJSONEncoder_encode v = Ok s.
Proof.
  unfold json_dumps, SafeJSONEncoder_encode, json_dumps_with.
  apply (plain_encoding_needs_no_hook _ (py_size v)). lia.
Qed.

Lemma SafeJSONEncoder_agrees_with_json_dumps_witness :
  SafeJSONEncoder_encode (VDict [("a", VList [VInt 1; VNone])])
  = Ok ("{" +:+ encode_basestring_ascii "a" +:+ ": [1, null]}").
Proof.
  apply (SafeJSONEncoder_agrees_with_json_dumps
           (VDict [("a", VList [VInt 1; VNone])])).
  vm_compute. reflexivity.
Defined.

(** With fuel for the size of a value, more fuel changes nothing. *)
Lemma SafeJSONEncoder_fuel (n : nat) :
  forall (v : pyval) (fuel fuel' : nat),
    (py_size v <= n)%nat -> (py_size v <= fuel)%nat -> (py_size v <= fuel')%nat ->
    iterencode SafeJSONEncoder_default fuel v
    = iterencode SafeJSONEncoder_default fuel' v.
Proof.
  induction n as [|n IH]; intros v fuel fuel' Hn Hf Hf'.
  { pose proof (py_size_pos v). lia. }
  destruct v as [| b | z | t | xs | xs | kvs | cls member value | r
                 | meta cls_attrs attrs].
  - destruct fuel, fuel'; reflexivity.
  - destruct fuel, fuel', b; reflexivity.
  - destruct fuel, fuel'; reflexivity.
  - now rewrite !iterencode_str.
  - rewrite !iterencode_list. cbn [py_size] in *. f_equal.
    apply mapM_ext_in. intros x Hx.
    pose proof (sum_list_elem py_size xs x Hx). apply IH; lia.
  - rewrite !iterencode_tuple. cbn [py_size] in *. f_equal.
    apply mapM_ext_in. intros x Hx.
    pose proof (sum_list_elem py_size xs x Hx). apply IH; lia.
  - rewrite !iterencode_dict. cbn [py_size] in *. f_equal.
    apply mapM_ext_in. intros [k x] Hx. cbn [fst snd].
    pose proof (sum_list_elem (fun kv => py_size kv.2) kvs (k, x) Hx) as Hle.
    cbn [snd] in Hle. rewrite (IH x fuel fuel') by lia. reflexivity.
  - pose proof (py_size_pos (VEnum cls member value)).
    destruct fuel as [|fuel]; [lia|]. destruct fuel' as [|fuel']; [lia|].
    rewrite !iterencode_hook by exact I. rewrite SafeJSONEncoder_default_eq.
    cbn [lookup_attr bind Ok]. now rewrite !iterencode_str.
  - pose proof (py_size_pos (VMethod r)).
    destruct fuel as [|fuel]; [lia|]. destruct fuel' as [|fuel']; [lia|].
    rewrite !iterencode_hook by exact I. rewrite SafeJSONEncoder_default_eq.
    cbn [lookup_attr bind Ok]. now rewrite !iterencode_str.
  - pose proof (py_size_pos (VObj meta cls_attrs attrs)).
    destruct fuel as [|fuel]; [lia|]. destruct fuel' as [|fuel']; [lia|].
    rewrite !iterencode_hook by exact I. rewrite SafeJSONEncoder_default_eq.
    destruct (lookup_attr (VObj meta cls_attrs attrs) "dict") as [d|] eqn:E;
      [|cbn [bind Ok]; now rewrite !iterencode_str].
    pose proof (lookup_attr_size _ _ _ E) as Hsize.
    destruct d as [| | | | | | | | r |];
      try (cbn [bind Ok]; now rewrite !iterencode_str).
    destruct r as [e|exported]; [reflexivity|].
    cbn [py_size] in Hsize, Hn, Hf, Hf'. cbn [bind].
    apply IH; lia.
Qed.

(** X11: an object with a [dict] method is encoded as what the method
    returns is encoded, by the same encoder: the fallbacks apply again
    inside the exported value. *)
Theorem SafeJSONEncoder_encodes_what_dict_returns (o exported : pyval) :
  lookup_attr o "dict" = Some (VMethod (inr exported)) ->
  SafeJSONEncoder_encode o = SafeJSONEncoder_encode exported.
Proof.
  intros H. unfold SafeJSONEncoder_encode, json_dumps_with.
  pose proof (lookup_attr_size _ _ _ H) as Hsize. cbn [py_size] in Hsize.
  destruct o; try discriminate.
  destruct (py_size (VObj meta cls_attrs attrs)) as [|fuel] eqn:E; [lia|].
  rewrite iterencode_hook by exact I.
  rewrite SafeJSONEncoder_default_eq, H. cbn [bind].
  apply (SafeJSONEncoder_fuel (py_size exported)); lia.
Qed.

Lemma SafeJSONEncoder_encodes_what_dict_returns_witness :
  SafeJSONEncoder_encode pydantic_like
  = SafeJSONEncoder_encode (VDict [("text", VStr "hi")]).
Proof.
  apply (SafeJSONEncoder_encodes_what_dict_returns pydantic_like).
  reflexivity.
Defined.

(** ** Exceptions outside [Exception] *)

Lemma call_passes wrapped kwargs (rest : pyval -> M pyval) span0 objects world e
    objects' world' :
  fn_call wrapped objects kwargs world = (inl e, objects', world') ->
  exc_isinstance e "Exception" = false ->
  try_except (bindM (call_wrapped wrapped kwargs) rest) on_exception
    (MkFrame span0 objects world)
  = (inl e, MkFrame span0 objects' world').
Proof.
  intros Hcall Hexc.
  unfold try_except, bindM, call_wrapped. cbn [fr_objects fr_world fr_span].
  rewrite Hcall, Hexc. reflexivity.
Qed.

Lemma call_passes_bare wrapped kwargs span0 objects world e objects' world' :
  fn_call wrapped objects kwargs world = (inl e, objects', world') ->
  exc_isinstance e "Exception" = false ->
  try_except (call_wrapped wrapped kwargs) on_exception
    (MkFrame span0 objects world)
  = (inl e, MkFrame span0 objects' world').
Proof.
  intros Hcall Hexc.
  unfold try_except, call_wrapped. cbn [fr_objects fr_world fr_span].
  rewrite Hcall, Hexc. reflexivity.
Qed.

(** X12: an exception of the wrapped call that is not an instance of
    [Exception] (a [KeyboardInterrupt], a [SystemExit]) passes the handler
    of each of the four wrappers: the wrapper raises it, and the span ends
    as it was when the call was made, without the ERROR status and with
    nothing recorded. *)
Theorem base_exception_passes_unrecorded
    (get_json_schema : pyval -> result pyval) (wrapped : Callable)
    (objects objects' : Objects) (kwargs : list (string * pyval))
    (world world' : World) (e : exc) :
  suppress_instrumentation world = false ->
  fn_call wrapped objects kwargs world = (inl e, objects', world') ->
  exc_isinstance e "Exception" = false ->
  (forall span0,
     run_span_at_call wrapped objects kwargs world = inr span0 ->
     _RunWrapper wrapped objects kwargs world
     = (inl e, objects', export span0 world'))
  /\ (forall span0,
        step_span_at_call objects world = inr span0 ->
        _StepWrapper wrapped objects kwargs world
        = (inl e, objects', export span0 world'))
  /\ (forall span0,
        model_span_at_call wrapped objects kwargs world = inr span0 ->
        _ModelWrapper get_json_schema wrapped objects kwargs world
        = (inl e, objects', export span0 world'))
  /\ (forall span0,
        tool_span_at_call wrapped objects kwargs world = inr span0 ->
        _ToolCallWrapper wrapped objects kwargs world
        = (inl e, objects', export span0 world')).
Proof.
  intros Htraced Hcall Hexc. repeat split; intros span0.
  - unfold _RunWrapper, run_span_at_call. rewrite Htraced.
    destruct (_get_input_value _ _ _) as [e0|input_value]; [discriminate|].
    cbn [bind].
    destruct (_flatten _) as [e0|attributes]; [discriminate|]. cbn [bind].
    intros Hopen. apply opened_inv in Hopen; [|apply quiet_run_inputs].
    rewrite start_as_current_span_eq, (bindM_inr _ _ _ _ _ Hopen).
    unfold run_call.
    erewrite bindM_inl by (eapply call_passes; eassumption). reflexivity.
  - unfold _StepWrapper, step_span_at_call. rewrite Htraced.
    destruct (getattr _ _) as [e0|step_number]; [discriminate|]. cbn [bind].
    intros Hopen. apply opened_ret in Hopen as ->.
    rewrite start_as_current_span_eq. unfold step_call.
    erewrite bindM_inl by (eapply call_passes; eassumption). reflexivity.
  - unfold _ModelWrapper, model_span_at_call. rewrite Htraced.
    destruct (_bind_arguments _ _ _) as [e0|arguments]; [discriminate|].
    cbn [bind].
    destruct (model_inputs _ _ _) as [e0|attributes]; [discriminate|].
    cbn [bind].
    intros Hopen. apply opened_ret in Hopen as ->.
    rewrite start_as_current_span_eq.
    erewrite bindM_inl by (eapply call_passes_bare; eassumption). reflexivity.
  - unfold _ToolCallWrapper, tool_span_at_call. rewrite Htraced.
    destruct (_get_input_value _ _ _) as [e0|input_value]; [discriminate|].
    cbn [bind].
    destruct (_flatten _) as [e0|attributes]; [discriminate|]. cbn [bind].
    intros Hopen. apply opened_inv in Hopen; [|apply quiet_tool_inputs].
    rewrite start_as_current_span_eq, (bindM_inr _ _ _ _ _ Hopen).
    erewrite bindM_inl by (eapply call_passes_bare; eassumption). reflexivity.
Qed.

Lemma base_exception_passes_unrecorded_witness :
  exists span0,
    tool_span_at_call (constant_callable (Err KeyboardInterrupt))
                      sample_objects [] traced_world = inr span0
    /\ span_status span0 = MkStatus UNSET None
    /\ _ToolCallWrapper (constant_callable (Err KeyboardInterrupt))
                        sample_objects [] traced_world
       = (Err KeyboardInterrupt, sample_objects, export span0 traced_world).
Proof.
  destruct (base_exception_passes_unrecorded
              (fun _ => Ok VNone) (constant_callable (Err KeyboardInterrupt))
              sample_objects sample_objects [] traced_world traced_world
              KeyboardInterrupt eq_refl eq_refl eq_refl)
    as (_ & _ & _ & Htool).
  eexists. split; [vm_compute; reflexivity|]. split; [reflexivity|].
  apply Htool. vm_compute. reflexivity.
Defined.

(** ** Failures after the wrapped call has returned *)

Lemma getattr_raises_Exception (o : pyval) (name : string) (e : exc) :
  getattr o name = inl e -> exc_isinstance e "Exception" = true.
Proof.
  unfold getattr. destruct (lookup_attr o name); [discriminate|].
  now intros [= <-].
Qed.

Lemma try_except_handles {A} (body : M A) fr e span objects world :
  body fr = (inl e, MkFrame span objects world) ->
  exc_isinstance e "Exception" = true ->
  try_except body on_exception fr
  = (inl e, MkFrame (failed span e) objects world).
Proof. intros H He. unfold try_except. now rewrite H, He. Qed.

(** X13: the step wrapper takes the step log from [args[0]] inside its
    [try] block.  When the step is called without positional arguments and
    returns, that lookup raises [IndexError]: the handler marks the span
    with ERROR and records the error, and the wrapper raises it in place of
    returning the result. *)
Theorem step_without_positional_arguments_raises
    (wrapped : Callable) (objects objects' : Objects)
    (kwargs : list (string * pyval)) (world world' : World) (span0 : Span)
    (result : pyval) :
  suppress_instrumentation world = false ->
  step_span_at_call objects world = inr span0 ->
  fn_call wrapped objects kwargs world = (inr result, objects', world') ->
  obj_args objects' = [] ->
  _StepWrapper wrapped objects kwargs world
  = (Err (IndexError "tuple index out of range"), objects',
     export (failed (with_final_answer result span0)
                    (IndexError "tuple index out of range")) world').
Proof.
  intros Htraced Hopen Hcall Hargs.
  unfold _StepWrapper, step_span_at_call in *. rewrite Htraced.
  destruct (getattr _ "step_number") as [e0|step_number]; [discriminate|].
  cbn [bind] in Hopen. apply opened_ret in Hopen as ->.
  rewrite start_as_current_span_eq.
  match goal with
  | |- context [bindM _ _ ?fr] =>
      assert (Hbody :
        step_call wrapped kwargs fr
        = (inl (IndexError "tuple index out of range"),
           MkFrame (failed (with_final_answer result (fr_span fr))
                           (IndexError "tuple index out of range"))
                   objects' world'))
  end.
  { unfold step_call.
    apply try_except_handles; [|reflexivity].
    erewrite bindM_call by exact Hcall.
    unfold with_final_answer.
    destruct (is_None result); cbn [negb]; forward; rewrite Hargs;
      reflexivity. }
  rewrite (bindM_inl _ _ _ _ _ Hbody). reflexivity.
Qed.

Lemma step_without_positional_arguments_raises_witness :
  exists span0,
    _StepWrapper (constant_callable (Ok (VStr "done"))) keyword_step_objects
                 [("log_entry", sample_step_log VNone)] traced_world
    = (Err (IndexError "tuple index out of range"), keyword_step_objects,
       export (failed (with_final_answer (VStr "done") span0)
                      (IndexError "tuple index out of range")) traced_world).
Proof.
  eexists.
  apply (step_without_positional_arguments_raises
           (constant_callable (Ok (VStr "done"))) keyword_step_objects
           keyword_step_objects [("log_entry", sample_step_log VNone)]
           traced_world traced_world);
    vm_compute; reflexivity.
Defined.

(** X14: the counters of [agent.monitor] are read inside the [try] block of
    the run wrapper.  When the run returns and the agent has no monitor,
    the [AttributeError] is handled like an exception of the run itself:
    ERROR status, recorded, raised to the caller. *)
Theorem run_counter_failure_is_recorded
    (wrapped : Callable) (objects objects' : Objects)
    (kwargs : list (string * pyval)) (world world' : World) (span0 : Span)
    (agent_output : pyval) (e : exc) :
  suppress_instrumentation world = false ->
  run_span_at_call wrapped objects kwargs world = inr span0 ->
  fn_call wrapped objects kwargs world = (inr agent_output, objects', world') ->
  getattr (obj_instance objects') "monitor" = inl e ->
  _RunWrapper wrapped objects kwargs world
  = (inl e, objects', export (failed span0 e) world').
Proof.
  intros Htraced Hopen Hcall Hmonitor.
  unfold _RunWrapper, run_span_at_call in *. rewrite Htraced.
  destruct (_get_input_value _ _ _) as [e0|input_value]; [discriminate|].
  cbn [bind] in *.
  destruct (_flatten _) as [e0|attributes]; [discriminate|]. cbn [bind] in *.
  apply opened_inv in Hopen; [|apply quiet_run_inputs].
  rewrite start_as_current_span_eq, (bindM_inr _ _ _ _ _ Hopen).
  assert (Hbody :
    run_call wrapped kwargs (MkFrame span0 objects world)
    = (inl e, MkFrame (failed span0 e) objects' world')).
  { unfold run_call.
    apply try_except_handles;
      [|eapply getattr_raises_Exception; eassumption].
    erewrite bindM_call by exact Hcall.
    forward. rewrite Hmonitor. reflexivity. }
  rewrite (bindM_inl _ _ _ _ _ Hbody). reflexivity.
Qed.

Lemma run_counter_failure_is_recorded_witness :
  exists span0,
    _RunWrapper (constant_callable (Ok (VStr "4"))) unmonitored_objects []
                traced_world
    = (Err (AttributeError "'CodeAgent' object has no attribute 'monitor'"),
       unmonitored_objects,
       export (failed span0
                 (AttributeError "'CodeAgent' object has no attribute 'monitor'"))
              traced_world).
Proof.
  eexists.
  apply (run_counter_failure_is_recorded
           (constant_callable (Ok (VStr "4"))) unmonitored_objects
           unmonitored_objects [] traced_world traced_world _ (VStr "4"));
    vm_compute; reflexivity.
Defined.

(** X15: the model wrapper reads the counters of the model after its [try]
    block.  When the call returns and the model has no
    [last_input_token_count], the [AttributeError] reaches the caller, and
    the span ends as it was opened: status unset, nothing recorded, no
    output. *)
Theorem model_counter_failure_is_not_recorded
    (get_json_schema : pyval -> result pyval) (wrapped : Callable)
    (objects objects' : Objects) (kwargs : list (string * pyval))
    (world world' : World) (span0 : Span) (output_message : pyval) (e : exc) :
  suppress_instrumentation world = false ->
  model_span_at_call wrapped objects kwargs world = inr span0 ->
  fn_call wrapped objects kwargs world = (inr output_message, objects', world') ->
  getattr (obj_instance objects') "last_input_token_count" = inl e ->
  _ModelWrapper get_json_schema wrapped objects kwargs world
  = (inl e, objects', export span0 world')
  /\ span_status span0 = MkStatus UNSET None
  /\ span_exceptions span0 = [].
Proof.
  intros Htraced Hopen Hcall Hcount.
  unfold _ModelWrapper, model_span_at_call in *. rewrite Htraced.
  destruct (_bind_arguments _ _ _) as [e0|arguments]; [discriminate|].
  cbn [bind] in Hopen.
  destruct (model_inputs _ _ _) as [e0|attributes]; [discriminate|].
  cbn [bind] in Hopen. apply opened_ret in Hopen as ->.
  split; [|split; reflexivity].
  rewrite start_as_current_span_eq.
  erewrite (bindM_inr (try_except _ _)); cycle 1.
  { apply try_except_returns. apply call_returns. exact Hcall. }
  match goal with
  | |- context [bindM (model_outputs ?g ?a ?o) _ ?fr] =>
      assert (Hbody : model_outputs g a o fr = (inl e, fr))
  end.
  { unfold model_outputs. forward. rewrite Hcount. reflexivity. }
  rewrite (bindM_inl _ _ _ _ _ Hbody). reflexivity.
Qed.

Lemma model_counter_failure_is_not_recorded_witness :
  exists span0,
    _ModelWrapper (fun _ => Ok (VDict [])) model_call uncounted_model_objects
                  hello traced_world
    = (Err (AttributeError
              "'HfApiModel' object has no attribute 'last_input_token_count'"),
       uncounted_model_objects, export span0 traced_world)
    /\ span_status span0 = MkStatus UNSET None
    /\ span_exceptions span0 = [].
Proof.
  eexists.
  apply (model_counter_failure_is_not_recorded
           (fun _ => Ok (VDict [])) model_call uncounted_model_objects
           uncounted_model_objects hello traced_world traced_world _
           sample_message);
    vm_compute; reflexivity.
Defined.

(** ** The tool wrapper before the call *)

(** X16: the tool wrapper encodes [kwargs] with the plain [json.dumps]
    before its [try] block.  When that raises, although the input value
    could be computed with the safe encoder, the wrapper raises the error
    without calling the tool: objects and world are as they were, but for
    the span, which ends with status unset and nothing recorded. *)
Theorem tool_arguments_not_serialisable_stop_the_call
    (wrapped : Callable) (objects : Objects) (kwargs : list (string * pyval))
    (world : World) (input_value : string) (name : pyval) (e : exc) :
  suppress_instrumentation world = false ->
  _get_input_value (fn_signature wrapped) (obj_args objects) kwargs
  = inr input_value ->
  getattr_class (obj_instance objects) "name" = inr name ->
  json_dumps (VDict kwargs) = inl e ->
  _ToolCallWrapper wrapped objects kwargs world
  = (inl e, objects,
     export
       (MkSpan (if truthy (obj_instance objects)
                then type_name (obj_instance objects) else fn_name wrapped)
               (<[TOOL_CALL_FUNCTION_NAME := VStr (str name)]>
                  (<[INPUT_VALUE := VStr input_value]>
                     (<[OPENINFERENCE_SPAN_KIND := VStr TOOL]> ∅)))
               (MkStatus UNSET None) [])
       world).
Proof.
  intros Htraced Hinput Hname Hdumps.
  unfold _ToolCallWrapper. rewrite Htraced, Hinput. cbn [bind].
  rewrite flatten_kind_and_input. cbn [bind Ok].
  rewrite start_as_current_span_eq.
  match goal with
  | |- context [bindM (tool_inputs kwargs) _ ?fr] =>
      assert (Hbody :
        tool_inputs kwargs fr
        = (inl e,
           MkFrame (MkSpan (span_name (fr_span fr))
                           (<[TOOL_CALL_FUNCTION_NAME := VStr (str name)]>
                              (span_attributes (fr_span fr)))
                           (MkStatus UNSET None) [])
                   objects world))
  end.
  { unfold tool_inputs. forward. rewrite Hname. forward. rewrite Hdumps.
    reflexivity. }
  rewrite (bindM_inl _ _ _ _ _ Hbody). reflexivity.
Qed.

Lemma tool_arguments_not_serialisable_stop_the_call_witness :
  exists input_value span,
    _get_input_value signature_a_b [] opaque_argument = inr input_value
    /\ _ToolCallWrapper (constant_callable (Ok (VStr "found")))
                        (MkObjects sample_agent []) opaque_argument traced_world
       = (Err (TypeError "Object of type Opaque is not JSON serializable"),
          MkObjects sample_agent [], export span traced_world)
    /\ span_status span = MkStatus UNSET None.
Proof.
  eexists _, _. split; [vm_compute; reflexivity|].
  split.
  - apply (tool_arguments_not_serialisable_stop_the_call
             (constant_callable (Ok (VStr "found"))) (MkObjects sample_agent [])
             opaque_argument traced_world);
      vm_compute; reflexivity.
  - reflexivity.
Defined.

(** ** A wrapper that returns *)

Lemma call_wrapped_inv wrapped kwargs fr r fr' :
  call_wrapped wrapped kwargs fr = (inr r, fr') ->
  fn_call wrapped (fr_objects fr) kwargs (fr_world fr)
  = (inr r, fr_objects fr', fr_world fr')
  /\ fr_span fr' = fr_span fr.
Proof.
  unfold call_wrapped.
  destruct (fn_call _ _ _ _) as [[r0 o0] w0]. intros [= -> <-]. auto.
Qed.

Lemma quiet_inv {A} (m : M A) fr r fr' :
  quiet m -> m fr = (r, fr') ->
  fr_objects fr' = fr_objects fr /\ fr_world fr' = fr_world fr.
Proof. intros Hq H. specialize (Hq fr). now rewrite H in Hq. Qed.

Lemma tool_return_inv wrapped objects objects' kwargs world world1 r :
  suppress_instrumentation world = false ->
  _ToolCallWrapper wrapped objects kwargs world = (inr r, objects', world1) ->
  exists world' span,
    fn_call wrapped objects kwargs world = (inr r, objects', world')
    /\ world1 = export span world'
    /\ span_status span = MkStatus OK None.
Proof.
  intros Htraced. unfold _ToolCallWrapper. rewrite Htraced.
  destruct (bind _ _) as [e0|attributes]; [discriminate|].
  rewrite start_as_current_span_eq. intros H.
  apply finished_inv in H as (H & Hobj & ->).
  destruct (bindM _ _ _) as [res fr'] eqn:E. cbn [fst snd] in *. subst res.
  apply bindM_inv in E as ([] & fr1 & Hin & E).
  apply (quiet_inv _ _ _ _ (quiet_tool_inputs kwargs)) in Hin as [Hq1 Hq2].
  cbn [fr_objects fr_world] in Hq1, Hq2.
  apply bindM_inv in E as (response & fr2 & Hcall & E).
  apply try_except_inv, call_wrapped_inv in Hcall as (Hcall & _).
  rewrite Hq1, Hq2 in Hcall.
  rewrite status_output_merge_return in E. injection E as -> <-.
  cbn [fr_objects fr_world fr_span] in *. subst objects'.
  eexists _, _. split; [exact Hcall|]. split; reflexivity.
Qed.

Lemma model_return_inv get_json_schema wrapped objects objects' kwargs world
    world1 r :
  suppress_instrumentation world = false ->
  _ModelWrapper get_json_schema wrapped objects kwargs world
  = (inr r, objects', world1) ->
  exists world' span,
    fn_call wrapped objects kwargs world = (inr r, objects', world')
    /\ world1 = export span world'
    /\ span_status span = MkStatus OK None.
Proof.
  intros Htraced. unfold _ModelWrapper. rewrite Htraced.
  destruct (_bind_arguments _ _ _) as [e0|arguments]; [discriminate|].
  destruct (model_inputs _ _ _) as [e0|attributes]; [discriminate|].
  rewrite start_as_current_span_eq. intros H.
  apply finished_inv in H as (H & Hobjects & ->).
  destruct (bindM _ _ _) as [res fr'] eqn:E. cbn [fst snd] in *. subst res.
  apply bindM_inv in E as (output_message & fr1 & Hcall & E).
  apply try_except_inv, call_wrapped_inv in Hcall as (Hcall & _).
  cbn [fr_objects fr_world] in Hcall.
  apply bindM_inv in E as ([] & fr2 & E & E').
  cbn in E'. injection E' as -> <-.
  unfold model_outputs in E.
  do 15 step_through E.
  unfold set_attributes, update_span in E. injection E as <-.
  cbn [fr_objects fr_span fr_world] in *. subst objects'.
  eexists _, _. split; [exact Hcall|]. split; reflexivity.
Qed.

Lemma run_return_inv wrapped objects objects' kwargs world world1 r :
  suppress_instrumentation world = false ->
  _RunWrapper wrapped objects kwargs world = (inr r, objects', world1) ->
  exists world' span,
    fn_call wrapped objects kwargs world = (inr r, objects', world')
    /\ world1 = export span world'
    /\ span_status span = MkStatus OK None.
Proof.
  intros Htraced. unfold _RunWrapper. rewrite Htraced.
  destruct (bind _ _) as [e0|attributes]; [discriminate|].
  rewrite start_as_current_span_eq. intros H.
  apply finished_inv in H as (H & Hobj & ->).
  destruct (bindM _ _ _) as [res fr'] eqn:E. cbn [fst snd] in *. subst res.
  apply bindM_inv in E as ([] & fr1 & Hin & E).
  apply (quiet_inv _ _ _ _ (quiet_run_inputs kwargs)) in Hin as [Hq1 Hq2].
  cbn [fr_objects fr_world] in Hq1, Hq2.
  apply bindM_inv in E as (agent_output & fr2 & Hcall & E).
  rewrite status_output_merge_return in E. injection E as -> <-.
  unfold run_call in Hcall. apply try_except_inv in Hcall.
  apply bindM_inv in Hcall as (out & fr3 & Hcall & E).
  apply call_wrapped_inv in Hcall as (Hcall & _).
  rewrite Hq1, Hq2 in Hcall.
  do 7 step_through E.
  unfold ret in E. injection E as -> <-.
  cbn [fr_objects fr_world fr_span] in *. subst objects'.
  eexists _, _. split; [exact Hcall|]. split; reflexivity.
Qed.

Lemma step_return_inv wrapped objects objects' kwargs world world1 r :
  suppress_instrumentation world = false ->
  _StepWrapper wrapped objects kwargs world = (inr r, objects', world1) ->
  exists world' span,
    fn_call wrapped objects kwargs world = (inr r, objects', world')
    /\ world1 = export span world'
    /\ span_status span = MkStatus OK None.
Proof.
  intros Htraced. unfold _StepWrapper. rewrite Htraced.
  destruct (getattr _ _) as [e0|step_number]; [discriminate|].
  rewrite start_as_current_span_eq. intros H.
  apply finished_inv in H as (H & Hobj & ->).
  destruct (bindM _ _ _) as [res fr'] eqn:E. cbn [fst snd] in *. subst res.
  apply bindM_inv in E as (result & fr1 & Hcall & E).
  apply bindM_inv in E as ([] & fr2 & E & E').
  cbn in E'. injection E' as -> <-.
  unfold step_call in Hcall. apply try_except_inv in Hcall.
  apply bindM_inv in Hcall as (out & fr3 & Hcall & Hrest).
  apply call_wrapped_inv in Hcall as (Hcall & _).
  cbn [fr_objects fr_world] in Hcall.
  assert (Hfr1 : r = out /\ fr_objects fr1 = fr_objects fr3
                 /\ fr_world fr1 = fr_world fr3).
  { destruct (negb (is_None out)).
    - do 3 step_through Hrest. unfold ret in Hrest.
      injection Hrest as -> <-. auto.
    - do 3 step_through Hrest. unfold ret in Hrest.
      injection Hrest as -> <-. auto. }
  destruct Hfr1 as (-> & Ho & Hw).
  unfold step_outputs in E.
  do 3 step_through E.
  assert (Hfr2 : fr_objects fr2 = fr_objects fr1 /\ fr_world fr2 = fr_world fr1
                 /\ span_status (fr_span fr2) = MkStatus OK None).
  { destruct (negb (is_None a1)).
    - do 7 step_through E.
      unfold set_attributes, update_span in E. injection E as <-. auto.
    - do 7 step_through E.
      unfold set_attributes, update_span in E. injection E as <-. auto. }
  destruct Hfr2 as (Ho2 & Hw2 & Hstatus).
  rewrite <- Ho, <- Ho2, Hobj, <- Hw, <- Hw2 in Hcall.
  exists (fr_world fr2), (fr_span fr2). auto.
Qed.

(** X17: whenever one of the four wrappers returns a value, the wrapped call
    was made on the objects and in the world the wrapper was given and
    returned that very value; the objects are as the call left them; the
    world is the one the call left, with one more span ended after the
    spans of the call; and that span has status OK. *)
Theorem wrapper_returns_only_what_wrapped_returned
    (get_json_schema : pyval -> result pyval) (wrapped : Callable)
    (objects objects' : Objects) (kwargs : list (string * pyval))
    (world world1 : World) (r : pyval) :
  suppress_instrumentation world = false ->
  _RunWrapper wrapped objects kwargs world = (inr r, objects', world1)
  \/ _StepWrapper wrapped objects kwargs world = (inr r, objects', world1)
  \/ _ModelWrapper get_json_schema wrapped objects kwargs world
     = (inr r, objects', world1)
  \/ _ToolCallWrapper wrapped objects kwargs world = (inr r, objects', world1) ->
  exists world' span,
    fn_call wrapped objects kwargs world = (inr r, objects', world')
    /\ world1 = export span world'
    /\ span_status span = MkStatus OK None.
Proof.
  intros Htraced [H|[H|[H|H]]].
  - eapply run_return_inv; eassumption.
  - eapply step_return_inv; eassumption.
  - eapply model_return_inv; eassumption.
  - eapply tool_return_inv; eassumption.
Qed.

Lemma wrapper_returns_only_what_wrapped_returned_witness :
  exists world' span,
    fn_call model_call model_objects hello traced_world
    = (inr sample_message, model_objects, world')
    /\ model_outcome.2 = export span world'
    /\ span_status span = MkStatus OK None.
Proof.
  apply (wrapper_returns_only_what_wrapped_returned
           (fun _ => Ok (VDict [])) model_call model_objects model_objects hello
           traced_world model_outcome.2 sample_message eq_refl).
  right. right. left. vm_compute. reflexivity.
Defined.

(** ** What the step and the run span carry *)

Lemma step_span_attributes objects world span0 key :
  step_span_at_call objects world = inr span0 ->
  key <> OPENINFERENCE_SPAN_KIND ->
  span_attributes span0 !! key = None.
Proof.
  unfold step_span_at_call. intros H Hne.
  destruct (getattr _ "step_number"); [discriminate|]. cbn [bind] in H.
  apply opened_ret in H as ->. cbn [span_attributes set_all foldl fst snd].
  rewrite lookup_insert_ne by congruence. apply lookup_empty.
Qed.

(** X18: on a step that returns, the span has the attribute [Final answer]
    exactly when the result is not [None], and then it is the result; the
    attribute [Observations] is the observation text of the step log.  The
    ambient attributes, merged last, come first where they use these
    keys. *)
Theorem step_final_answer_unless_None
    (wrapped : Callable) (objects objects' : Objects)
    (kwargs : list (string * pyval)) (world world' : World) (span0 : Span)
    (result step_log : pyval) (rest : list pyval) (error observations : pyval) :
  suppress_instrumentation world = false ->
  step_span_at_call objects world = inr span0 ->
  fn_call wrapped objects kwargs world = (inr result, objects', world') ->
  obj_args objects' = step_log :: rest ->
  getattr step_log "error" = inr error ->
  getattr step_log "observations" = inr observations ->
  exists span,
    _StepWrapper wrapped objects kwargs world
    = (inr result, objects', export span world')
    /\ span_attributes span !! "Final answer"
       = match ambient_value "Final answer" world' with
         | Some v => Some v
         | None => if is_None result then None else Some result
         end
    /\ span_attributes span !! "Observations"
       = Some match ambient_value "Observations" world' with
              | Some v => v
              | None => observations
              end.
Proof.
  intros Htraced Hopen Hcall Hargs Herror Hobs.
  eexists. split; [eapply step_returns; eassumption|].
  cbn [span_attributes]. rewrite !merge_ambient_lookup. split.
  - destruct (ambient_value "Final answer" world'); [reflexivity|].
    rewrite lookup_insert_ne by discriminate.
    rewrite lookup_insert_ne by discriminate.
    assert (Hskip : forall m : gmap string pyval,
               (if negb (is_None error)
                then <["Error" := VStr (str error)]> else id) m
               !! "Final answer" = m !! "Final answer").
    { intros m. destruct (negb (is_None error)); [|reflexivity].
      now rewrite lookup_insert_ne by discriminate. }
    rewrite Hskip.
    destruct (is_None result); cbn [negb id].
    + eapply step_span_attributes; [eassumption | discriminate].
    + apply lookup_insert_eq.
  - destruct (ambient_value "Observations" world'); [reflexivity|].
    rewrite lookup_insert_ne by discriminate.
    now rewrite lookup_insert_eq.
Qed.

Lemma step_final_answer_unless_None_witness :
  exists span,
    _StepWrapper answering_step step_objects [] traced_world
    = (inr (VStr "42"), step_objects, export span traced_world)
    /\ span_attributes span !! "Final answer"
       = match ambient_value "Final answer" traced_world with
         | Some v => Some v
         | None => if is_None (VStr "42") then None else Some (VStr "42")
         end
    /\ span_attributes span !! "Observations"
       = Some match ambient_value "Observations" traced_world with
              | Some v => v
              | None => VStr "seen"
              end.
Proof.
  eapply (step_final_answer_unless_None
            answering_step step_objects step_objects [] traced_world
            traced_world _ (VStr "42") (sample_step_log VNone) [] VNone
            (VStr "seen")); vm_compute; reflexivity.
Defined.

(** X19: on a run that returns, the span carries the two token counters of
    [agent.monitor], read after the run, and their sum as the total, and
    the text of the result as output value; the ambient attributes, merged
    last, come first where they use these keys. *)
Theorem run_span_carries_token_counts
    (wrapped : Callable) (objects objects' : Objects)
    (kwargs : list (string * pyval)) (world world' : World) (span0 : Span)
    (agent_output monitor : pyval) (prompt completion : Z) :
  suppress_instrumentation world = false ->
  run_span_at_call wrapped objects kwargs world = inr span0 ->
  fn_call wrapped objects kwargs world = (inr agent_output, objects', world') ->
  getattr (obj_instance objects') "monitor" = inr monitor ->
  getattr monitor "total_input_token_count" = inr (VInt prompt) ->
  getattr monitor "total_output_token_count" = inr (VInt completion) ->
  exists span,
    _RunWrapper wrapped objects kwargs world
    = (inr agent_output, objects', export span world')
    /\ forall key value,
         (key, value) ∈ [(LLM_TOKEN_COUNT_PROMPT, VInt prompt);
                         (LLM_TOKEN_COUNT_COMPLETION, VInt completion);
                         (LLM_TOKEN_COUNT_TOTAL, VInt (prompt + completion));
                         (OUTPUT_VALUE, VStr (str agent_output))] ->
         span_attributes span !! key
         = Some match ambient_value key world' with
                | Some v => v
                | None => value
                end.
Proof.
  intros Htraced Hopen Hcall Hmonitor Hprompt Hcompletion.
  eexists. split; [eapply run_returns; try eassumption; reflexivity|].
  intros key value Hin. cbn [span_attributes].
  rewrite merge_ambient_lookup.
  destruct (ambient_value key world'); [reflexivity|].
  repeat (apply elem_of_cons in Hin as [[= -> ->]|Hin]);
    [ | | | | now apply elem_of_nil in Hin ].
  - do 3 rewrite lookup_insert_ne by discriminate. now rewrite lookup_insert_eq.
  - do 2 rewrite lookup_insert_ne by discriminate. now rewrite lookup_insert_eq.
  - rewrite lookup_insert_ne by discriminate. now rewrite lookup_insert_eq.
  - now rewrite lookup_insert_eq.
Qed.

Lemma run_span_carries_token_counts_witness :
  exists span,
    _RunWrapper (constant_callable (Ok (VStr "4"))) sample_objects []
                traced_world
    = (inr (VStr "4"), sample_objects, export span traced_world)
    /\ forall key value,
         (key, value) ∈ [(LLM_TOKEN_COUNT_PROMPT, VInt 10);
                         (LLM_TOKEN_COUNT_COMPLETION, VInt 5);
                         (LLM_TOKEN_COUNT_TOTAL, VInt (10 + 5));
                         (OUTPUT_VALUE, VStr (str (VStr "4")))] ->
         span_attributes span !! key
         = Some match ambient_value key traced_world with
                | Some v => v
                | None => value
                end.
Proof.
  eapply (run_span_carries_token_counts
            (constant_callable (Ok (VStr "4"))) sample_objects sample_objects
            [] traced_world traced_world _ (VStr "4")
            (plain_object "Monitor"
               [("total_input_token_count", VInt 10);
                ("total_output_token_count", VInt 5)]) 10 5);
    vm_compute; reflexivity.
Defined.

(** ** The description of the managed agents *)

(** X20: the entry the run wrapper writes for a managed agent takes its
    tool names from the tools of the running agent, not from those of the
    managed agent, and its model text is empty when the model of the
    managed agent has no [model_id]: the conditional expression covers the
    class name as well. *)
Theorem managed_agent_entry_tools_and_model (agent managed_agent entry : pyval) :
  managed_agent_entry agent managed_agent = inr entry ->
  exists (d : list (string * pyval)) (sub_agent sub_model tools_names : pyval),
    entry = VDict d
    /\ getattr managed_agent "agent" = inr sub_agent
    /\ getattr sub_agent "model" = inr sub_model
    /\ (tools <- getattr agent "tools" ;; dict_keys tools) = inr tools_names
    /\ dict_get "tools_names" d = Some tools_names
    /\ dict_get "model" d
       = Some (VStr match lookup_attr sub_model "model_id" with
                    | Some model_id =>
                        type_name sub_model +:+ " - " +:+ str model_id
                    | None => ""
                    end).
Proof.
  unfold managed_agent_entry. intros H.
  apply bind_inv in H as (name & _ & H).
  apply bind_inv in H as (description & _ & H).
  apply bind_inv in H as (additional_prompting & _ & H).
  apply bind_inv in H as (sub_agent & Hsub & H).
  apply bind_inv in H as (sub_model & Hmodel & H).
  apply bind_inv in H as (model & Hm & H).
  apply bind_inv in H as (max_steps & _ & H).
  apply bind_inv in H as (tools & Htools & H).
  apply bind_inv in H as (tools_names & Hnames & H).
  injection H as <-.
  eexists _, sub_agent, sub_model, tools_names.
  split; [reflexivity|]. split; [exact Hsub|]. split; [exact Hmodel|].
  split; [now rewrite Htools|]. split; [reflexivity|].
  cbn [dict_get String.eqb Ascii.eqb Bool.eqb]. f_equal.
  unfold hasattr, getattr in Hm.
  destruct (lookup_attr sub_model "model_id") as [model_id|].
  - rewrite bool_decide_eq_true_2 in Hm by eauto. cbn [bind Ok] in Hm.
    now injection Hm as <-.
  - rewrite bool_decide_eq_false_2 in Hm by (intros [? ?]; discriminate).
    now injection Hm as <-.
Qed.

Lemma managed_agent_entry_tools_and_model_witness :
  exists (entry : pyval) (d : list (string * pyval))
         (sub_agent sub_model tools_names : pyval),
    managed_agent_entry sample_agent sample_managed_agent = inr entry
    /\ entry = VDict d
    /\ getattr sample_managed_agent "agent" = inr sub_agent
    /\ getattr sub_agent "model" = inr sub_model
    /\ (tools <- getattr sample_agent "tools" ;; dict_keys tools)
       = inr tools_names
    /\ dict_get "tools_names" d = Some tools_names
    /\ dict_get "model" d
       = Some (VStr match lookup_attr sub_model "model_id" with
                    | Some model_id =>
                        type_name sub_model +:+ " - " +:+ str model_id
                    | None => ""
                    end).
Proof.
  eexists.
  destruct (managed_agent_entry_tools_and_model
              sample_agent sample_managed_agent _ eq_refl)
    as (d & sub_agent & sub_model & tools_names & H).
  exists d, sub_agent, sub_model, tools_names.
  split; [reflexivity | exact H].
Defined.

(** ** The messages and the tools of a model call *)

Lemma llm_input_messages_of_list (arguments : list (string * pyval))
    (messages : list pyval) :
  is_str (dict_get_or_None "prompt" arguments) = false ->
  dict_get "messages" arguments = Some (VList messages) ->
  _llm_input_messages arguments = concat (imap input_message_entries messages).
Proof.
  unfold _llm_input_messages, dict_get_or_None. intros Hprompt ->.
  destruct (dict_get "prompt" arguments) as [[]|]; try reflexivity.
  discriminate Hprompt.
Qed.


(** ** The messages and the tools of a model call *)

(** X21: when the arguments of a model call hold no prompt string and
    [messages] is a list, the input message attributes are exactly the
    [role] and the [content] of the elements that are dictionaries, each
    under the index the element has in the list, and without those that
    are [None]; elements that are not dictionaries are passed over and
    still count for the index. *)
Theorem llm_input_messages_keep_their_index
    (arguments : list (string * pyval)) (messages : list pyval) :
  is_str (dict_get_or_None "prompt" arguments) = false ->
  dict_get "messages" arguments = Some (VList messages) ->
  forall (key : string) (value : pyval),
    (key, value) ∈ _llm_input_messages arguments
    <-> exists (i : nat) (m : list (string * pyval)),
          messages !! i = Some (VDict m)
          /\ value <> VNone
          /\ ((dict_get "role" m = Some value
               /\ key = LLM_INPUT_MESSAGES +:+ "." +:+ pretty i +:+ "."
                        +:+ MESSAGE_ROLE)
              \/ (dict_get "content" m = Some value
                  /\ key = LLM_INPUT_MESSAGES +:+ "." +:+ pretty i +:+ "."
                           +:+ MESSAGE_CONTENT)).
Proof.
  intros Hprompt Hmessages key value.
  assert (Hget : forall (name : string) (m : list (string * pyval)) (v : pyval),
             (v ∈ (if negb (is_None (dict_get_or_None name m))
                   then [dict_get_or_None name m] else []))
             <-> dict_get name m = Some v /\ v <> VNone).
  { intros name m v. unfold dict_get_or_None.
    destruct (dict_get name m) as [x|]; cbn [is_None negb].
    - destruct x; cbn [is_None negb]; rewrite ?list_elem_of_singleton;
        try (rewrite elem_of_nil; split; [tauto | intros [[= <-] H]; congruence]);
        (split; [intros ->; split; [reflexivity | discriminate]
                | intros [[= <-] _]; reflexivity]).
    - rewrite elem_of_nil. split; [tauto | intros [[=] _]]. }
  rewrite (llm_input_messages_of_list _ _ Hprompt Hmessages).
  rewrite list_elem_of_In, in_concat. split.
  - intros (l & Hl & Hin).
    apply list_elem_of_In, elem_of_lookup_imap in Hl as (i & message & -> & Hi).
    apply list_elem_of_In in Hin.
    unfold input_message_entries in Hin.
    destruct message as [| | | | | |m| | |];
      try (now apply elem_of_nil in Hin).
    exists i, m. split; [exact Hi|].
    apply elem_of_app in Hin as [Hin|Hin].
    + assert (Hv : key = LLM_INPUT_MESSAGES +:+ "." +:+ pretty i +:+ "."
                         +:+ MESSAGE_ROLE
                   /\ value ∈ (if negb (is_None (dict_get_or_None "role" m))
                               then [dict_get_or_None "role" m] else [])).
      { cbv zeta in Hin. destruct (negb _).
        - apply list_elem_of_singleton in Hin. injection Hin as -> ->.
          split; [reflexivity | now apply list_elem_of_singleton].
        - now apply elem_of_nil in Hin. }
      destruct Hv as (-> & Hv). apply Hget in Hv as (Hv & Hne). auto.
    + assert (Hv : key = LLM_INPUT_MESSAGES +:+ "." +:+ pretty i +:+ "."
                         +:+ MESSAGE_CONTENT
                   /\ value ∈ (if negb (is_None (dict_get_or_None "content" m))
                               then [dict_get_or_None "content" m] else [])).
      { cbv zeta in Hin. destruct (negb _).
        - apply list_elem_of_singleton in Hin. injection Hin as -> ->.
          split; [reflexivity | now apply list_elem_of_singleton].
        - now apply elem_of_nil in Hin. }
      destruct Hv as (-> & Hv). apply Hget in Hv as (Hv & Hne). auto.
  - intros (i & m & Hi & Hne & Hcase).
    eexists. split.
    + apply list_elem_of_In, elem_of_lookup_imap. exists i, (VDict m).
      split; [reflexivity | exact Hi].
    + apply list_elem_of_In. unfold input_message_entries.
      apply elem_of_app. cbv zeta.
      destruct Hcase as [(Hv & ->)|(Hv & ->)]; [left|right].
      * assert (Hin := proj2 (Hget "role" m value) (conj Hv Hne)).
        destruct (negb _); [|now apply elem_of_nil in Hin].
        apply list_elem_of_singleton in Hin as ->.
        now apply list_elem_of_singleton.
      * assert (Hin := proj2 (Hget "content" m value) (conj Hv Hne)).
        destruct (negb _); [|now apply elem_of_nil in Hin].
        apply list_elem_of_singleton in Hin as ->.
        now apply list_elem_of_singleton.
Qed.

Lemma llm_input_messages_keep_their_index_witness :
  ("llm.input_messages.1.message.content", VStr "hi")
  ∈ _llm_input_messages
      [("messages", VList [VStr "skipped";
                           VDict [("role", VNone); ("content", VStr "hi")]])].
Proof.
  apply (llm_input_messages_keep_their_index
           [("messages", VList [VStr "skipped";
                                VDict [("role", VNone); ("content", VStr "hi")]])]
           [VStr "skipped"; VDict [("role", VNone); ("content", VStr "hi")]]
           eq_refl eq_refl).
  exists 1%nat, [("role", VNone); ("content", VStr "hi")].
  split; [reflexivity|]. split; [discriminate|]. right. split; reflexivity.
Defined.

Lemma llm_tools_from_elem get_json_schema (tools : list pyval) :
  forall (tool_index : nat) (out : list (string * pyval)),
    llm_tools_from get_json_schema tool_index tools = inr out ->
    forall (key : string) (value : pyval),
      (key, value) ∈ out
      <-> exists (i : nat) (tool schema : pyval) (dumped : string),
            tools !! i = Some tool
            /\ isinstance_of tool "Tool" = true
            /\ get_json_schema tool = inr schema
            /\ safe_json_dumps None schema = inr dumped
            /\ value = VStr dumped
            /\ key = LLM_TOOLS +:+ "." +:+ pretty (tool_index + i)%nat +:+ "."
                     +:+ TOOL_JSON_SCHEMA.
Proof.
  induction tools as [|tool tools IH]; intros tool_index out;
    cbn [llm_tools_from].
  - intros [= <-] key value. rewrite elem_of_nil. split; [tauto|].
    intros (i & t & _ & _ & Hi & _). discriminate Hi.
  - intros H. apply bind_inv in H as (here & Hhere & H).
    apply bind_inv in H as (more & Hmore & H). injection H as <-.
    intros key value. rewrite elem_of_app, (IH _ _ Hmore). split.
    + intros [Hin|(i & t & schema & dumped & Hi & Hrest)].
      * destruct (isinstance_of tool "Tool") eqn:Htool.
        -- apply bind_inv in Hhere as (schema & Hschema & Hhere).
           apply bind_inv in Hhere as (dumped & Hdumped & Hhere).
           injection Hhere as <-.
           apply list_elem_of_singleton in Hin. injection Hin as -> ->.
           exists 0%nat, tool, schema, dumped.
           rewrite Nat.add_0_r. auto 10.
        -- injection Hhere as <-. now apply elem_of_nil in Hin.
      * exists (S i), t, schema, dumped.
        rewrite Nat.add_succ_r. exact (conj Hi Hrest).
    + intros (i & t & schema & dumped & Hi & Htool & Hschema & Hdumped & -> & ->).
      destruct i as [|i].
      * left. cbn in Hi. injection Hi as ->.
        rewrite Htool, Hschema in Hhere. cbn [bind] in Hhere.
        rewrite Hdumped in Hhere. injection Hhere as <-.
        rewrite Nat.add_0_r. now apply list_elem_of_singleton.
      * right. exists i, t, schema, dumped. rewrite Nat.add_succ_r. auto 10.
Qed.

(** X22: when [_llm_tools] returns, it has one attribute for every element
    of the list that is an instance of [Tool], under the index the
    element has in the list and holding the encoded schema of the tool,
    and nothing else; what is not a list gives no attribute. *)
Theorem llm_tools_keep_their_index
    (get_json_schema : pyval -> result pyval) (tools : list pyval)
    (out : list (string * pyval)) :
  _llm_tools get_json_schema (VList tools) = inr out ->
  (forall (key : string) (value : pyval),
     (key, value) ∈ out
     <-> exists (i : nat) (tool schema : pyval) (dumped : string),
           tools !! i = Some tool
           /\ isinstance_of tool "Tool" = true
           /\ get_json_schema tool = inr schema
           /\ safe_json_dumps None schema = inr dumped
           /\ value = VStr dumped
           /\ key = LLM_TOOLS +:+ "." +:+ pretty i +:+ "." +:+ TOOL_JSON_SCHEMA)
  /\ forall other : pyval,
       is_List other = false -> _llm_tools get_json_schema other = Ok [].
Proof.
  cbn [_llm_tools]. intros H. split.
  - intros key value.
    rewrite (llm_tools_from_elem _ _ _ _ H key value). reflexivity.
  - intros other Hother. destruct other; try reflexivity. discriminate.
Qed.

Lemma llm_tools_keep_their_index_witness :
  exists out,
    _llm_tools (fun _ => Ok (VDict [])) (VList [VInt 0; sample_tool]) = inr out
    /\ ("llm.tools.1.tool.json_schema", VStr "{}") ∈ out.
Proof.
  eexists. split; [vm_compute; reflexivity|].
  destruct (llm_tools_keep_their_index
              (fun _ => Ok (VDict [])) [VInt 0; sample_tool]
              [("llm.tools.1.tool.json_schema", VStr "{}")] eq_refl)
    as [Helem _].
  apply Helem. exists 1%nat, sample_tool, (VDict []), "{}".
  repeat split.
Defined.

(** ** The run and the tool wrapper before the call *)

(** X23: the run wrapper encodes the additional arguments of the run with
    the plain [json.dumps] before its [try] block.  When they hold a value
    that [json.dumps] refuses, the wrapper raises the [TypeError] without
    running the agent, although the input value could be computed with the
    safe encoder: objects and world are as they were, but for the span,
    which ends with status unset and nothing recorded. *)
Theorem run_additional_args_not_serialisable_stop_the_run
    (wrapped : Callable) (objects : Objects) (kwargs : list (string * pyval))
    (world : World) (input_value : string) (task : pyval) (e : exc) :
  suppress_instrumentation world = false ->
  _get_input_value (fn_signature wrapped) (obj_args objects) kwargs
  = inr input_value ->
  getattr (obj_instance objects) "task" = inr task ->
  truthy (dict_get_or_None "additional_args" kwargs) = true ->
  json_dumps (dict_get_or_None "additional_args" kwargs) = inl e ->
  _RunWrapper wrapped objects kwargs world
  = (inl e, objects,
     export
       (MkSpan (type_name (obj_instance objects) +:+ ".run")
               (<["task" := task]>
                  (<["agent_name" := VStr (type_name (obj_instance objects))]>
                     (<[INPUT_VALUE := task]>
                        (<[INPUT_VALUE := VStr input_value]>
                           (<[OPENINFERENCE_SPAN_KIND := VStr AGENT]> ∅)))))
               (MkStatus UNSET None) [])
       world).
Proof.
  intros Htraced Hinput Htask Htruthy Hdumps.
  unfold _RunWrapper. rewrite Htraced, Hinput. cbn [bind].
  rewrite flatten_kind_and_input. cbn [bind Ok].
  rewrite start_as_current_span_eq.
  match goal with
  | |- context [bindM (run_inputs kwargs) _ ?fr] =>
      assert (Hbody :
        run_inputs kwargs fr
        = (inl e,
           MkFrame
             (MkSpan (span_name (fr_span fr))
                (<["task" := task]>
                   (<["agent_name" := VStr (type_name (obj_instance objects))]>
                      (<[INPUT_VALUE := task]> (span_attributes (fr_span fr)))))
                (MkStatus UNSET None) [])
             objects world))
  end.
  { rewrite (run_inputs_eq _ _ task) by exact Htask.
    unfold run_describe. forward. rewrite Htruthy, Hdumps. reflexivity. }
  rewrite (bindM_inl _ _ _ _ _ Hbody). reflexivity.
Qed.

Lemma run_additional_args_not_serialisable_stop_the_run_witness :
  exists input_value span,
    _get_input_value (fn_signature run_callable) [VStr "2+2"] frame_argument
    = inr input_value
    /\ _RunWrapper run_callable (MkObjects sample_agent [VStr "2+2"])
                   frame_argument traced_world
       = (Err (TypeError "Object of type DataFrame is not JSON serializable"),
          MkObjects sample_agent [VStr "2+2"], export span traced_world)
    /\ span_status span = MkStatus UNSET None.
Proof.
  eexists _, _. split; [vm_compute; reflexivity|].
  split.
  - eapply (run_additional_args_not_serialisable_stop_the_run
              run_callable (MkObjects sample_agent [VStr "2+2"]) frame_argument
             traced_world _ (VStr "2+2"));
      vm_compute; reflexivity.
  - reflexivity.
Defined.

(** X24: the tool wrapper has a branch for a call without a receiver, which
    names the span after the wrapped function; but the first statement of
    its span block reads [instance.__class__.name], which the class of
    [None] does not have.  When the receiver is [None], the wrapper
    raises that [AttributeError] and never calls the wrapped function. *)
Theorem tool_wrapper_without_receiver_raises
    (wrapped : Callable) (objects : Objects) (kwargs : list (string * pyval))
    (world : World) (input_value : string) :
  suppress_instrumentation world = false ->
  obj_instance objects = VNone ->
  _get_input_value (fn_signature wrapped) (obj_args objects) kwargs
  = inr input_value ->
  _ToolCallWrapper wrapped objects kwargs world
  = (Err (AttributeError "type object 'NoneType' has no attribute 'name'"),
     objects,
     export
       (MkSpan (fn_name wrapped)
               (<[INPUT_VALUE := VStr input_value]>
                  (<[OPENINFERENCE_SPAN_KIND := VStr TOOL]> ∅))
               (MkStatus UNSET None) [])
       world).
Proof.
  intros Htraced Hnone Hinput.
  unfold _ToolCallWrapper. rewrite Htraced, Hinput, Hnone. cbn [bind truthy].
  rewrite flatten_kind_and_input. cbn [bind Ok].
  rewrite start_as_current_span_eq.
  match goal with
  | |- context [bindM (tool_inputs kwargs) _ ?fr] =>
      assert (Hbody :
        tool_inputs kwargs fr
        = (Err (AttributeError "type object 'NoneType' has no attribute 'name'"),
           fr))
  end.
  { unfold tool_inputs. forward. rewrite Hnone. reflexivity. }
  rewrite (bindM_inl _ _ _ _ _ Hbody). reflexivity.
Qed.

Lemma tool_wrapper_without_receiver_raises_witness :
  exists span,
    _ToolCallWrapper (constant_callable (Ok (VStr "found")))
                     (MkObjects VNone [VInt 1; VInt 2]) [] traced_world
    = (Err (AttributeError "type object 'NoneType' has no attribute 'name'"),
       MkObjects VNone [VInt 1; VInt 2], export span traced_world)
    /\ span_name span = "f".
Proof.
  eexists. split.
  - eapply (tool_wrapper_without_receiver_raises
              (constant_callable (Ok (VStr "found")))
             (MkObjects VNone [VInt 1; VInt 2]) [] traced_world);
      vm_compute; reflexivity.
  - reflexivity.
Defined.

(** ** The output of the model span *)


